(** * Heinrich, the inventing machine: a shallow embedding of the TRIZ pipeline

    The development follows the Python sources file by file.  Every module
    below carries the name of the source file it embeds and keeps the names
    of the classes, methods and fields of that file.

    Modelling conventions.
    - A Python [float] is an exact rational of [Q]; the rounding of
      binary64 is not modelled.  The scores of the pipeline are short sums
      of decimal constants, quotients of two list lengths, halves of such
      numbers, and clamps of them.
    - A Python [int] is a [Z]; a length is a [nat].
    - A Python [str] is a [string] of ASCII characters; [str.lower] maps
      [A-Z] to [a-z], the class [\w] is [[A-Za-z0-9_]] and the class [\s]
      is the ASCII white space.
    - A raised exception is a value of [result]; a method that cannot raise
      returns its value directly.
    - A [dict] that is only read by key is a [gmap]; a [dict] whose
      iteration order reaches the output is an association list in insertion
      order; a [set] is a [gset], whose enumeration order (like Python's) is
      left unspecified by every statement below.
    - The YAML and CSV knowledge files are not part of the sources: the
      parsed content of a file is an argument of the constructor or loader
      that reads it. *)

From Stdlib Require Import Ascii String QArith Qminmax Lqa DecimalString.
From stdpp Require Import base gmap strings list sorting.

Open Scope string_scope.

(** ** Python preliminaries *)

Module Py.

(** Exceptions raised by the embedded code. *)
Inductive exn : Type :=
| AttributeError
| KeyError
| StopIteration
| ZeroDivisionError
| FileNotFoundError
| ValueError.

Inductive result (A : Type) : Type :=
| Ok (a : A)
| Raise (e : exn).
Arguments Ok {A} a.
Arguments Raise {A} e.

Definition bind {A B : Type} (r : result A) (k : A -> result B) : result B :=
  match r with
  | Ok a => k a
  | Raise e => Raise e
  end.

Definition is_ok {A : Type} (r : result A) : bool :=
  match r with Ok _ => true | Raise _ => false end.

(** [d[k]] on a dict: [KeyError] when the key is absent. *)
Definition getitem {K V : Type} `{Countable K} (d : gmap K V) (k : K) : result V :=
  match d !! k with
  | Some v => Ok v
  | None => Raise KeyError
  end.

(** [k in d] on a dict. *)
Definition has_key {K V : Type} `{Countable K} (d : gmap K V) (k : K) : bool :=
  match d !! k with
  | Some _ => true
  | None => false
  end.

(** [next(x for x in l if p x)]: [StopIteration] when nothing qualifies. *)
Definition next {A : Type} (p : A -> bool) (l : list A) : result A :=
  match List.find p l with
  | Some a => Ok a
  | None => Raise StopIteration
  end.

(** Comparisons of scores. *)
Definition Qltb (x y : Q) : bool := negb (Qle_bool y x).
Definition Qgtb (x y : Q) : bool := Qltb y x.
Definition Qgeb (x y : Q) : bool := Qle_bool y x.

(** [min(a, b)] and [max(a, b)] of Python: the first argument wins a tie. *)
Definition min (a b : Q) : Q := if Qltb b a then b else a.
Definition max (a b : Q) : Q := if Qgtb b a then b else a.

(** [a / b] on two integers (true division). *)
Definition truediv (a b : Z) : result Q :=
  if Z.eqb b 0 then Raise ZeroDivisionError else Ok (inject_Z a / inject_Z b)%Q.

(** [str(n)] and the [{n}] of an f-string, for an integer. *)
Definition str_of_int (n : Z) : string := NilZero.string_of_int (Z.to_int n).

(** Characters. *)
Definition is_upper (c : ascii) : bool :=
  let n := nat_of_ascii c in (65 <=? n)%nat && (n <=? 90)%nat.
Definition is_lower (c : ascii) : bool :=
  let n := nat_of_ascii c in (97 <=? n)%nat && (n <=? 122)%nat.
Definition is_digit (c : ascii) : bool :=
  let n := nat_of_ascii c in (48 <=? n)%nat && (n <=? 57)%nat.
(** [\w] *)
Definition is_word (c : ascii) : bool :=
  is_upper c || is_lower c || is_digit c || Ascii.eqb c "_"%char.
(** [\s] and [str.isspace] *)
Definition is_space (c : ascii) : bool :=
  let n := nat_of_ascii c in
  ((9 <=? n)%nat && (n <=? 13)%nat) || ((28 <=? n)%nat && (n <=? 32)%nat).

Definition lower_char (c : ascii) : ascii :=
  if is_upper c then ascii_of_nat (nat_of_ascii c + 32) else c.

(** [s.lower()] *)
Fixpoint lower (s : string) : string :=
  match s with
  | EmptyString => EmptyString
  | String c s' => String (lower_char c) (lower s')
  end.

(** [needle in hay] on two strings. *)
Fixpoint contains (needle hay : string) : bool :=
  String.prefix needle hay ||
  match hay with
  | EmptyString => false
  | String _ hay' => contains needle hay'
  end.

(** [s.lstrip()], [s.rstrip()] and [s.strip()] *)
Fixpoint lstrip (s : string) : string :=
  match s with
  | EmptyString => EmptyString
  | String c s' => if is_space c then lstrip s' else s
  end.

Fixpoint rstrip (s : string) : string :=
  match s with
  | EmptyString => EmptyString
  | String c s' =>
      match rstrip s' with
      | EmptyString => if is_space c then EmptyString else String c EmptyString
      | t => String c t
      end
  end.

Definition strip (s : string) : string := rstrip (lstrip s).

(** [s[:n]] *)
Fixpoint str_take (n : nat) (s : string) : string :=
  match n, s with
  | S n', String c s' => String c (str_take n' s')
  | _, _ => EmptyString
  end.

Fixpoint str_drop (n : nat) (s : string) : string :=
  match n, s with
  | S n', String _ s' => str_drop n' s'
  | _, _ => s
  end.

(** The text after the first occurrence of [sep], when there is one: the
    element of index 1 of [text.split(sep, 1)] for a non-empty [sep]. *)
Fixpoint after_first (sep text : string) : option string :=
  if String.prefix sep text then Some (str_drop (String.length sep) text)
  else match text with
       | EmptyString => None
       | String _ text' => after_first sep text'
       end.

(** [text.split(sep, 1)] for a non-empty separator. *)
Fixpoint before_first (sep text : string) : string :=
  if String.prefix sep text then EmptyString
  else match text with
       | EmptyString => EmptyString
       | String c text' => String c (before_first sep text')
       end.

Definition split_once (sep text : string) : list string :=
  match after_first sep text with
  | Some rest => [before_first sep text; rest]
  | None => [text]
  end.

(** [sep.join(l)] *)
Fixpoint join (sep : string) (l : list string) : string :=
  match l with
  | [] => EmptyString
  | [x] => x
  | x :: l' => x ++ sep ++ join sep l'
  end.

(** [l.sort(key=key, reverse=True)]: the sort is stable, and with
    [reverse=True] elements of equal key keep their original order. *)
Fixpoint insert_desc {A : Type} (key : A -> Q) (x : A) (l : list A) : list A :=
  match l with
  | [] => [x]
  | y :: l' => if Qltb (key x) (key y) then y :: insert_desc key x l'
               else x :: l
  end.

Fixpoint sort_desc {A : Type} (key : A -> Q) (l : list A) : list A :=
  match l with
  | [] => []
  | x :: l' => insert_desc key x (sort_desc key l')
  end.

(** [s.replace(old, new)] for a non-empty [old]: the occurrences of [old]
    are replaced from left to right, without overlap.  [skip] counts the
    characters of an occurrence that are still to be passed over. *)
Fixpoint replace_from (skip : nat) (old new s : string) : string :=
  match s with
  | EmptyString => EmptyString
  | String c s' =>
      match skip with
      | S k => replace_from k old new s'
      | O =>
          if String.prefix old s
          then new ++ replace_from (String.length old - 1) old new s'
          else String c (replace_from 0 old new s')
      end
  end.

Definition replace (old new s : string) : string := replace_from 0 old new s.

(** A loop that appends the results of [f] to a list and stops at the
    first exception. *)
Fixpoint collect {A B : Type} (f : A -> result (list B)) (l : list A)
    : result (list B) :=
  match l with
  | [] => Ok []
  | x :: l' =>
      match f x with
      | Ok ys =>
          match collect f l' with
          | Ok zs => Ok (ys ++ zs)%list
          | Raise e => Raise e
          end
      | Raise e => Raise e
      end
  end.

(** A dict with integer keys whose order of insertion matters:
    [d.get(k)] and [d[k] = v]. *)
Fixpoint dict_get {V : Type} (d : list (Z * V)) (k : Z) : option V :=
  match d with
  | [] => None
  | (k', v) :: d' => if Z.eqb k k' then Some v else dict_get d' k
  end.

Fixpoint dict_set {V : Type} (d : list (Z * V)) (k : Z) (v : V) : list (Z * V) :=
  match d with
  | [] => [(k, v)]
  | (k', v') :: d' =>
      if Z.eqb k k' then (k, v) :: d' else (k', v') :: dict_set d' k v
  end.

End Py.

Notation "x <- r ;; k" := (Py.bind r (fun x => k))
  (at level 100, r at next level, right associativity, only parsing).

(** ** heinrich/pipelines/adaptation_planner.py *)

Module adaptation_planner.

(** A value stored in a concept dictionary. *)
Inductive pyval : Type :=
| PStr (s : string)
| PInt (n : Z)
| PList (l : list string).

Record AdaptationContext : Type := {
  industry : string;
  company_size : string;
  budget_level : string;
  timeline : string;
  technical_expertise : string;
  risk_tolerance : string;
  existing_infrastructure : list string;
  regulatory_constraints : list string;
  market_requirements : list string
}.

(** [concept.get(k) == s] for a string [s]. *)
Definition get_is (concept : gmap string pyval) (k s : string) : bool :=
  match concept !! k with
  | Some (PStr v) => String.eqb v s
  | _ => false
  end.

Definition _calculate_adaptation_confidence
    (concept : gmap string pyval) (context : AdaptationContext) : Q :=
  let confidence := 0.5%Q in
  let confidence :=
    if String.eqb (budget_level context) "medium"
    then (confidence + 0.2)%Q else confidence in
  let confidence :=
    if String.eqb (timeline context) "medium"
    then (confidence + 0.2)%Q else confidence in
  let confidence :=
    if String.eqb (technical_expertise context) "medium"
    then (confidence + 0.2)%Q else confidence in
  let confidence :=
    if String.eqb (budget_level context) "low"
       && get_is concept "estimated_complexity" "High"
    then (confidence - 0.2)%Q else confidence in
  let confidence :=
    if String.eqb (timeline context) "short"
       && get_is concept "innovation_level" "Breakthrough"
    then (confidence - 0.2)%Q else confidence in
  Py.max 0.1 (Py.min 1.0 confidence).

Record AdaptedConcept : Type := {
  original_concept_id : string;
  adapted_title : string;
  adapted_description : string;
  contextual_modifications : list string;
  implementation_roadmap : list string;
  resource_requirements : gmap string string;
  risk_assessment : gmap string string;
  success_metrics : list string;
  adaptation_confidence : Q
}.

Definition _adapt_concept_title (original_title : string)
    (context : AdaptationContext) : string :=
  if String.eqb (budget_level context) "low"
  then "Budget-Friendly " ++ original_title
  else if String.eqb (timeline context) "short"
  then "Quick-Implementation " ++ original_title
  else if String.eqb (company_size context) "startup"
  then "Startup-Suitable " ++ original_title
  else "Enterprise " ++ original_title.

Definition _adapt_concept_description (original_description : string)
    (context : AdaptationContext) : string :=
  let adapted := original_description in
  if String.eqb (budget_level context) "low"
  then adapted ++ " This adaptation focuses on cost-effective implementation using available resources."
  else if String.eqb (technical_expertise context) "low"
  then adapted ++ " This approach uses accessible technology and can leverage external expertise."
  else if String.eqb (timeline context) "short"
  then adapted ++ " This implementation prioritizes quick deployment and immediate benefits."
  else adapted.

Definition _generate_contextual_modifications (concept : gmap string pyval)
    (context : AdaptationContext) : list string :=
  let modifications : list string := [] in
  let modifications :=
    if String.eqb (budget_level context) "low"
    then (modifications ++
          ["Use off-the-shelf components instead of custom development";
           "Implement in phases to spread costs over time";
           "Leverage existing infrastructure and tools"])%list
    else if String.eqb (budget_level context) "high"
    then (modifications ++
          ["Incorporate premium materials for enhanced performance";
           "Invest in custom development for optimal results";
           "Include comprehensive testing and validation"])%list
    else modifications in
  let modifications :=
    if String.eqb (timeline context) "short"
    then (modifications ++
          ["Prioritize quick wins and immediate benefits";
           "Use proven technologies to minimize development time";
           "Implement with minimal customization initially"])%list
    else if String.eqb (timeline context) "long"
    then (modifications ++
          ["Include thorough research and development phase";
           "Plan for extensive testing and validation";
           "Consider breakthrough innovations that require more time"])%list
    else modifications in
  let modifications :=
    if String.eqb (technical_expertise context) "low"
    then (modifications ++
          ["Partner with external experts for complex aspects";
           "Use simplified versions of advanced technologies";
           "Include comprehensive training and documentation"])%list
    else if String.eqb (technical_expertise context) "high"
    then (modifications ++
          ["Leverage internal expertise for custom optimization";
           "Explore advanced variations of the core concept";
           "Include research components for further innovation"])%list
    else modifications in
  take 5 modifications.

Definition base_steps : list string :=
  [ "1. Assess current capabilities and resources";
    "2. Acquire necessary materials and components";
    "3. Develop prototype or pilot implementation";
    "4. Test and validate the solution";
    "5. Deploy and monitor performance";
    "6. Optimize based on real-world feedback" ].

Definition _generate_implementation_roadmap (concept : gmap string pyval)
    (context : AdaptationContext) : list string :=
  let roadmap :=
    if String.eqb (timeline context) "short"
    then [ "1. Quick assessment and resource acquisition (1-2 weeks)";
           "2. Rapid prototyping and initial testing (2-4 weeks)";
           "3. Immediate deployment with basic optimization (1-2 weeks)";
           "4. Performance monitoring and quick iterations (ongoing)" ]
    else if String.eqb (timeline context) "long"
    then [ "1. Comprehensive capability and resource assessment (2-4 weeks)";
           "2. Detailed planning and specification development (3-6 weeks)";
           "3. Extensive prototyping with multiple iterations (8-12 weeks)";
           "4. Thorough testing and validation across scenarios (6-8 weeks)";
           "5. Phased deployment with monitoring (4-6 weeks)";
           "6. Continuous optimization and enhancement (ongoing)" ]
    else base_steps in
  if String.eqb (budget_level context) "low"
  then map (fun step =>
              Py.replace "extensive" "targeted"
                (Py.replace "comprehensive" "focused" step)) roadmap
  else roadmap.

Definition _assess_resource_requirements (concept : gmap string pyval)
    (context : AdaptationContext) : gmap string string :=
  let requirements : gmap string string := ∅ in
  let requirements :=
    if String.eqb (budget_level context) "low"
    then <["financial" := "Minimal investment required - leverage existing resources"]> requirements
    else if String.eqb (budget_level context) "medium"
    then <["financial" := "Moderate investment - some new equipment or materials needed"]> requirements
    else <["financial" := "Significant investment - custom development and premium components"]> requirements in
  let requirements :=
    if String.eqb (timeline context) "short"
    then <["time" := "1-3 months for initial implementation"]> requirements
    else if String.eqb (timeline context) "medium"
    then <["time" := "3-6 months for full implementation"]> requirements
    else <["time" := "6-12 months for complete development and deployment"]> requirements in
  let requirements :=
    if String.eqb (technical_expertise context) "low"
    then <["expertise" := "External consultation recommended for complex aspects"]> requirements
    else if String.eqb (technical_expertise context) "medium"
    then <["expertise" := "Internal team can handle most aspects with some training"]> requirements
    else <["expertise" := "Internal expertise sufficient for full implementation"]> requirements in
  let existing_infra := existing_infrastructure context in
  match existing_infra with
  | _ :: _ =>
      <["infrastructure" := "Can leverage: " ++ Py.join ", " (take 3 existing_infra)]>
        requirements
  | [] =>
      <["infrastructure" := "New infrastructure investment may be required"]>
        requirements
  end.

Definition _assess_risks (concept : gmap string pyval)
    (context : AdaptationContext) : gmap string string :=
  let risks : gmap string string := ∅ in
  let risks :=
    if String.eqb (technical_expertise context) "low"
    then <["technical" := "Medium - Limited internal expertise may require external support"]> risks
    else <["technical" := "Low - Sufficient expertise to manage implementation"]> risks in
  let risks :=
    if String.eqb (budget_level context) "low"
    then <["financial" := "Low - Minimal financial exposure"]> risks
    else if String.eqb (budget_level context) "high"
    then <["financial" := "Medium - Significant investment with potential overruns"]> risks
    else <["financial" := "Low - Moderate investment with controlled budget"]> risks in
  let risks :=
    if String.eqb (timeline context) "short"
    then <["timeline" := "High - Aggressive schedule may compromise quality"]> risks
    else if String.eqb (timeline context) "long"
    then <["timeline" := "Low - Ample time for proper development"]> risks
    else <["timeline" := "Medium - Standard timeline with some flexibility"]> risks in
  match regulatory_constraints context with
  | _ :: _ =>
      <["regulatory" := "Medium - Must address: "
                          ++ Py.join ", " (take 2 (regulatory_constraints context))]>
        risks
  | [] => <["regulatory" := "Low - No significant regulatory concerns"]> risks
  end.

Definition in_list (x : string) (l : list string) : bool :=
  existsb (String.eqb x) l.

Definition _define_success_metrics (concept : gmap string pyval)
    (context : AdaptationContext) : list string :=
  let metrics :=
    [ "Achievement of original performance objectives";
      "Implementation within budget constraints";
      "Deployment within specified timeline";
      "User satisfaction and acceptance" ] in
  let metrics :=
    if in_list (Py.lower (industry context)) ["automotive"; "manufacturing"]
    then (metrics ++ ["Improvement in production efficiency or quality"])%list
    else if in_list (Py.lower (industry context)) ["medical"; "healthcare"]
    then (metrics ++ ["Compliance with regulatory requirements and safety standards"])%list
    else if in_list (Py.lower (industry context)) ["energy"; "environmental"]
    then (metrics ++ ["Reduction in environmental impact or energy consumption"])%list
    else metrics in
  if String.eqb (company_size context) "startup"
  then (metrics ++ ["Time to market and competitive advantage"])%list
  else if String.eqb (company_size context) "enterprise"
  then (metrics ++ ["Scalability and integration with existing systems"])%list
  else metrics.

(** The score that [_select_recommended_concept] gives to one concept. *)
Definition fit_score (context : AdaptationContext) (concept : AdaptedConcept) : Q :=
  let score := adaptation_confidence concept in
  if String.eqb (company_size context) "startup"
     && (length (implementation_roadmap concept) <=? 4)%nat
  then (score + 0.1)%Q
  else if String.eqb (company_size context) "enterprise"
          && match risk_assessment concept !! "technical" with
             | Some v => String.eqb v "Low"
             | None => false
             end
  then (score + 0.1)%Q
  else score.


End adaptation_planner.

(** ** The records of the knowledge files

    [39_parameters.yaml] holds a list of parameters and [40_principles.yaml]
    a list of principles; the code reads the keys [id], [name],
    [description] and, with a default, [examples]. *)

Module knowledge.

Record TrizParameter : Type := {
  param_id : Z;
  param_name : string;
  param_description : string
}.

Record TrizPrinciple : Type := {
  princ_id : Z;
  princ_name : string;
  princ_description : string;
  princ_examples : option (list string)
}.

(** [{p['id']: p for p in data}]: a later record replaces an earlier one
    of the same id. *)
Definition index_by {A : Type} (key : A -> Z) (data : list A) : gmap Z A :=
  fold_left (fun d p => <[key p := p]> d) data ∅.

(** The two assignments under the comment [# Matrix is symmetric], in both
    loaders of the contradiction matrix. *)
Definition store_symmetric (matrix : gmap (Z * Z) (list Z))
    (param1 param2 : Z) (princ : list Z) : gmap (Z * Z) (list Z) :=
  <[(param2, param1) := princ]> (<[(param1, param2) := princ]> matrix).

End knowledge.

(** ** heinrich/pipelines/principle_selector.py *)

Module principle_selector.
Import knowledge.

Record PrincipleRecommendation : Type := {
  principle_id : Z;
  principle_name : string;
  principle_description : string;
  relevance_score : Q;
  reasoning : string;
  examples : list string
}.

Record PrincipleSelectionResult : Type := {
  recommendations : list PrincipleRecommendation;
  primary_principles : list PrincipleRecommendation;
  supporting_principles : list PrincipleRecommendation;
  matrix_source : string
}.

(** The attributes of a [PrincipleSelector].  [parameters_data] is read by
    [_generate_reasoning]; [None] stands for an object without that
    attribute. *)
Record PrincipleSelector : Type := {
  principles_data : list TrizPrinciple;
  principles : gmap Z TrizPrinciple;
  contradiction_matrix : gmap (Z * Z) (list Z);
  parameters_data : option (list TrizParameter)
}.

Definition known_relationships : list ((Z * Z) * list Z) :=
  [ ((9, 19), [15; 2; 35; 18]);
    ((1, 14), [1; 8; 15; 40]);
    ((9, 28), [28; 32; 35; 13]);
    ((36, 27), [1; 13; 22; 35]);
    ((39, 27), [2; 25; 35; 13]);
    ((3, 14), [1; 8; 14; 15]) ]%Z.

Definition _load_contradiction_matrix (matrix_file : string)
    : gmap (Z * Z) (list Z) :=
  fold_left (fun matrix '((param1, param2), princ) =>
               store_symmetric matrix param1 param2 princ)
            known_relationships ∅.

(** [__init__], given the parsed content of the principles file.  The
    constructor sets [principles_data], [principles] and
    [contradiction_matrix] and nothing else. *)
Definition __init__ (principles_yaml : list TrizPrinciple)
    (matrix_file : string) : PrincipleSelector :=
  {| principles_data := principles_yaml;
     principles := index_by princ_id principles_yaml;
     contradiction_matrix := _load_contradiction_matrix matrix_file;
     parameters_data := None |}.

Definition physical_params : gset Z :=
  {[1; 2; 3; 4; 5; 6; 7; 8; 9; 17]}%Z.

Definition _is_physical_contradiction (param1 param2 : Z) : bool :=
  bool_decide (param1 ∈ physical_params) && bool_decide (param2 ∈ physical_params).

Definition _is_technical_contradiction (param1 param2 : Z) : bool :=
  negb (_is_physical_contradiction param1 param2).

Definition _heuristic_principle_selection (improving_param worsening_param : Z)
    : list Z :=
  if _is_physical_contradiction improving_param worsening_param
  then [1; 2; 3; 7]%Z
  else if _is_technical_contradiction improving_param worsening_param
  then [15; 35; 36; 16]%Z
  else [13; 1; 8; 15]%Z.

Definition in_matrix (self : PrincipleSelector) (key : Z * Z) : bool :=
  Py.has_key (contradiction_matrix self) key.

Definition universal_principles : gset Z := {[1; 8; 13; 15; 35]}%Z.
Definition speed_principles : gset Z := {[15; 18; 28]}%Z.

Definition _calculate_relevance_score (self : PrincipleSelector)
    (principle_id improving_param worsening_param : Z) : Py.result Q :=
  let base_score :=
    if in_matrix self (improving_param, worsening_param) then 0.8%Q else 0.4%Q in
  principle_data <- Py.getitem (principles self) principle_id ;;
  let base_score :=
    if bool_decide (principle_id ∈ universal_principles)
    then (base_score + 0.1)%Q else base_score in
  let base_score :=
    if Z.eqb improving_param 9 && bool_decide (principle_id ∈ speed_principles)
    then (base_score + 0.15)%Q else base_score in
  Py.Ok (Py.min base_score 1.0).

(** [self.parameters_data]: [AttributeError] on an object without it. *)
Definition get_parameters_data (self : PrincipleSelector)
    : Py.result (list TrizParameter) :=
  match parameters_data self with
  | Some l => Py.Ok l
  | None => Py.Raise Py.AttributeError
  end.

Definition _generate_reasoning (self : PrincipleSelector)
    (principle_id improving_param worsening_param : Z) : Py.result string :=
  principle_data <- Py.getitem (principles self) principle_id ;;
  params <- get_parameters_data self ;;
  improving <- Py.next (fun p => Z.eqb (param_id p) improving_param) params ;;
  params <- get_parameters_data self ;;
  worsening <- Py.next (fun p => Z.eqb (param_id p) worsening_param) params ;;
  let reasoning :=
    "Principle " ++ Py.str_of_int principle_id ++ " '"
      ++ princ_name principle_data ++ "' is recommended " in
  let reasoning :=
    reasoning ++ "to resolve the contradiction between improving '"
      ++ param_name improving ++ "' " in
  let reasoning :=
    reasoning ++ "and avoiding degradation of '"
      ++ param_name worsening ++ "'. " in
  let reasoning :=
    if Z.eqb principle_id 15 then
      reasoning ++ "This principle suggests making the system or its parameters dynamic to achieve the desired improvement without compromising other aspects."
    else if Z.eqb principle_id 1 then
      reasoning ++ "This principle suggests dividing the system into independent parts that can be optimized separately."
    else if Z.eqb principle_id 2 then
      reasoning ++ "This principle suggests separating the conflicting properties in space, time, or condition."
    else reasoning in
  Py.Ok reasoning.

(** The loop of [select_principles] over [principle_ids]: ids without a
    principle are skipped, the first exception ends the loop. *)
Fixpoint recommend_each (self : PrincipleSelector)
    (improving_param worsening_param : Z) (principle_ids : list Z)
    : Py.result (list PrincipleRecommendation) :=
  match principle_ids with
  | [] => Py.Ok []
  | principle_id :: rest =>
      match principles self !! principle_id with
      | Some principle_data =>
          score <- _calculate_relevance_score self principle_id
                     improving_param worsening_param ;;
          why <- _generate_reasoning self principle_id
                   improving_param worsening_param ;;
          let recommendation :=
            {| principle_id := principle_id;
               principle_name := princ_name principle_data;
               principle_description := princ_description principle_data;
               relevance_score := score;
               reasoning := why;
               examples := take 3 (default [] (princ_examples principle_data)) |} in
          others <- recommend_each self improving_param worsening_param rest ;;
          Py.Ok (recommendation :: others)
      | None => recommend_each self improving_param worsening_param rest
      end
  end.

Definition primary_threshold : Q := 0.7.

Definition select_principles (self : PrincipleSelector)
    (improving_param worsening_param : Z) : Py.result PrincipleSelectionResult :=
  let matrix_key := (improving_param, worsening_param) in
  let principle_ids :=
    match contradiction_matrix self !! matrix_key with
    | Some ids => ids
    | None => _heuristic_principle_selection improving_param worsening_param
    end in
  recs <- recommend_each self improving_param worsening_param principle_ids ;;
  let recs := Py.sort_desc relevance_score recs in
  Py.Ok
    {| recommendations := recs;
       primary_principles :=
         List.filter (fun r => Py.Qgeb (relevance_score r) primary_threshold) recs;
       supporting_principles :=
         List.filter (fun r => Py.Qltb (relevance_score r) primary_threshold) recs;
       matrix_source :=
         if in_matrix self matrix_key then "contradiction_matrix" else "heuristic" |}.

End principle_selector.

(** ** heinrich/knowledge/knowledge_loader.py *)

Module knowledge_loader.
Import knowledge.

(** The three files under [knowledge_path] as a loader meets them: the
    parsed content, or the exception raised while the file is opened or a
    cell is converted.  A row of the CSV file is the triple of its
    [improving_parameter], its [worsening_parameter] and the integers of its
    [recommended_principles]. *)
Record KnowledgeFiles : Type := {
  parameters_yaml : Py.result (list TrizParameter);
  principles_yaml : Py.result (list TrizPrinciple);
  matrix_csv : Py.result (list (Z * Z * list Z))
}.

(** The caches of a [KnowledgeLoader]; [None] is Python's [None]. *)
Record KnowledgeLoader : Type := {
  parameters : option (gmap Z TrizParameter);
  principles : option (gmap Z TrizPrinciple);
  contradiction_matrix : option (gmap (Z * Z) (list Z))
}.

Definition __init__ : KnowledgeLoader :=
  {| parameters := None; principles := None; contradiction_matrix := None |}.

(** Methods read and update the caches and may raise. *)
Definition M (A : Type) : Type := KnowledgeLoader -> Py.result A * KnowledgeLoader.

Definition ret {A : Type} (a : A) : M A := fun self => (Py.Ok a, self).

Definition mbind {A B : Type} (m : M A) (k : A -> M B) : M B :=
  fun self =>
    match m self with
    | (Py.Ok a, self') => k a self'
    | (Py.Raise e, self') => (Py.Raise e, self')
    end.

Notation "x <~ m ;; k" := (mbind m (fun x => k))
  (at level 100, m at next level, right associativity, only parsing).

Definition load_39_parameters (files : KnowledgeFiles) : M (gmap Z TrizParameter) :=
  fun self =>
    match parameters self with
    | Some cached => (Py.Ok cached, self)
    | None =>
        match parameters_yaml files with
        | Py.Ok data =>
            let loaded := index_by param_id data in
            (Py.Ok loaded,
             {| parameters := Some loaded;
                principles := principles self;
                contradiction_matrix := contradiction_matrix self |})
        | Py.Raise e => (Py.Raise e, self)
        end
    end.

Definition load_40_principles (files : KnowledgeFiles) : M (gmap Z TrizPrinciple) :=
  fun self =>
    match principles self with
    | Some cached => (Py.Ok cached, self)
    | None =>
        match principles_yaml files with
        | Py.Ok data =>
            let loaded := index_by princ_id data in
            (Py.Ok loaded,
             {| parameters := parameters self;
                principles := Some loaded;
                contradiction_matrix := contradiction_matrix self |})
        | Py.Raise e => (Py.Raise e, self)
        end
    end.

(** The loop over the rows of the CSV file. *)
Definition read_rows (rows : list (Z * Z * list Z)) : gmap (Z * Z) (list Z) :=
  fold_left (fun matrix '(imp_param, wors_param, princ) =>
               store_symmetric matrix imp_param wors_param princ)
            rows ∅.

Definition load_contradiction_matrix (files : KnowledgeFiles)
    : M (gmap (Z * Z) (list Z)) :=
  fun self =>
    match contradiction_matrix self with
    | Some cached => (Py.Ok cached, self)
    | None =>
        match matrix_csv files with
        | Py.Ok rows =>
            let matrix := read_rows rows in
            (Py.Ok matrix,
             {| parameters := parameters self;
                principles := principles self;
                contradiction_matrix := Some matrix |})
        | Py.Raise e => (Py.Raise e, self)
        end
    end.

Definition get_parameter_info (files : KnowledgeFiles) (parameter_id : Z)
    : M (option TrizParameter) :=
  params <~ load_39_parameters files ;;
  ret (params !! parameter_id).

Definition get_principle_info (files : KnowledgeFiles) (principle_id : Z)
    : M (option TrizPrinciple) :=
  princ <~ load_40_principles files ;;
  ret (princ !! principle_id).

Definition get_principles_for_contradiction (files : KnowledgeFiles)
    (improving_param worsening_param : Z) : M (list Z) :=
  matrix <~ load_contradiction_matrix files ;;
  ret (default [] (matrix !! (improving_param, worsening_param))).

(** The loop of [validate_contradiction_matrix] over [matrix.items()], with
    its two early [return False]. *)
Fixpoint check_entries (params : gmap Z TrizParameter)
    (princ : gmap Z TrizPrinciple) (items : list ((Z * Z) * list Z)) : bool :=
  match items with
  | [] => true
  | ((param1, param2), princ_list) :: rest =>
      if negb (Py.has_key params param1) || negb (Py.has_key params param2)
      then false
      else if existsb (fun princ_id => negb (Py.has_key princ princ_id)) princ_list
      then false
      else check_entries params princ rest
  end.

Definition validate_body (files : KnowledgeFiles) : M bool :=
  matrix <~ load_contradiction_matrix files ;;
  params <~ load_39_parameters files ;;
  princ <~ load_40_principles files ;;
  ret (check_entries params princ (map_to_list matrix)).

(** [try: ... except Exception: return False] *)
Definition validate_contradiction_matrix (files : KnowledgeFiles)
    (self : KnowledgeLoader) : bool * KnowledgeLoader :=
  match validate_body files self with
  | (Py.Ok b, self') => (b, self')
  | (Py.Raise _, self') => (false, self')
  end.

End knowledge_loader.

(** ** heinrich/pipelines/effects_lookup.py *)

Module effects_lookup.

Record ScientificEffect : Type := {
  id : string;
  name : string;
  description : string;
  category : string;
  applications : list string;
  related_principles : list Z;
  technical_domains : list string
}.

Record EffectRecommendation : Type := {
  effect : ScientificEffect;
  relevance_score : Q;
  reasoning : string;
  combination_principles : list Z
}.

(** The effects database is a dict in insertion order. *)
Record EffectsLookup : Type := {
  effects_database : list (string * ScientificEffect)
}.

Definition effects_data : list (string * ScientificEffect) :=
  [ ("thermal_expansion",
     {| id := "thermal_expansion";
        name := "Thermal Expansion";
        description := "Materials expand when heated and contract when cooled";
        category := "Thermal";
        applications := ["Bi-metal strips in thermostats";
                         "Expansion joints in bridges";
                         "Shrink-fit assembly"];
        related_principles := [37; 15; 35]%Z;
        technical_domains := ["Mechanical"; "Civil"; "Manufacturing"] |});
    ("shape_memory",
     {| id := "shape_memory";
        name := "Shape Memory Effect";
        description := "Certain alloys return to their original shape when heated";
        category := "Material Science";
        applications := ["Shape memory stents";
                         "Self-deploying structures";
                         "Temperature-activated fasteners"];
        related_principles := [35; 15; 25]%Z;
        technical_domains := ["Medical"; "Aerospace"; "Robotics"] |});
    ("piezoelectric",
     {| id := "piezoelectric";
        name := "Piezoelectric Effect";
        description := "Materials generate electricity when mechanically stressed";
        category := "Electrical";
        applications := ["Quartz watches";
                         "Ultrasonic transducers";
                         "Energy harvesting from vibration"];
        related_principles := [15; 18; 23]%Z;
        technical_domains := ["Electronics"; "Sensors"; "Energy"] |});
    ("electrochromic",
     {| id := "electrochromic";
        name := "Electrochromic Effect";
        description := "Materials change color when electric voltage is applied";
        category := "Optical";
        applications := ["Smart windows";
                         "Anti-glare mirrors";
                         "Display technologies"];
        related_principles := [32; 35; 16]%Z;
        technical_domains := ["Architecture"; "Automotive"; "Displays"] |});
    ("superconductivity",
     {| id := "superconductivity";
        name := "Superconductivity";
        description := "Zero electrical resistance at very low temperatures";
        category := "Electrical";
        applications := ["MRI machines";
                         "Maglev trains";
                         "Power transmission"];
        related_principles := [36; 2; 12]%Z;
        technical_domains := ["Medical"; "Transportation"; "Energy"] |});
    ("aerogel",
     {| id := "aerogel";
        name := "Aerogel Properties";
        description := "Extremely low density solid with excellent insulation properties";
        category := "Material Science";
        applications := ["Thermal insulation";
                         "Acoustic damping";
                         "Lightweight structures"];
        related_principles := [31; 8; 40]%Z;
        technical_domains := ["Aerospace"; "Construction"; "Energy"] |});
    ("sonoluminescence",
     {| id := "sonoluminescence";
        name := "Sonoluminescence";
        description := "Light emission from collapsing bubbles in liquid under sound waves";
        category := "Acoustic";
        applications := ["Sonochemistry";
                         "Medical imaging";
                         "Cleaning technologies"];
        related_principles := [18; 31; 16]%Z;
        technical_domains := ["Chemistry"; "Medical"; "Industrial"] |});
    ("capillary_action",
     {| id := "capillary_action";
        name := "Capillary Action";
        description := "Liquid movement through narrow spaces against gravity";
        category := "Fluid";
        applications := ["Wick in candles";
                         "Plant root systems";
                         "Porous media flow"];
        related_principles := [31; 17; 29]%Z;
        technical_domains := ["Chemical"; "Agricultural"; "Materials"] |});
    ("thermoelectric",
     {| id := "thermoelectric";
        name := "Thermoelectric Effect";
        description := "Direct conversion between temperature differences and electric voltage";
        category := "Electrical";
        applications := ["Waste heat recovery";
                         "Temperature sensors";
                         "Portable refrigerators"];
        related_principles := [22; 23; 35]%Z;
        technical_domains := ["Energy"; "Sensors"; "Electronics"] |});
    ("magnetorheological",
     {| id := "magnetorheological";
        name := "Magnetorheological Effect";
        description := "Fluids change viscosity in magnetic fields";
        category := "Material Science";
        applications := ["Adaptive shock absorbers";
                         "Clutches and brakes";
                         "Seismic dampers"];
        related_principles := [15; 35; 16]%Z;
        technical_domains := ["Automotive"; "Civil"; "Robotics"] |}) ].

Definition _load_effects_database (effects_file : string)
    : list (string * ScientificEffect) :=
  effects_data.

Definition __init__ (effects_file : string) : EffectsLookup :=
  {| effects_database := _load_effects_database effects_file |}.

(** [x in l] for a list of strings. *)
Definition in_list (x : string) (l : list string) : bool :=
  existsb (String.eqb x) l.

Definition _calculate_domain_match (eff : ScientificEffect)
    (domain_keywords : list string) : Q :=
  let score := 0.0%Q in
  let keywords_lower := map Py.lower domain_keywords in
  let score :=
    fold_left (fun score app =>
      fold_left (fun score keyword =>
        if Py.contains keyword (Py.lower app) then (score + 0.3)%Q else score)
        keywords_lower score)
      (applications eff) score in
  let score :=
    fold_left (fun score domain =>
      fold_left (fun score keyword =>
        if Py.contains keyword (Py.lower domain) then (score + 0.2)%Q else score)
        keywords_lower score)
      (technical_domains eff) score in
  Py.min score 1.0.

Definition _matches_domain_keywords (eff : ScientificEffect)
    (domain_keywords : list string) : bool :=
  let keywords_lower := map Py.lower domain_keywords in
  if existsb (fun app =>
       existsb (fun kw => Py.contains kw (Py.lower app)) keywords_lower)
       (applications eff)
  then true
  else if existsb (fun domain =>
       existsb (fun kw => Py.contains kw (Py.lower domain)) keywords_lower)
       (technical_domains eff)
  then true
  else false.

Definition _calculate_contradiction_relevance (eff : ScientificEffect)
    (improving_param worsening_param : Z) : Q :=
  let principle_relevance :=
    (inject_Z (Z.of_nat (size ((list_to_set (related_principles eff) : gset Z)
                                 ∩ {[15; 35; 2; 1]}%Z))) / 4.0)%Q in
  let param_relevance := 0.0%Q in
  let param_relevance :=
    if bool_decide (improving_param ∈ ({[9; 19; 21]}%Z : gset Z))
    then if existsb (fun param => in_list param (technical_domains eff))
                    ["Energy"; "Electronics"]
         then (param_relevance + 0.3)%Q else param_relevance
    else param_relevance in
  let param_relevance :=
    if bool_decide (worsening_param ∈ ({[1; 14]}%Z : gset Z))
    then if existsb (fun param => in_list param (technical_domains eff))
                    ["Materials"; "Mechanical"]
         then (param_relevance + 0.3)%Q else param_relevance
    else param_relevance in
  Py.min (principle_relevance + param_relevance)%Q 1.0.

Definition principle_label (pid : Z) : string :=
  if bool_decide (pid ∈ ({[1; 2; 3; 4; 5]}%Z : gset Z)) then "separation principles"
  else if bool_decide (pid ∈ ({[15; 35]}%Z : gset Z)) then "dynamics and adaptation"
  else "principle " ++ Py.str_of_int pid.

Definition _generate_effect_reasoning (eff : ScientificEffect)
    (princ : list Z) (common_principles : gset Z) : string :=
  let reasoning := "The '" ++ name eff ++ "' effect can enhance solutions based on " in
  let principle_names := map principle_label (elements common_principles) in
  let reasoning := reasoning ++ Py.join " and " principle_names in
  let reasoning := reasoning ++ ". " in
  match applications eff with
  | first :: _ =>
      reasoning ++ "For example, it has been used in " ++ Py.lower first ++ "."
  | [] => reasoning
  end.

Definition param_names : gmap Z string :=
  list_to_map [ (1, "weight"); (9, "speed"); (14, "strength");
                (19, "energy consumption"); (21, "power"); (27, "reliability") ]%Z.

Definition _generate_contradiction_reasoning (eff : ScientificEffect)
    (improving_param worsening_param : Z) : string :=
  let imp_name :=
    default ("parameter " ++ Py.str_of_int improving_param)
            (param_names !! improving_param) in
  let wors_name :=
    default ("parameter " ++ Py.str_of_int worsening_param)
            (param_names !! worsening_param) in
  let reasoning :=
    "The '" ++ name eff ++ "' effect can help resolve the contradiction between " in
  let reasoning :=
    reasoning ++ "improving " ++ imp_name ++ " while avoiding degradation of "
      ++ wors_name ++ ". " in
  reasoning ++ "This effect is particularly relevant for "
    ++ Py.join ", " (technical_domains eff) ++ " applications.".

(** [if domain_keywords:] holds for a non-empty list only. *)
Definition given (domain_keywords : option (list string)) : option (list string) :=
  match domain_keywords with
  | Some (k :: ks) => Some (k :: ks)
  | _ => None
  end.

(** The loop of [find_effects_for_principles] over the database. *)
Fixpoint match_each (principle_ids : list Z)
    (domain_keywords : option (list string))
    (items : list (string * ScientificEffect))
    : Py.result (list EffectRecommendation) :=
  match items with
  | [] => Py.Ok []
  | (effect_id, eff) :: rest =>
      let common_principles : gset Z :=
        list_to_set principle_ids ∩ list_to_set (related_principles eff) in
      if decide (common_principles = ∅)
      then match_each principle_ids domain_keywords rest
      else
        score <- Py.truediv (Z.of_nat (size common_principles))
                            (Z.of_nat (length principle_ids)) ;;
        let score :=
          match given domain_keywords with
          | Some kws => ((score + _calculate_domain_match eff kws) / 2)%Q
          | None => score
          end in
        if Py.Qgtb score 0.2
        then
          let recommendation :=
            {| effect := eff;
               relevance_score := score;
               reasoning := _generate_effect_reasoning eff principle_ids
                              common_principles;
               combination_principles := elements common_principles |} in
          others <- match_each principle_ids domain_keywords rest ;;
          Py.Ok (recommendation :: others)
        else match_each principle_ids domain_keywords rest
  end.

Definition find_effects_for_principles (self : EffectsLookup)
    (principle_ids : list Z) (domain_keywords : option (list string))
    : Py.result (list EffectRecommendation) :=
  recs <- match_each principle_ids domain_keywords (effects_database self) ;;
  Py.Ok (Py.sort_desc relevance_score recs).

Definition param_to_effects : gmap Z (list string) :=
  list_to_map
    [ (9, ["thermal_expansion"; "shape_memory"; "piezoelectric"]);
      (14, ["shape_memory"; "magnetorheological"; "thermal_expansion"]);
      (17, ["thermal_expansion"; "shape_memory"; "superconductivity"]);
      (19, ["thermoelectric"; "capillary_action"; "aerogel"]);
      (21, ["piezoelectric"; "thermoelectric"; "magnetorheological"]) ]%Z.

(** [d[k]] and [k in d] on the database. *)
Fixpoint lookup_effect (db : list (string * ScientificEffect)) (k : string)
    : option ScientificEffect :=
  match db with
  | [] => None
  | (k', e) :: rest => if String.eqb k k' then Some e else lookup_effect rest k
  end.

Definition relevant_effect_ids (self : EffectsLookup)
    (improving_param worsening_param : Z)
    (domain_keywords : option (list string)) : gset string :=
  let ids : gset string := ∅ in
  let ids :=
    fold_left (fun ids param =>
      match param_to_effects !! param with
      | Some l => ids ∪ list_to_set l
      | None => ids
      end) [improving_param; worsening_param] ids in
  match given domain_keywords with
  | Some kws =>
      fold_left (fun ids item =>
        if _matches_domain_keywords (snd item) kws
        then ids ∪ {[ id (snd item) ]} else ids)
        (effects_database self) ids
  | None => ids
  end.

(** The loop of [find_effects_for_contradiction] over the selected ids. *)
Fixpoint rate_each (self : EffectsLookup) (improving_param worsening_param : Z)
    (effect_ids : list string) : list EffectRecommendation :=
  match effect_ids with
  | [] => []
  | effect_id :: rest =>
      match lookup_effect (effects_database self) effect_id with
      | Some eff =>
          let score :=
            _calculate_contradiction_relevance eff improving_param worsening_param in
          if Py.Qgtb score 0.1
          then {| effect := eff;
                  relevance_score := score;
                  reasoning := _generate_contradiction_reasoning eff
                                 improving_param worsening_param;
                  combination_principles := related_principles eff |}
               :: rate_each self improving_param worsening_param rest
          else rate_each self improving_param worsening_param rest
      | None => rate_each self improving_param worsening_param rest
      end
  end.

Definition find_effects_for_contradiction (self : EffectsLookup)
    (improving_param worsening_param : Z)
    (domain_keywords : option (list string)) : list EffectRecommendation :=
  let ids := relevant_effect_ids self improving_param worsening_param
               domain_keywords in
  let recs := rate_each self improving_param worsening_param (elements ids) in
  Py.sort_desc relevance_score recs.

Definition get_effect_info (self : EffectsLookup) (effect_id : string)
    : option ScientificEffect :=
  lookup_effect (effects_database self) effect_id.

Definition list_all_effects (self : EffectsLookup) : list ScientificEffect :=
  map snd (effects_database self).

Definition search_effects (self : EffectsLookup) (query : string)
    : list ScientificEffect :=
  let query_lower := Py.lower query in
  List.filter (fun eff =>
      Py.contains query_lower (Py.lower (name eff))
      || Py.contains query_lower (Py.lower (description eff))
      || existsb (fun app => Py.contains query_lower (Py.lower app))
                 (applications eff))
    (map snd (effects_database self)).

End effects_lookup.

(** ** The fragment of Python's [re] module used by the sources

    The patterns of the sources are built from literal texts, the
    repetitions [\s*], [\s+] and [\w+], concatenation, alternation, optional
    parts and one capturing group.  Matching backtracks as [re] does:
    alternatives are tried from left to right, repetitions and optional
    parts are greedy.  No pattern of the sources matches the empty text. *)

Module re.

Inductive regex : Type :=
| Lit (t : string)
| Many (cls : ascii -> bool) (least : nat)
| Seq (r1 r2 : regex)
| Alt (r1 r2 : regex)
| Opt (r : regex)
| Group (r : regex).

(** [\s*], [\s+] and [\w+] *)
Definition spaces0 : regex := Many Py.is_space 0.
Definition spaces1 : regex := Many Py.is_space 1.
Definition word1 : regex := Many Py.is_word 1.

(** [t1|t2|...] over literal texts. *)
Fixpoint one_of (ts : list string) : regex :=
  match ts with
  | [] => Lit ""
  | [t] => Lit t
  | t :: ts' => Alt (Lit t) (one_of ts')
  end.

(** A concatenation. *)
Fixpoint cat (rs : list regex) : regex :=
  match rs with
  | [] => Lit ""
  | [r] => r
  | r :: rs' => Seq r (cat rs')
  end.

(** Does [t] start [s]?  With [ignorecase], up to the case of letters. *)
Fixpoint starts_with (ignorecase : bool) (t s : string) : bool :=
  match t, s with
  | EmptyString, _ => true
  | String a t', String b s' =>
      (if ignorecase then Ascii.eqb (Py.lower_char a) (Py.lower_char b)
       else Ascii.eqb a b)
      && starts_with ignorecase t' s'
  | String _ _, EmptyString => false
  end.

(** Length of the longest prefix of [s] made of characters of [cls]. *)
Fixpoint span (cls : ascii -> bool) (s : string) : nat :=
  match s with
  | String c s' => if cls c then S (span cls s') else 0
  | EmptyString => 0
  end.

(** Greedy repetition: [n] characters first, then fewer, never fewer than
    [least]. *)
Fixpoint backoff {R : Type} (n least : nat) (s : string)
    (k : string -> option R) : option R :=
  if (n <? least)%nat then None
  else match k (Py.str_drop n s) with
       | Some x => Some x
       | None =>
           match n with
           | O => None
           | S n' => backoff n' least s k
           end
       end.

(** [run ic r s cap k]: match [r] at the start of [s], then continue with
    [k] on the rest of the text and the text of the group. *)
Fixpoint run {R : Type} (ignorecase : bool) (r : regex) (s : string)
    (cap : option string) (k : string -> option string -> option R) : option R :=
  match r with
  | Lit t =>
      if starts_with ignorecase t s
      then k (Py.str_drop (String.length t) s) cap else None
  | Many cls least =>
      backoff (span cls s) least s (fun rest => k rest cap)
  | Seq r1 r2 =>
      run ignorecase r1 s cap (fun rest cap' => run ignorecase r2 rest cap' k)
  | Alt r1 r2 =>
      match run ignorecase r1 s cap k with
      | Some x => Some x
      | None => run ignorecase r2 s cap k
      end
  | Opt r1 =>
      match run ignorecase r1 s cap k with
      | Some x => Some x
      | None => k s cap
      end
  | Group r1 =>
      run ignorecase r1 s cap (fun rest _ =>
        k rest (Some (Py.str_take (String.length s - String.length rest) s)))
  end.

(** A match object: [group(0)] and, when the group took part, [group(1)]. *)
Record Match : Type := {
  group0 : string;
  group1 : option string
}.

(** A match that starts at the first character of [s]; also the rest of
    the text after it. *)
Definition match_here (ignorecase : bool) (r : regex) (s : string)
    : option (Match * string) :=
  run ignorecase r s None (fun rest cap =>
    Some ({| group0 := Py.str_take (String.length s - String.length rest) s;
             group1 := cap |}, rest)).

(** [re.finditer]: leftmost matches, one after the end of the other. *)
Fixpoint scan (fuel : nat) (ignorecase : bool) (r : regex) (s : string)
    : list Match :=
  match fuel with
  | O => []
  | S fuel' =>
      match match_here ignorecase r s with
      | Some (m, rest) =>
          if (String.length rest <? String.length s)%nat
          then m :: scan fuel' ignorecase r rest
          else match s with
               | EmptyString => [m]
               | String _ s' => m :: scan fuel' ignorecase r s'
               end
      | None =>
          match s with
          | EmptyString => []
          | String _ s' => scan fuel' ignorecase r s'
          end
      end
  end.

Definition finditer (ignorecase : bool) (r : regex) (s : string) : list Match :=
  scan (S (String.length s)) ignorecase r s.

(** [re.search] *)
Definition search (r : regex) (s : string) : option Match :=
  head (finditer false r s).

(** [m.group(1) if m.groups() else m.group(0)] *)
Definition group1_or_0 (m : Match) : string :=
  default (group0 m) (group1 m).

(** [re.findall] for a pattern with one group. *)
Definition findall (r : regex) (s : string) : list string :=
  map group1_or_0 (finditer false r s).

(** [re.findall(r'\b\w+\b', s)]: the maximal runs of word characters. *)
Fixpoint words_from (cur : string) (s : string) : list string :=
  match s with
  | EmptyString => match cur with EmptyString => [] | _ => [cur] end
  | String c s' =>
      if Py.is_word c then words_from (cur ++ String c EmptyString) s'
      else match cur with
           | EmptyString => words_from EmptyString s'
           | _ => cur :: words_from EmptyString s'
           end
  end.

Definition words (s : string) : list string := words_from EmptyString s.

(** [re.sub(r'\s+', ' ', s)] *)
Fixpoint squeeze (in_run : bool) (s : string) : string :=
  match s with
  | EmptyString => EmptyString
  | String c s' =>
      if Py.is_space c
      then if in_run then squeeze true s' else String " " (squeeze true s')
      else String c (squeeze false s')
  end.

Definition sub_spaces (s : string) : string := squeeze false s.

End re.

(** ** problem_parser.py *)

Module problem_parser.

Record ParsedProblem : Type := {
  original_text : string;
  normalized_description : string;
  technical_system : option string;
  desired_improvement : option string;
  undesired_consequence : option string;
  constraints : list string;
  context : gmap string string
}.

Record ProblemParser : Type := {
  improvement_keywords : list string;
  consequence_keywords : list string
}.

Definition __init__ : ProblemParser :=
  {| improvement_keywords :=
       ["faster"; "stronger"; "lighter"; "cheaper"; "more efficient";
        "increase"; "improve"; "enhance"; "optimize"; "better"];
     consequence_keywords :=
       ["but"; "however"; "causes"; "results in"; "leads to";
        "at the cost of"; "unfortunately"; "downside"] |}.

Definition _normalize_text (text : string) : string :=
  let text := re.sub_spaces (Py.strip text) in
  Py.lower text.

Definition system_patterns : list re.regex :=
  [ re.Group (re.one_of ["car"; "vehicle"; "automobile"]);
    re.Group (re.one_of ["engine"; "motor"]);
    re.Group (re.one_of ["machine"; "device"; "system"]) ].

Fixpoint first_system (patterns : list re.regex) (text : string) : option string :=
  match patterns with
  | [] => None
  | pattern :: rest =>
      match re.search pattern text with
      | Some m => Some (re.group1_or_0 m)
      | None => first_system rest text
      end
  end.

Definition _extract_technical_system (text : string) : option string :=
  first_system system_patterns text.

Definition _extract_desired_improvement (self : ProblemParser) (text : string)
    : option string :=
  List.find (fun keyword => Py.contains keyword text) (improvement_keywords self).

Fixpoint first_consequence (keywords : list string) (text : string) : option string :=
  match keywords with
  | [] => None
  | keyword :: rest =>
      if Py.contains keyword text
      then match Py.split_once keyword text with
           | _ :: consequence :: _ => Some (Py.str_take 50 (Py.strip consequence))
           | _ => first_consequence rest text
           end
      else first_consequence rest text
  end.

Definition _extract_undesired_consequence (self : ProblemParser) (text : string)
    : option string :=
  first_consequence (consequence_keywords self) text.

Definition constraint_patterns : list re.regex :=
  [ re.Seq (re.Lit "without ") (re.Group re.word1);
    re.Seq (re.Lit "must not ") (re.Group re.word1);
    re.Seq (re.Lit "cannot ") (re.Group re.word1) ].

Definition _extract_constraints (text : string) : list string :=
  flat_map (fun pattern => re.findall pattern text) constraint_patterns.

Definition _extract_context (text : string) : gmap string string :=
  let context : gmap string string := ∅ in
  if existsb (fun word => Py.contains word text) ["car"; "vehicle"; "engine"]
  then <["domain" := "automotive"]> context
  else if existsb (fun word => Py.contains word text) ["machine"; "manufacturing"]
  then <["domain" := "manufacturing"]> context
  else <["domain" := "general"]> context.

Definition parse (self : ProblemParser) (problem_text : string) : ParsedProblem :=
  let normalized := _normalize_text problem_text in
  let system := _extract_technical_system normalized in
  let improvement := _extract_desired_improvement self normalized in
  let consequence := _extract_undesired_consequence self normalized in
  let found := _extract_constraints normalized in
  let ctx := _extract_context normalized in
  {| original_text := problem_text;
     normalized_description := normalized;
     technical_system := system;
     desired_improvement := improvement;
     undesired_consequence := consequence;
     constraints := found;
     context := ctx |}.

End problem_parser.

(** ** heinrich/pipelines/contradiction_identifier.py *)

Module contradiction_identifier.
Import knowledge.

Record TechnicalContradiction : Type := {
  improving_parameter : Z;
  improving_parameter_name : string;
  worsening_parameter : Z;
  worsening_parameter_name : string;
  confidence_score : Q;
  reasoning : string
}.

Record ContradictionResult : Type := {
  contradictions : list TechnicalContradiction;
  primary_contradiction : option TechnicalContradiction;
  alternative_contradictions : list TechnicalContradiction
}.

(** [parameter_keywords] is a dict from parameter ids to keyword lists, in
    insertion order. *)
Record ContradictionIdentifier : Type := {
  parameters_data : list TrizParameter;
  parameters : list TrizParameter;
  parameter_keywords : list (Z * list string)
}.

Definition stop_words : list string :=
  ["of"; "the"; "and"; "or"; "to"; "in"; "on"; "at"; "by"; "for"; "with"].

Definition in_list (x : string) (l : list string) : bool :=
  existsb (String.eqb x) l.

Definition param_key_terms (param : TrizParameter) : list string :=
  let name := Py.lower (param_name param) in
  let description := Py.lower (param_description param) in
  let key_terms := (re.words name ++ re.words description)%list in
  let key_terms :=
    List.filter (fun word => negb (in_list word stop_words)
                             && (2 <? String.length word)%nat) key_terms in
  elements (list_to_set key_terms : gset string).

Definition _build_parameter_keywords (params : list TrizParameter)
    : list (Z * list string) :=
  fold_left (fun keywords param =>
               Py.dict_set keywords (param_id param) (param_key_terms param))
            params [].

Definition __init__ (parameters_yaml : list TrizParameter) : ContradictionIdentifier :=
  {| parameters_data := parameters_yaml;
     parameters := parameters_yaml;
     parameter_keywords := _build_parameter_keywords parameters_yaml |}.

(** The inner loop of [_levenshtein_distance]: the cells of [current_row]
    after the one of value [left], given the part of [previous_row] that
    starts above [left]. *)
Fixpoint fill_row (c1 : ascii) (s2 : string) (previous_row : list nat)
    (left : nat) : list nat :=
  match s2, previous_row with
  | String c2 s2', diag :: (up :: _) as previous_row' =>
      let insertions := up + 1 in
      let deletions := left + 1 in
      let substitutions := diag + (if Ascii.eqb c1 c2 then 0 else 1) in
      let cell := Nat.min (Nat.min insertions deletions) substitutions in
      cell :: fill_row c1 s2' previous_row' cell
  | _, _ => []
  end.

(** The outer loop, from the row of index [i]. *)
Fixpoint fill_rows (i : nat) (s1 s2 : string) (previous_row : list nat) : list nat :=
  match s1 with
  | EmptyString => previous_row
  | String c1 s1' =>
      let current_row := (i + 1) :: fill_row c1 s2 previous_row (i + 1) in
      fill_rows (S i) s1' s2 current_row
  end.

(** The body of [_levenshtein_distance] once [len(s1) >= len(s2)]. *)
Definition distance_ordered (s1 s2 : string) : nat :=
  if (String.length s2 =? 0)%nat then String.length s1
  else List.last (fill_rows 0 s1 s2 (seq 0 (String.length s2 + 1))) 0.

Definition _levenshtein_distance (s1 s2 : string) : nat :=
  if (String.length s1 <? String.length s2)%nat
  then distance_ordered s2 s1
  else distance_ordered s1 s2.

(** One turn of the loop over the keywords of a parameter, in the [else]
    branch of [_match_keyword_to_parameters]. *)
Definition tier_step (keyword_lower : string) (score : Q)
    (param_keyword : string) : Q :=
  if Py.contains keyword_lower param_keyword
     || Py.contains param_keyword keyword_lower
  then Py.max score 0.7
  else if (_levenshtein_distance keyword_lower param_keyword <=? 2)%nat
  then Py.max score 0.5
  else score.

(** The score that [_match_keyword_to_parameters] gives to one parameter. *)
Definition keyword_score (keyword_lower : string) (keywords : list string) : Q :=
  let score := 0.0%Q in
  if in_list keyword_lower (map Py.lower keywords) then 1.0%Q
  else fold_left (tier_step keyword_lower) keywords score.

Definition _match_keyword_to_parameters (self : ContradictionIdentifier)
    (keyword : string) : list (Z * Q) :=
  let keyword_lower := Py.lower keyword in
  flat_map (fun '(param_id, keywords) =>
              let score := keyword_score keyword_lower keywords in
              if Py.Qgtb score 0.3 then [(param_id, score)] else [])
           (parameter_keywords self).

Definition improvement_patterns : list re.regex :=
  [ re.cat [ re.one_of ["make"; "want"; "need"; "desire"; "improve"; "increase";
                        "enhance"; "optimize"; "better"];
             re.spaces1;
             re.Opt (re.one_of ["more"; "less"; "better"; "faster"; "stronger";
                                "slower"; "weaker"; "cheaper"; "expensive"]);
             re.spaces0;
             re.Group re.word1 ];
    re.cat [ re.one_of ["increase"; "improve"; "enhance"];
             re.spaces1;
             re.Opt (re.Seq (re.Lit "the") re.spaces1);
             re.Group re.word1 ];
    re.cat [ re.one_of ["better"; "faster"; "stronger"; "lighter"; "cheaper"];
             re.spaces1;
             re.Group re.word1 ];
    re.cat [ re.one_of ["reduce"; "decrease"; "minimize"];
             re.spaces1;
             re.Opt (re.Seq (re.Lit "the") re.spaces1);
             re.Group re.word1 ] ].

Definition worsening_patterns : list re.regex :=
  [ re.cat [ re.Alt (re.one_of ["but"; "however"; "unfortunately"; "causes"])
               (re.Alt (re.cat [re.Lit "result"; re.Opt (re.Lit "s");
                                re.spaces1; re.Lit "in"])
                       (re.cat [re.Lit "lead"; re.Opt (re.Lit "s");
                                re.spaces1; re.Lit "to"]));
             re.spaces1;
             re.one_of ["more"; "increased"; "higher"; "worse"; "expensive";
                        "heavier"; "slower"];
             re.spaces0;
             re.Group re.word1 ];
    re.cat [ re.Alt (re.cat [re.Lit "at"; re.spaces1; re.Lit "the"; re.spaces1;
                             re.Lit "cost"; re.spaces1; re.Lit "of"])
                    (re.cat [re.Lit "at"; re.spaces1; re.Lit "the"; re.spaces1;
                             re.Lit "expense"; re.spaces1; re.Lit "of"]);
             re.spaces1;
             re.one_of ["more"; "increased"; "higher"; "worse"];
             re.spaces0;
             re.Group re.word1 ];
    re.cat [ re.Alt (re.Seq (re.Lit "increase") (re.Opt (re.Lit "s")))
               (re.Alt (re.Seq (re.Lit "worsen") (re.Opt (re.Lit "s")))
                       (re.Seq (re.Lit "degrade") (re.Opt (re.Lit "s"))));
             re.spaces1;
             re.Opt (re.Seq (re.Lit "the") re.spaces1);
             re.Group re.word1 ];
    re.cat [ re.one_of ["problem"; "issue"; "difficulty"; "drawback"];
             re.spaces1;
             re.one_of ["with"; "of"; "in"];
             re.spaces1;
             re.Group re.word1 ] ].

(** The two loops shared by [_find_improvement_parameters] and
    [_find_worsening_parameters]: the candidates of every match of every
    pattern, then the best score of each parameter. *)
Definition candidates_of (self : ContradictionIdentifier)
    (patterns : list re.regex) (text : string) : list (Z * Q) :=
  flat_map (fun pattern =>
    flat_map (fun m => _match_keyword_to_parameters self (re.group1_or_0 m))
             (re.finditer true pattern text))
    patterns.

Definition best_scores (candidates : list (Z * Q)) : list (Z * Q) :=
  fold_left (fun scored_candidates '(param_id, score) =>
               Py.dict_set scored_candidates param_id
                 (Py.max (default 0%Q (Py.dict_get scored_candidates param_id))
                         score))
            candidates [].

Definition _find_improvement_parameters (self : ContradictionIdentifier)
    (text : string) : list (Z * Q) :=
  best_scores (candidates_of self improvement_patterns text).

Definition _find_worsening_parameters (self : ContradictionIdentifier)
    (text : string) : list (Z * Q) :=
  best_scores (candidates_of self worsening_patterns text).

(** The body of the two nested loops of [identify_contradiction]. *)
Definition pair_up (self : ContradictionIdentifier) (imp wors : Z * Q)
    : Py.result (list TechnicalContradiction) :=
  let '(imp_param_id, imp_score) := imp in
  let '(wors_param_id, wors_score) := wors in
  if negb (Z.eqb imp_param_id wors_param_id)
  then
    let confidence := ((imp_score + wors_score) / 2)%Q in
    imp_param <- Py.next (fun p => Z.eqb (param_id p) imp_param_id)
                         (parameters self) ;;
    wors_param <- Py.next (fun p => Z.eqb (param_id p) wors_param_id)
                          (parameters self) ;;
    Py.Ok [ {| improving_parameter := imp_param_id;
               improving_parameter_name := param_name imp_param;
               worsening_parameter := wors_param_id;
               worsening_parameter_name := param_name wors_param;
               confidence_score := confidence;
               reasoning :=
                 "Identified contradiction between improving "
                   ++ param_name imp_param ++ " and worsening "
                   ++ param_name wors_param |} ]
  else Py.Ok [].

Definition identify_contradiction (self : ContradictionIdentifier)
    (problem_text : string) : Py.result ContradictionResult :=
  let text := Py.lower problem_text in
  let improvement_candidates := _find_improvement_parameters self text in
  let worsening_candidates := _find_worsening_parameters self text in
  found <- Py.collect (fun imp =>
             Py.collect (fun wors => pair_up self imp wors) worsening_candidates)
             improvement_candidates ;;
  let found := Py.sort_desc confidence_score found in
  let primary := head found in
  let alternatives :=
    List.filter (fun c => Py.Qgtb (confidence_score c) 0.3) (tail found) in
  Py.Ok {| contradictions := found;
           primary_contradiction := primary;
           alternative_contradictions := alternatives |}.

End contradiction_identifier.

(** ** heinrich_cli.py *)

Module heinrich_cli.

(** The dictionary [domain_patterns], in the order of its entries. *)
Definition domain_patterns : list (string * list string) :=
  [ ("automotive", ["car"; "vehicle"; "engine"; "transmission"; "brake";
                    "suspension"]);
    ("aerospace", ["aircraft"; "plane"; "wing"; "fuselage"; "propulsion";
                   "altitude"]);
    ("medical", ["patient"; "treatment"; "diagnosis"; "surgery"; "implant";
                 "therapy"]);
    ("manufacturing", ["production"; "assembly"; "quality"; "efficiency";
                       "automation"]);
    ("energy", ["power"; "efficiency"; "consumption"; "renewable"; "battery";
                "solar"]);
    ("electronics", ["circuit"; "signal"; "processor"; "memory"; "display";
                     "sensor"]) ].

Definition _extract_domain_keywords (problem_text : string) : list string :=
  let text_lower := Py.lower problem_text in
  let keywords :=
    flat_map (fun '(domain, patterns) =>
                if existsb (fun pattern => Py.contains pattern text_lower) patterns
                then domain :: take 2 patterns
                else [])
             domain_patterns in
  take 5 keywords.

End heinrich_cli.

(** ** Sample knowledge tables and inputs

    The tables of the repository are read from files; the samples below have
    the shape the loaders expect (ids 1 to 39 and 1 to 40) and serve as
    concrete inputs. *)

Module samples.
Import knowledge.

Definition principle_names : list string :=
  [ "Segmentation"; "Taking out"; "Local quality"; "Asymmetry"; "Merging";
    "Universality"; "Nested doll"; "Anti-weight"; "Preliminary anti-action";
    "Preliminary action"; "Beforehand cushioning"; "Equipotentiality";
    "The other way round"; "Spheroidality"; "Dynamics";
    "Partial or excessive actions"; "Another dimension";
    "Mechanical vibration"; "Periodic action"; "Continuity of useful action";
    "Skipping"; "Blessing in disguise"; "Feedback"; "Intermediary";
    "Self-service"; "Copying"; "Cheap short-living objects";
    "Mechanics substitution"; "Pneumatics and hydraulics";
    "Flexible shells and thin films"; "Porous materials"; "Color changes";
    "Homogeneity"; "Discarding and recovering"; "Parameter changes";
    "Phase transitions"; "Thermal expansion"; "Strong oxidants";
    "Inert atmosphere"; "Composite materials" ].

Definition forty_principles : list TrizPrinciple :=
  imap (fun i n =>
          {| princ_id := Z.of_nat (S i);
             princ_name := n;
             princ_description := "Inventive principle: " ++ n;
             princ_examples := Some ["first"; "second"; "third"; "fourth"] |})
       principle_names.

Definition parameter_names : list string :=
  [ "Weight of moving object"; "Weight of stationary object";
    "Length of moving object"; "Length of stationary object";
    "Area of moving object"; "Area of stationary object";
    "Volume of moving object"; "Volume of stationary object";
    "Speed"; "Force"; "Stress or pressure"; "Shape";
    "Stability of composition"; "Strength";
    "Duration of action of moving object";
    "Duration of action of stationary object"; "Temperature";
    "Illumination intensity"; "Use of energy by moving object";
    "Use of energy by stationary object"; "Power"; "Loss of energy";
    "Loss of substance"; "Loss of information"; "Loss of time";
    "Quantity of substance"; "Reliability"; "Measurement accuracy";
    "Manufacturing precision"; "Object-affected harmful factors";
    "Object-generated harmful factors"; "Ease of manufacture";
    "Ease of operation"; "Ease of repair"; "Adaptability or versatility";
    "Device complexity"; "Difficulty of detecting and measuring";
    "Extent of automation"; "Productivity" ].

Definition thirty_nine_parameters : list TrizParameter :=
  imap (fun i n =>
          {| param_id := Z.of_nat (S i);
             param_name := n;
             param_description := "Engineering parameter: " ++ n |})
       parameter_names.

Definition matrix_rows : list (Z * Z * list Z) :=
  [ (9, 19, [15; 2; 35; 18]);
    (1, 14, [1; 8; 15; 40]);
    (9, 28, [28; 32; 35; 13]) ]%Z.

Definition files : knowledge_loader.KnowledgeFiles :=
  {| knowledge_loader.parameters_yaml := Py.Ok thirty_nine_parameters;
     knowledge_loader.principles_yaml := Py.Ok forty_principles;
     knowledge_loader.matrix_csv := Py.Ok matrix_rows |}.

(** A principle table without principle 37, and a knowledge base that
    uses it. *)
Definition principles_without_37 : list TrizPrinciple :=
  (take 36 forty_principles ++ drop 37 forty_principles)%list.

Definition short_files : knowledge_loader.KnowledgeFiles :=
  {| knowledge_loader.parameters_yaml := Py.Ok thirty_nine_parameters;
     knowledge_loader.principles_yaml := Py.Ok principles_without_37;
     knowledge_loader.matrix_csv := Py.Ok matrix_rows |}.

Definition selector : principle_selector.PrincipleSelector :=
  principle_selector.__init__ forty_principles
    "heinrich/knowledge/contradiction_matrix.csv".

(** The same selector after a caller has stored the parameter table in the
    attribute [parameters_data]. *)
Definition patched_selector : principle_selector.PrincipleSelector :=
  {| principle_selector.principles_data :=
       principle_selector.principles_data selector;
     principle_selector.principles := principle_selector.principles selector;
     principle_selector.contradiction_matrix :=
       principle_selector.contradiction_matrix selector;
     principle_selector.parameters_data := Some thirty_nine_parameters |}.

Definition lookup : effects_lookup.EffectsLookup :=
  effects_lookup.__init__ "heinrich/knowledge/effects_database.json".

Definition identifier : contradiction_identifier.ContradictionIdentifier :=
  contradiction_identifier.__init__ thirty_nine_parameters.

Definition medium_context : adaptation_planner.AdaptationContext :=
  {| adaptation_planner.industry := "automotive";
     adaptation_planner.company_size := "sme";
     adaptation_planner.budget_level := "medium";
     adaptation_planner.timeline := "medium";
     adaptation_planner.technical_expertise := "medium";
     adaptation_planner.risk_tolerance := "moderate";
     adaptation_planner.existing_infrastructure := [];
     adaptation_planner.regulatory_constraints := [];
     adaptation_planner.market_requirements := [] |}.

Definition strained_context : adaptation_planner.AdaptationContext :=
  {| adaptation_planner.industry := "automotive";
     adaptation_planner.company_size := "startup";
     adaptation_planner.budget_level := "low";
     adaptation_planner.timeline := "short";
     adaptation_planner.technical_expertise := "low";
     adaptation_planner.risk_tolerance := "conservative";
     adaptation_planner.existing_infrastructure := [];
     adaptation_planner.regulatory_constraints := [];
     adaptation_planner.market_requirements := [] |}.

Definition breakthrough_concept : gmap string adaptation_planner.pyval :=
  list_to_map
    [ ("concept_id", adaptation_planner.PStr "concept_1");
      ("title", adaptation_planner.PStr "Dynamic thermal drive");
      ("estimated_complexity", adaptation_planner.PStr "High");
      ("innovation_level", adaptation_planner.PStr "Breakthrough") ].

Definition speed_text : string :=
  "We need to increase the speed of the car but it causes more energy use".

(** An enterprise with a low budget and a long timeline. *)
Definition patient_context : adaptation_planner.AdaptationContext :=
  {| adaptation_planner.industry := "energy";
     adaptation_planner.company_size := "enterprise";
     adaptation_planner.budget_level := "low";
     adaptation_planner.timeline := "long";
     adaptation_planner.technical_expertise := "high";
     adaptation_planner.risk_tolerance := "moderate";
     adaptation_planner.existing_infrastructure := ["test bench"];
     adaptation_planner.regulatory_constraints := [];
     adaptation_planner.market_requirements := [] |}.

(** The same enterprise with a medium budget. *)
Definition funded_context : adaptation_planner.AdaptationContext :=
  {| adaptation_planner.industry := "energy";
     adaptation_planner.company_size := "enterprise";
     adaptation_planner.budget_level := "medium";
     adaptation_planner.timeline := "long";
     adaptation_planner.technical_expertise := "high";
     adaptation_planner.risk_tolerance := "moderate";
     adaptation_planner.existing_infrastructure := ["test bench"];
     adaptation_planner.regulatory_constraints := [];
     adaptation_planner.market_requirements := [] |}.

(** An adapted concept as [_adapt_single_concept] assembles it from a
    concept with the given id, title and description. *)
Definition adapted (concept_id title description : string)
    (concept : gmap string adaptation_planner.pyval)
    (context : adaptation_planner.AdaptationContext)
    : adaptation_planner.AdaptedConcept :=
  {| adaptation_planner.original_concept_id := concept_id;
     adaptation_planner.adapted_title :=
       adaptation_planner._adapt_concept_title title context;
     adaptation_planner.adapted_description :=
       adaptation_planner._adapt_concept_description description context;
     adaptation_planner.contextual_modifications :=
       adaptation_planner._generate_contextual_modifications concept context;
     adaptation_planner.implementation_roadmap :=
       adaptation_planner._generate_implementation_roadmap concept context;
     adaptation_planner.resource_requirements :=
       adaptation_planner._assess_resource_requirements concept context;
     adaptation_planner.risk_assessment :=
       adaptation_planner._assess_risks concept context;
     adaptation_planner.success_metrics :=
       adaptation_planner._define_success_metrics concept context;
     adaptation_planner.adaptation_confidence :=
       adaptation_planner._calculate_adaptation_confidence concept context |}.



End samples.

(** ** Vocabulary of the statements *)

Module spec.

(** A score of the unit interval. *)
Definition in_unit (q : Q) : Prop := (0 <= q <= 1)%Q.

(** A list whose keys never increase. *)
Inductive descending {A : Type} (key : A -> Q) : list A -> Prop :=
| descending_nil : descending key []
| descending_cons x l :
    Forall (fun y => (key y <= key x)%Q) l -> descending key l ->
    descending key (x :: l).

(** A matrix that answers the same for a pair and for the reversed pair. *)
Definition symmetric (matrix : gmap (Z * Z) (list Z)) : Prop :=
  forall a b, matrix !! (a, b) = matrix !! (b, a).

(** Every parameter id of a matrix key is in the parameter table and every
    principle id of a matrix entry is in the principle table. *)
Definition matrix_ids_valid (matrix : gmap (Z * Z) (list Z))
    (params : gmap Z knowledge.TrizParameter)
    (princ : gmap Z knowledge.TrizPrinciple) : Prop :=
  forall a b ids, matrix !! (a, b) = Some ids ->
    is_Some (params !! a) /\ is_Some (params !! b) /\
    forall p, p ∈ ids -> is_Some (princ !! p).

(** Every principle id of the related-principles list of every effect is
    in the principle table. *)
Definition effects_ids_valid
    (db : list (string * effects_lookup.ScientificEffect))
    (princ : gmap Z knowledge.TrizPrinciple) : Prop :=
  forall k e p, (k, e) ∈ db -> p ∈ effects_lookup.related_principles e ->
    is_Some (princ !! p).

(** The edit distance by the recurrence of Wagner and Fischer:
    [prefix_distance s t i j] is the distance between the first [i]
    characters of [s] and the first [j] characters of [t]; a step costs one
    insertion, one deletion or one substitution. *)
Definition substitution_cost (s t : string) (i j : nat) : nat :=
  match String.get i s, String.get j t with
  | Some a, Some b => if Ascii.eqb a b then 0 else 1
  | _, _ => 1
  end.

Fixpoint prefix_distance (s t : string) (i : nat) : nat -> nat :=
  match i with
  | O => fun j => j
  | S i' =>
      fix row (j : nat) : nat :=
        match j with
        | O => S i'
        | S j' =>
            Nat.min (Nat.min (prefix_distance s t i' (S j') + 1) (row j' + 1))
                    (prefix_distance s t i' j' + substitution_cost s t i' j')
        end
  end.

Definition levenshtein (s t : string) : nat :=
  prefix_distance s t (String.length s) (String.length t).

(** The three tiers of the fuzzy match of a lowercased keyword against the
    keyword set of a parameter. *)
Definition exact_match (keyword : string) (keywords : list string) : Prop :=
  exists k, k ∈ keywords /\ Py.lower k = keyword.

Definition substring_match (keyword : string) (keywords : list string) : Prop :=
  exists k, k ∈ keywords /\
    (Py.contains keyword k = true \/ Py.contains k keyword = true).

Definition edit_match (keyword : string) (keywords : list string) : Prop :=
  exists k, k ∈ keywords /\ (levenshtein keyword k <= 2)%nat.




(** A candidate of a text: a score of the unit interval, on a parameter of
    the keyword table. *)
Definition sound_candidate (self : contradiction_identifier.ContradictionIdentifier)
    (c : Z * Q) : Prop :=
  in_unit (snd c) /\
  fst c ∈ map fst (contradiction_identifier.parameter_keywords self).

End spec.

(** * Properties *)

(** ** Scores, clamps and the descending sort *)

Section py_facts.
Open Scope list_scope.
Open Scope Q_scope.

Lemma Qltb_lt (x y : Q) : Py.Qltb x y = true <-> x < y.
Proof.
  unfold Py.Qltb. rewrite negb_true_iff, <- not_true_iff_false, Qle_bool_iff.
  split; [apply Qnot_le_lt | apply Qlt_not_le].
Qed.

Lemma Qltb_ge (x y : Q) : Py.Qltb x y = false <-> y <= x.
Proof.
  unfold Py.Qltb. rewrite negb_false_iff. apply Qle_bool_iff.
Qed.

Lemma Qgeb_le (x y : Q) : Py.Qgeb x y = true <-> y <= x.
Proof. apply Qle_bool_iff. Qed.

Lemma Qgtb_lt (x y : Q) : Py.Qgtb x y = true <-> y < x.
Proof. apply Qltb_lt. Qed.

Lemma Qltb_negb_Qgeb (x y : Q) : Py.Qltb x y = negb (Py.Qgeb x y).
Proof. reflexivity. Qed.

(** [min(a, b)] is one of its arguments and below both. *)
Lemma min_spec (a b : Q) :
  (b < a /\ Py.min a b = b) \/ (a <= b /\ Py.min a b = a).
Proof.
  unfold Py.min. destruct (Py.Qltb b a) eqn:E.
  - left. split; [by apply Qltb_lt | done].
  - right. split; [by apply Qltb_ge | done].
Qed.

Lemma max_spec (a b : Q) :
  (a < b /\ Py.max a b = b) \/ (b <= a /\ Py.max a b = a).
Proof.
  unfold Py.max, Py.Qgtb. destruct (Py.Qltb a b) eqn:E.
  - left. split; [by apply Qltb_lt | done].
  - right. split; [by apply Qltb_ge | done].
Qed.

(** A clamp [max(lo, min(hi, x))] lands between its bounds. *)
Lemma clamp_bounds (lo hi x : Q) :
  lo <= hi -> lo <= Py.max lo (Py.min hi x) <= hi.
Proof.
  intros Hlh.
  destruct (min_spec hi x) as [[H1 ->] | [H1 ->]];
    [destruct (max_spec lo x) as [[H2 ->] | [H2 ->]]
    | destruct (max_spec lo hi) as [[H2 ->] | [H2 ->]]]; lra.
Qed.

(** A cap [min(x, 1.0)] of a non-negative number lands in the unit
    interval. *)
Lemma cap_bounds (x : Q) : 0 <= x -> 0 <= Py.min x 1.0 <= 1.
Proof.
  intros Hx. destruct (min_spec x 1.0) as [[H1 ->] | [H1 ->]]; lra.
Qed.

Lemma half_sum_bounds (a b : Q) :
  0 <= a <= 1 -> 0 <= b <= 1 -> 0 <= (a + b) / 2 <= 1.
Proof. intros. unfold Qdiv. change (/ 2) with (1 # 2). lra. Qed.

Lemma ratio_bounds (n m : nat) :
  (n <= m)%nat -> (0 < m)%nat ->
  0 <= inject_Z (Z.of_nat n) / inject_Z (Z.of_nat m) <= 1.
Proof.
  intros Hnm Hm.
  assert (0 < inject_Z (Z.of_nat m)).
  { change 0 with (inject_Z 0). rewrite <- Zlt_Qlt. lia. }
  assert (inject_Z (Z.of_nat n) <= inject_Z (Z.of_nat m)).
  { rewrite <- Zle_Qle. lia. }
  assert (0 <= inject_Z (Z.of_nat n)).
  { change 0 with (inject_Z 0). rewrite <- Zle_Qle. lia. }
  split; [apply Qle_shift_div_l | apply Qle_shift_div_r]; lra.
Qed.

Context {A : Type} (key : A -> Q).
Local Abbreviation descending := (spec.descending key).

Lemma insert_desc_perm (x : A) (l : list A) :
  Py.insert_desc key x l ≡ₚ x :: l.
Proof.
  induction l as [|y l IH]; simpl; [done|].
  destruct (Py.Qltb (key x) (key y)); [|done].
  rewrite IH. apply Permutation_swap.
Qed.

Lemma sort_desc_perm (l : list A) : Py.sort_desc key l ≡ₚ l.
Proof.
  induction l as [|x l IH]; simpl; [done|].
  by rewrite insert_desc_perm, IH.
Qed.

Lemma sort_desc_elem_of (x : A) (l : list A) :
  x ∈ Py.sort_desc key l <-> x ∈ l.
Proof. by rewrite sort_desc_perm. Qed.

Lemma insert_desc_descending (x : A) (l : list A) :
  descending l -> descending (Py.insert_desc key x l).
Proof.
  induction 1 as [|y l Hy Hl IH]; simpl.
  - constructor; [done | constructor].
  - destruct (Py.Qltb (key x) (key y)) eqn:E.
    + constructor; [|done].
      rewrite insert_desc_perm. constructor; [|done].
      apply Qltb_lt in E. lra.
    + apply Qltb_ge in E. constructor; [|by constructor].
      constructor; [done|].
      eapply Forall_impl; [exact Hy|]. simpl. intros z Hz. lra.
Qed.

Lemma sort_desc_descending (l : list A) : descending (Py.sort_desc key l).
Proof.
  induction l as [|x l IH]; simpl; [constructor|].
  by apply insert_desc_descending.
Qed.

(** Cutting a descending list at a threshold: the elements at or above
    the threshold form a prefix, the others the matching suffix. *)
Lemma descending_cut (t : Q) (l : list A) :
  descending l ->
  List.filter (fun r => Py.Qgeb (key r) t) l
    ++ List.filter (fun r => Py.Qltb (key r) t) l = l.
Proof.
  induction 1 as [|x l Hx Hl IH]; [done|].
  simpl. rewrite Qltb_negb_Qgeb.
  destruct (Py.Qgeb (key x) t) eqn:E; simpl.
  - by rewrite IH.
  - assert (Hnone : List.filter (fun r => Py.Qgeb (key r) t) l = []).
    { clear IH Hl. induction Hx as [|y l Hy Hl IH]; [done|].
      simpl. destruct (Py.Qgeb (key y) t) eqn:E'; [|done].
      apply Qgeb_le in E'.
      assert (Py.Qgeb (key x) t = true) by (apply Qgeb_le; lra).
      congruence. }
    rewrite Hnone in IH |- *. simpl in *. by rewrite IH.
Qed.

End py_facts.

(** ** Adaptation confidence *)

Section adaptation_confidence.
Import adaptation_planner.
Open Scope Q_scope.

(** The clamp on the last line of [_calculate_adaptation_confidence]. *)
Lemma adaptation_confidence_bounds concept context :
  0.1 <= _calculate_adaptation_confidence concept context <= 1.0.
Proof.
  unfold _calculate_adaptation_confidence. apply clamp_bounds. lra.
Qed.

(** With a medium budget and a medium timeline neither penalty can
    apply, whatever the concept. *)
Lemma no_penalty_when_medium concept context :
  budget_level context = "medium"%string ->
  timeline context = "medium"%string ->
  (String.eqb (budget_level context) "low"
     && get_is concept "estimated_complexity" "High" = false)%bool /\
  (String.eqb (timeline context) "short"
     && get_is concept "innovation_level" "Breakthrough" = false)%bool.
Proof. by intros -> ->. Qed.

(** C9: a context whose budget, timeline and expertise are all "medium"
    gets the adaptation confidence 1.0 exactly: the total 0.5 + 0.2 + 0.2
    + 0.2 is clamped down to the upper bound, and no penalty applies.  (In
    binary64 the total is 1.0999999999999999, above the bound as well.) *)
Theorem adaptation_confidence_all_medium concept context :
  budget_level context = "medium"%string ->
  timeline context = "medium"%string ->
  technical_expertise context = "medium"%string ->
  _calculate_adaptation_confidence concept context = 1.0.
Proof.
  intros Hb Ht He. unfold _calculate_adaptation_confidence.
  rewrite Hb, Ht, He. reflexivity.
Qed.

Lemma adaptation_confidence_all_medium_witness :
  budget_level samples.medium_context = "medium"%string /\
  timeline samples.medium_context = "medium"%string /\
  technical_expertise samples.medium_context = "medium"%string /\
  _calculate_adaptation_confidence samples.breakthrough_concept
    samples.medium_context = 1.0.
Proof.
  do 3 (split; [reflexivity|]).
  apply (adaptation_confidence_all_medium samples.breakthrough_concept
           samples.medium_context); reflexivity.
Defined.

(** Both penalties at once reach the lower clamp. *)
Example adaptation_confidence_strained :
  _calculate_adaptation_confidence samples.breakthrough_concept
    samples.strained_context = 0.1.
Proof. reflexivity. Qed.

End adaptation_confidence.

(** ** The contradiction matrix *)

Section matrix_facts.
Import knowledge spec.
Open Scope Z_scope.

Lemma symmetric_empty : symmetric ∅.
Proof. intros a b. by rewrite !lookup_empty. Qed.

(** The two assignments of one turn keep the matrix symmetric, also when
    the turn overwrites an earlier entry. *)
Lemma store_symmetric_symmetric matrix param1 param2 princ :
  symmetric matrix -> symmetric (store_symmetric matrix param1 param2 princ).
Proof.
  intros Hsym a b. unfold store_symmetric.
  destruct (decide ((param2, param1) = (a, b))) as [E1|N1].
  - inversion E1; subst. rewrite lookup_insert_eq.
    destruct (decide ((a, b) = (b, a))) as [E2|N2].
    + by rewrite <- E2, lookup_insert_eq.
    + by rewrite lookup_insert_ne, lookup_insert_eq.
  - rewrite (lookup_insert_ne _ _ (a, b)) by done.
    destruct (decide ((param1, param2) = (a, b))) as [E2|N2].
    + inversion E2; subst. by rewrite lookup_insert_eq, lookup_insert_eq.
    + rewrite (lookup_insert_ne _ _ (a, b)) by done.
      rewrite !lookup_insert_ne by congruence.
      apply Hsym.
Qed.

Lemma index_by_lookup {A : Type} (key : A -> Z) (data : list A) (k : Z) :
  is_Some (index_by key data !! k) <-> exists d, d ∈ data /\ key d = k.
Proof.
  unfold index_by.
  assert (G : forall acc : gmap Z A,
    is_Some (fold_left (fun d p => <[key p := p]> d) data acc !! k) <->
    is_Some (acc !! k) \/ exists d, d ∈ data /\ key d = k).
  { induction data as [|x data IH]; intros acc; simpl.
    - split; [by left|]. intros [H|(d & Hd & _)]; [done|]. by inversion Hd.
    - rewrite IH. rewrite lookup_insert. split.
      + intros [H|(d & Hd & Hk)].
        * case_decide; [right; exists x; split; [left|done] | by left].
        * right. exists d. split; [by right|done].
      + intros [H|(d & Hd & Hk)].
        * left. case_decide; [done|done].
        * inversion Hd; subst.
          -- left. by rewrite decide_True.
          -- right. by exists d. }
  rewrite G, lookup_empty. split.
  - intros [H|H]; [by destruct H|done].
  - by right.
Qed.

End matrix_facts.

(** ** Symmetry of the loaded matrices *)

Section symmetry.
Import knowledge spec.
Open Scope Z_scope.

Lemma read_rows_symmetric rows : symmetric (knowledge_loader.read_rows rows).
Proof.
  unfold knowledge_loader.read_rows.
  assert (G : forall acc, symmetric acc ->
    symmetric (fold_left (fun matrix '(imp_param, wors_param, princ) =>
                 store_symmetric matrix imp_param wors_param princ) rows acc)).
  { induction rows as [|[[a b] l] rows IH]; intros acc Hacc; simpl; [done|].
    apply IH. by apply store_symmetric_symmetric. }
  apply G, symmetric_empty.
Qed.

Lemma selector_matrix_symmetric matrix_file :
  symmetric (principle_selector._load_contradiction_matrix matrix_file).
Proof.
  unfold principle_selector._load_contradiction_matrix.
  generalize principle_selector.known_relationships. intros rels.
  assert (G : forall acc, symmetric acc ->
    symmetric (fold_left (fun matrix '((param1, param2), princ) =>
                 store_symmetric matrix param1 param2 princ) rels acc)).
  { induction rels as [|[[a b] l] rels IH]; intros acc Hacc; simpl; [done|].
    apply IH. by apply store_symmetric_symmetric. }
  apply G, symmetric_empty.
Qed.

(** What a first call of [load_contradiction_matrix] returns and caches. *)
Lemma load_contradiction_matrix_fresh files matrix self' :
  knowledge_loader.load_contradiction_matrix files knowledge_loader.__init__
    = (Py.Ok matrix, self') ->
  exists rows, knowledge_loader.matrix_csv files = Py.Ok rows /\
    matrix = knowledge_loader.read_rows rows /\
    knowledge_loader.contradiction_matrix self' = Some matrix.
Proof.
  unfold knowledge_loader.load_contradiction_matrix. simpl.
  destruct (knowledge_loader.matrix_csv files) as [rows|e]; [|done].
  intros [= <- <-]. by exists rows.
Qed.

(** A later call answers from the cache. *)
Lemma load_contradiction_matrix_cached files self matrix :
  knowledge_loader.contradiction_matrix self = Some matrix ->
  knowledge_loader.load_contradiction_matrix files self = (Py.Ok matrix, self).
Proof.
  intros H. unfold knowledge_loader.load_contradiction_matrix. by rewrite H.
Qed.

(** C4: in the contradiction matrix built by either loader, a pair and its
    reversed pair are present together and carry the same list of principle
    ids. *)
Theorem contradiction_matrix_symmetric :
  (forall files matrix self' a b ids,
     knowledge_loader.load_contradiction_matrix files knowledge_loader.__init__
       = (Py.Ok matrix, self') ->
     matrix !! (a, b) = Some ids -> matrix !! (b, a) = Some ids) /\
  (forall principles_yaml matrix_file a b ids,
     principle_selector.contradiction_matrix
       (principle_selector.__init__ principles_yaml matrix_file) !! (a, b)
       = Some ids ->
     principle_selector.contradiction_matrix
       (principle_selector.__init__ principles_yaml matrix_file) !! (b, a)
       = Some ids).
Proof.
  split.
  - intros files matrix self' a b ids Hload Hab.
    apply load_contradiction_matrix_fresh in Hload as (rows & _ & -> & _).
    by rewrite <- (read_rows_symmetric rows a b).
  - intros principles_yaml matrix_file a b ids Hab. simpl in *.
    by rewrite <- (selector_matrix_symmetric matrix_file a b).
Qed.

Lemma contradiction_matrix_symmetric_witness :
  (exists matrix self',
     knowledge_loader.load_contradiction_matrix samples.files
       knowledge_loader.__init__ = (Py.Ok matrix, self') /\
     matrix !! (9, 19) = Some [15; 2; 35; 18] /\
     matrix !! (19, 9) = Some [15; 2; 35; 18]) /\
  (principle_selector.contradiction_matrix samples.selector !! (36, 27)
     = Some [1; 13; 22; 35] /\
   principle_selector.contradiction_matrix samples.selector !! (27, 36)
     = Some [1; 13; 22; 35]).
Proof.
  destruct contradiction_matrix_symmetric as [Hloader Hselector]. split.
  - eexists _, _. split; [reflexivity|]. split; [reflexivity|].
    eapply (Hloader samples.files _ _ 9 19 [15; 2; 35; 18]); reflexivity.
  - split; [reflexivity|].
    apply (Hselector samples.forty_principles
             "heinrich/knowledge/contradiction_matrix.csv"%string
             36 27 [1; 13; 22; 35]).
    reflexivity.
Defined.

(** The lookup of the knowledge store answers the same for both orders. *)
Lemma get_principles_for_contradiction_symmetric files a b :
  fst (knowledge_loader.get_principles_for_contradiction files a b
         knowledge_loader.__init__)
  = fst (knowledge_loader.get_principles_for_contradiction files b a
           knowledge_loader.__init__).
Proof.
  unfold knowledge_loader.get_principles_for_contradiction,
    knowledge_loader.mbind, knowledge_loader.ret.
  destruct (knowledge_loader.load_contradiction_matrix files
              knowledge_loader.__init__) as [[matrix|e] self'] eqn:E; [|done].
  apply load_contradiction_matrix_fresh in E as (rows & _ & -> & _).
  simpl. by rewrite (read_rows_symmetric rows a b).
Qed.

End symmetry.

(** ** Validation of the contradiction matrix *)

Section validation.
Import knowledge spec knowledge_loader.
Open Scope Z_scope.

Lemma has_key_is_Some {V : Type} (d : gmap Z V) (k : Z) :
  Py.has_key d k = true <-> is_Some (d !! k).
Proof.
  unfold Py.has_key. destruct (d !! k) as [v|]; split; intros H.
  - by exists v.
  - done.
  - done.
  - by destruct H.
Qed.

(** The loop returns [True] exactly when no entry trips a [return False]. *)
Lemma check_entries_true params princ items :
  check_entries params princ items = true <->
  forall a b ids, ((a, b), ids) ∈ items ->
    is_Some (params !! a) /\ is_Some (params !! b) /\
    forall p, p ∈ ids -> is_Some (princ !! p).
Proof.
  induction items as [|[[a b] ids] items IH]; simpl.
  - split; [|done]. intros _ a b ids H. by inversion H.
  - destruct (Py.has_key params a) eqn:Ea; simpl.
    2:{ split; [done|]. intros H.
        destruct (H a b ids) as [Ha _]; [left|].
        apply has_key_is_Some in Ha. congruence. }
    destruct (Py.has_key params b) eqn:Eb; simpl.
    2:{ split; [done|]. intros H.
        destruct (H a b ids) as (_ & Hb & _); [left|].
        apply has_key_is_Some in Hb. congruence. }
    destruct (existsb _ ids) eqn:Ei.
    + split; [done|]. intros H.
      destruct (H a b ids) as (_ & _ & Hp); [left|].
      apply existsb_exists in Ei as (p & Hin & Hno).
      apply list_elem_of_In, Hp, has_key_is_Some in Hin.
      rewrite Hin in Hno. done.
    + rewrite IH. split.
      * intros H a' b' ids' Hin. inversion Hin; subst; [|by apply H].
        split; [by apply has_key_is_Some|].
        split; [by apply has_key_is_Some|].
        intros p Hp. apply has_key_is_Some.
        destruct (Py.has_key princ p) eqn:Ep; [done|].
        assert (existsb (fun princ_id => negb (Py.has_key princ princ_id)) ids
                = true); [|congruence].
        apply existsb_exists. exists p.
        split; [by apply list_elem_of_In | by rewrite Ep].
      * intros H a' b' ids' Hin. apply H. by right.
Qed.

(** On a fresh loader the three tables are read from the files, in the
    order matrix, parameters, principles. *)
Lemma validate_body_fresh files :
  fst (validate_body files __init__) =
    (rows <- matrix_csv files ;;
     params <- parameters_yaml files ;;
     princ <- principles_yaml files ;;
     Py.Ok (check_entries (index_by param_id params) (index_by princ_id princ)
              (map_to_list (read_rows rows)))).
Proof.
  unfold validate_body, mbind, ret, load_contradiction_matrix,
    load_39_parameters, load_40_principles. simpl.
  destruct (matrix_csv files); simpl; [|done].
  destruct (parameters_yaml files); simpl; [|done].
  by destruct (principles_yaml files).
Qed.

(** A fresh loader validates exactly when the three tables load and the
    ids of the matrix are known. *)
Lemma validate_fresh_loader files :
  fst (validate_contradiction_matrix files __init__) = true <->
  exists rows params princ,
    matrix_csv files = Py.Ok rows /\
    parameters_yaml files = Py.Ok params /\
    principles_yaml files = Py.Ok princ /\
    matrix_ids_valid (read_rows rows) (index_by param_id params)
      (index_by princ_id princ).
Proof.
  unfold validate_contradiction_matrix.
  pose proof (validate_body_fresh files) as Hbody.
  destruct (validate_body files __init__) as [r self']. simpl in Hbody.
  subst r.
  destruct (matrix_csv files) as [rows|e1]; simpl.
  2:{ split; [done|]. by intros (? & ? & ? & ? & _). }
  destruct (parameters_yaml files) as [params|e2]; simpl.
  2:{ split; [done|]. by intros (? & ? & ? & _ & ? & _). }
  destruct (principles_yaml files) as [princ|e3]; simpl.
  2:{ split; [done|]. by intros (? & ? & ? & _ & _ & ? & _). }
  rewrite check_entries_true. unfold matrix_ids_valid. split.
  - intros H. exists rows, params, princ. do 3 (split; [done|]).
    intros a b ids Hab. apply H. by apply elem_of_map_to_list.
  - intros (rows' & params' & princ' & [= <-] & [= <-] & [= <-] & H).
    intros a b ids Hin. apply elem_of_map_to_list in Hin. by apply H.
Qed.

(** C2, as the code has it: a fresh loader validates exactly when the three
    tables load, every parameter id of a matrix key is in the parameter
    table and every principle id of a matrix entry is in the principle
    table.  The effects catalog is not consulted. *)
Theorem validate_contradiction_matrix_iff files :
  fst (validate_contradiction_matrix files __init__) = true <->
  exists rows params princ,
    matrix_csv files = Py.Ok rows /\
    parameters_yaml files = Py.Ok params /\
    principles_yaml files = Py.Ok princ /\
    matrix_ids_valid (read_rows rows) (index_by param_id params)
      (index_by princ_id princ).
Proof. exact (validate_fresh_loader files). Qed.

Lemma validate_contradiction_matrix_iff_witness :
  matrix_ids_valid (read_rows samples.matrix_rows)
    (index_by param_id samples.thirty_nine_parameters)
    (index_by princ_id samples.forty_principles).
Proof.
  destruct (proj1 (validate_contradiction_matrix_iff samples.files))
    as (rows & params & princ & [= <-] & [= <-] & [= <-] & H).
  - by vm_compute.
  - exact H.
Defined.

(** The effects catalog refers to principle 37; a principle table without
    that principle does not cover it. *)
Lemma short_table_misses_effect_principle :
  ~ effects_ids_valid (effects_lookup.effects_database samples.lookup)
      (index_by princ_id samples.principles_without_37).
Proof.
  intros H.
  assert (Hx : is_Some
    (index_by princ_id samples.principles_without_37 !! 37)).
  { eapply (H "thermal_expansion"%string); left. }
  destruct Hx as [x Hx]. vm_compute in Hx. discriminate.
Qed.

(** C2, as the claim has it, fails: the knowledge base [short_files] is
    accepted although principle 37 of the effect "thermal_expansion" is
    missing from its principle table. *)
Lemma validate_ignores_effects :
  ~ (fst (validate_contradiction_matrix samples.short_files __init__) = true <->
     exists rows params princ,
       matrix_csv samples.short_files = Py.Ok rows /\
       parameters_yaml samples.short_files = Py.Ok params /\
       principles_yaml samples.short_files = Py.Ok princ /\
       matrix_ids_valid (read_rows rows) (index_by param_id params)
         (index_by princ_id princ) /\
       effects_ids_valid (effects_lookup.effects_database samples.lookup)
         (index_by princ_id princ)).
Proof.
  intros [Hto _].
  destruct Hto as (rows & params & princ & _ & _ & [= <-] & _ & Heff).
  - vm_compute. reflexivity.
  - by apply short_table_misses_effect_principle.
Qed.

(** Every principle id of the effects catalog lies between 1 and 40, so
    the catalog is covered by any principle table that holds those forty
    ids.  On such a table the condition that the routine checks and the
    condition with the effects agree. *)
Lemma effects_catalog_within_forty (princ : gmap Z TrizPrinciple) :
  (forall p, 1 <= p <= 40 -> is_Some (princ !! p)) ->
  effects_ids_valid effects_lookup.effects_data princ.
Proof.
  intros Hall k e p Hin Hp. apply Hall.
  assert (F : forallb (fun item =>
                forallb (fun p => (1 <=? p) && (p <=? 40))
                        (effects_lookup.related_principles (snd item)))
                effects_lookup.effects_data = true) by reflexivity.
  rewrite forallb_forall in F.
  apply list_elem_of_In in Hin. specialize (F _ Hin). simpl in F.
  rewrite forallb_forall in F.
  apply list_elem_of_In in Hp. specialize (F _ Hp). lia.
Qed.

Lemma validate_contradiction_matrix_forty files :
  (forall princ, principles_yaml files = Py.Ok princ ->
     forall p, 1 <= p <= 40 -> is_Some (index_by princ_id princ !! p)) ->
  fst (validate_contradiction_matrix files __init__) = true <->
  exists rows params princ,
    matrix_csv files = Py.Ok rows /\
    parameters_yaml files = Py.Ok params /\
    principles_yaml files = Py.Ok princ /\
    matrix_ids_valid (read_rows rows) (index_by param_id params)
      (index_by princ_id princ) /\
    effects_ids_valid effects_lookup.effects_data (index_by princ_id princ).
Proof.
  intros Hforty. rewrite validate_fresh_loader. split.
  - intros (rows & params & princ & H1 & H2 & H3 & H4).
    exists rows, params, princ. do 4 (split; [done|]).
    by apply effects_catalog_within_forty, Hforty.
  - intros (rows & params & princ & H1 & H2 & H3 & H4 & _).
    by exists rows, params, princ.
Qed.

End validation.

(** ** Principle selection *)

Section selection.
Import knowledge spec principle_selector.
Open Scope list_scope.
Open Scope Q_scope.

(** [_calculate_relevance_score] returns for every id of the principle
    table, and what it returns lies between 0.4 and 1. *)
Lemma relevance_score_defined self principle_id improving_param worsening_param :
  is_Some (principles self !! principle_id) ->
  exists s, _calculate_relevance_score self principle_id improving_param
              worsening_param = Py.Ok s.
Proof.
  intros [d Hd]. unfold _calculate_relevance_score, Py.getitem.
  rewrite Hd. simpl. by eexists.
Qed.

Lemma relevance_score_bounds self principle_id improving_param worsening_param s :
  _calculate_relevance_score self principle_id improving_param worsening_param
    = Py.Ok s ->
  0.4 <= s <= 1.
Proof.
  unfold _calculate_relevance_score, Py.getitem.
  destruct (principles self !! principle_id); simpl; [|done].
  intros [= <-].
  destruct (in_matrix self _), (bool_decide (principle_id ∈ universal_principles)),
    (Z.eqb improving_param 9 && bool_decide (principle_id ∈ speed_principles))%bool;
    match goal with
    | |- _ <= Py.min ?x ?y <= _ =>
        destruct (min_spec x y) as [[H ->] | [H ->]]; lra
    end.
Qed.

(** Every recommendation built by the loop carries such a score. *)
Lemma recommend_each_scores self improving_param worsening_param ids recs :
  recommend_each self improving_param worsening_param ids = Py.Ok recs ->
  Forall (fun r => 0.4 <= relevance_score r <= 1) recs.
Proof.
  revert recs. induction ids as [|principle_id ids IH]; intros recs; simpl.
  - by intros [= <-].
  - destruct (principles self !! principle_id) as [d|]; [|by apply IH].
    destruct (_calculate_relevance_score self principle_id improving_param
                worsening_param) as [s|e] eqn:Es; simpl; [|done].
    destruct (_generate_reasoning self principle_id improving_param
                worsening_param) as [why|e]; simpl; [|done].
    destruct (recommend_each self improving_param worsening_param ids)
      as [others|e]; simpl; [|done].
    intros [= <-]. constructor; [|by apply IH].
    simpl. by eapply relevance_score_bounds.
Qed.

(** What [select_principles] returns, when it returns. *)
Lemma select_principles_returns self improving_param worsening_param r :
  select_principles self improving_param worsening_param = Py.Ok r ->
  exists ids recs,
    recommend_each self improving_param worsening_param ids = Py.Ok recs /\
    recommendations r = Py.sort_desc relevance_score recs /\
    primary_principles r =
      List.filter (fun x => Py.Qgeb (relevance_score x) primary_threshold)
        (recommendations r) /\
    supporting_principles r =
      List.filter (fun x => Py.Qltb (relevance_score x) primary_threshold)
        (recommendations r).
Proof.
  unfold select_principles.
  set (ids := match contradiction_matrix self !! _ with
              | Some ids => ids
              | None => _ end).
  destruct (recommend_each self improving_param worsening_param ids)
    as [recs|e] eqn:E; simpl; [|done].
  intros [= <-]. by exists ids, recs.
Qed.

(** C6: in a result of [select_principles] the primary principles are the
    recommendations of score at least 0.7, the supporting principles are
    those of score below 0.7, the recommendation list is the primary list
    followed by the supporting list, and no recommendation is in both. *)
Theorem primary_supporting_partition self improving_param worsening_param r :
  select_principles self improving_param worsening_param = Py.Ok r ->
  (forall x, x ∈ primary_principles r <->
             x ∈ recommendations r /\ 0.7 <= relevance_score x) /\
  (forall x, x ∈ supporting_principles r <->
             x ∈ recommendations r /\ relevance_score x < 0.7) /\
  recommendations r = primary_principles r ++ supporting_principles r /\
  (forall x, x ∈ primary_principles r -> x ∉ supporting_principles r).
Proof.
  intros Hr.
  apply select_principles_returns in Hr as (ids & recs & _ & Hrecs & Hp & Hs).
  assert (P : forall x, x ∈ primary_principles r <->
                        x ∈ recommendations r /\ 0.7 <= relevance_score x).
  { intros x. rewrite Hp, !list_elem_of_In, filter_In.
    by rewrite Qgeb_le. }
  assert (S : forall x, x ∈ supporting_principles r <->
                        x ∈ recommendations r /\ relevance_score x < 0.7).
  { intros x. rewrite Hs, !list_elem_of_In, filter_In.
    by rewrite Qltb_lt. }
  split; [exact P|]. split; [exact S|]. split.
  - rewrite Hp, Hs, descending_cut; [done|].
    rewrite Hrecs. apply sort_desc_descending.
  - intros x [_ H1]%P [_ H2]%S. lra.
Qed.

Lemma primary_supporting_partition_witness :
  exists r,
    select_principles samples.patched_selector 9 28 = Py.Ok r /\
    map principle_id (recommendations r) = [28%Z; 35%Z; 13%Z; 32%Z] /\
    recommendations r = primary_principles r ++ supporting_principles r.
Proof.
  destruct (select_principles samples.patched_selector 9 28) as [r|e] eqn:E;
    [|by vm_compute in E].
  exists r. split; [done|]. split.
  - vm_compute in E. by injection E as <-.
  - by destruct (primary_supporting_partition samples.patched_selector 9 28 r E)
      as (_ & _ & H & _).
Defined.

(** A heuristic selection has no primary principle: its scores stay below
    the threshold. *)
Example heuristic_selection_all_supporting :
  exists r,
    select_principles samples.patched_selector 20 30 = Py.Ok r /\
    primary_principles r = [] /\
    map principle_id (supporting_principles r) = [15%Z; 35%Z; 36%Z; 16%Z] /\
    matrix_source r = "heuristic"%string.
Proof. eexists. split; [by vm_compute|]. by vm_compute. Qed.

(** [__init__] never sets [parameters_data], so the first recommendation
    that reaches [_generate_reasoning] raises [AttributeError]. *)
Lemma generate_reasoning_without_parameters_data self principle_id
    improving_param worsening_param :
  parameters_data self = None ->
  is_Some (principles self !! principle_id) ->
  _generate_reasoning self principle_id improving_param worsening_param
    = Py.Raise Py.AttributeError.
Proof.
  intros Hnone [d Hd]. unfold _generate_reasoning, Py.getitem,
    get_parameters_data. by rewrite Hd, Hnone.
Qed.

Lemma recommend_each_without_parameters_data self improving_param
    worsening_param (ids : list Z) :
  parameters_data self = None ->
  (exists p, p ∈ ids /\ is_Some (principles self !! p)) ->
  recommend_each self improving_param worsening_param ids
    = Py.Raise Py.AttributeError.
Proof.
  intros Hnone. induction ids as [|principle_id ids IH]; simpl.
  - intros (p & Hp & _). by inversion Hp.
  - intros (p & Hp & Hsome).
    destruct (principles self !! principle_id) as [d|] eqn:Hd.
    + destruct (relevance_score_defined self principle_id improving_param
                  worsening_param) as [s ->]; [by eexists|]. simpl.
      rewrite generate_reasoning_without_parameters_data; [done|done|].
      by eexists.
    + apply IH. exists p. split; [|done].
      inversion Hp; subst; [|done]. rewrite Hd in Hsome. by destruct Hsome.
Qed.

(** Without any known principle the loop is empty and the call returns. *)
Lemma select_principles_empty_table matrix_file improving_param worsening_param :
  exists r,
    select_principles (__init__ [] matrix_file) improving_param worsening_param
      = Py.Ok r /\ recommendations r = [].
Proof.
  unfold select_principles.
  set (ids := match contradiction_matrix _ !! _ with
              | Some ids => ids
              | None => _ end).
  assert (E : recommend_each (__init__ [] matrix_file) improving_param
                worsening_param ids = Py.Ok []).
  { clearbody ids. induction ids as [|i ids IH]; [done|].
    simpl. unfold index_by. simpl. by rewrite lookup_empty. }
  rewrite E. simpl. by eexists.
Qed.

(** C1, as the code has it: on a selector built by [__init__] from a
    principle table that knows one of the principles 15, 2, 35 and 18, the
    call [select_principles(9, 19)] raises [AttributeError] and returns
    nothing. *)
Theorem select_principles_speed_energy_raises principles_yaml matrix_file :
  (exists d, d ∈ principles_yaml /\ princ_id d ∈ [15%Z; 2%Z; 35%Z; 18%Z]) ->
  select_principles (__init__ principles_yaml matrix_file) 9 19
    = Py.Raise Py.AttributeError.
Proof.
  intros (d & Hd & Hid). unfold select_principles.
  replace (contradiction_matrix (__init__ principles_yaml matrix_file)
             !! (9%Z, 19%Z)) with (Some [15%Z; 2%Z; 35%Z; 18%Z])
    by (by vm_compute).
  rewrite recommend_each_without_parameters_data; [done|done|].
  exists (princ_id d). split; [done|].
  simpl. apply index_by_lookup. by exists d.
Qed.

Lemma select_principles_speed_energy_raises_witness :
  select_principles samples.selector 9 19 = Py.Raise Py.AttributeError.
Proof.
  apply (select_principles_speed_energy_raises samples.forty_principles).
  exists (default (Build_TrizPrinciple 0 "" "" None)
                  (samples.forty_principles !! 14%nat)).
  split; [|by left].
  apply list_elem_of_lookup. by exists 14%nat.
Defined.

(** What the call would return once a caller has stored the parameter
    table in [parameters_data]: the four principles of the matrix entry,
    ordered by score, all of them primary. *)
Example select_principles_speed_energy_patched :
  exists r,
    select_principles samples.patched_selector 9 19 = Py.Ok r /\
    map principle_id (recommendations r) = [15%Z; 18%Z; 35%Z; 2%Z] /\
    map relevance_score (recommendations r) = [1.0; 0.950; 0.90; 0.8] /\
    primary_principles r = recommendations r /\
    supporting_principles r = [] /\
    matrix_source r = "contradiction_matrix"%string.
Proof. eexists. split; [by vm_compute|]. by vm_compute. Qed.

End selection.

(** ** Effects lookup *)

Section effects.
Import spec effects_lookup.
Open Scope list_scope.
Open Scope Q_scope.

Lemma size_list_to_set_le (l : list Z) :
  (size (list_to_set l : gset Z) <= length l)%nat.
Proof.
  induction l as [|x l IH].
  - by rewrite list_to_set_nil, size_empty.
  - rewrite list_to_set_cons, size_union_alt, size_singleton. simpl.
    assert (size (list_to_set l ∖ {[x]} : gset Z)
            <= size (list_to_set l : gset Z))%nat.
    { apply subseteq_size, subseteq_difference_l. done. }
    lia.
Qed.

Lemma common_principles_size (ids related : list Z) :
  (size (list_to_set ids ∩ list_to_set related : gset Z) <= length ids)%nat.
Proof.
  etrans; [|apply size_list_to_set_le].
  apply subseteq_size, intersection_subseteq_l.
Qed.

(** A score that only grows from a non-negative start stays non-negative. *)
Lemma fold_left_nonneg {B : Type} (f : Q -> B -> Q) (l : list B) (init : Q) :
  (forall acc x, 0 <= acc -> 0 <= f acc x) -> 0 <= init ->
  0 <= fold_left f l init.
Proof.
  intros Hf. revert init. induction l as [|x l IH]; intros init Hinit; simpl.
  - done.
  - by apply IH, Hf.
Qed.

Lemma domain_match_bounds eff domain_keywords :
  in_unit (_calculate_domain_match eff domain_keywords).
Proof.
  unfold _calculate_domain_match. apply cap_bounds.
  apply fold_left_nonneg.
  - intros acc domain Hacc. apply fold_left_nonneg; [|done].
    intros acc' kw Hacc'. destruct (Py.contains _ _); lra.
  - apply fold_left_nonneg; [|lra].
    intros acc app Hacc. apply fold_left_nonneg; [|done].
    intros acc' kw Hacc'. destruct (Py.contains _ _); lra.
Qed.

Lemma contradiction_relevance_bounds eff improving_param worsening_param :
  in_unit (_calculate_contradiction_relevance eff improving_param worsening_param).
Proof.
  unfold _calculate_contradiction_relevance. apply cap_bounds.
  set (n := size _).
  assert (0 <= inject_Z (Z.of_nat n) / 4.0).
  { unfold Qdiv. change (/ 4.0) with (10 # 40).
    assert (0 <= inject_Z (Z.of_nat n)).
    { change 0 with (inject_Z 0). rewrite <- Zle_Qle. lia. }
    lra. }
  repeat match goal with
         | |- context [if ?b then _ else _] => destruct b
         end; lra.
Qed.

(** The quotient of [find_effects_for_principles] is defined whenever it
    is reached, and lies in the unit interval. *)
Lemma overlap_ratio (ids related : list Z) :
  (list_to_set ids ∩ list_to_set related : gset Z) <> ∅ ->
  exists s,
    Py.truediv (Z.of_nat (size (list_to_set ids ∩ list_to_set related : gset Z)))
               (Z.of_nat (length ids)) = Py.Ok s /\ in_unit s.
Proof.
  intros Hne. unfold Py.truediv.
  destruct ids as [|i ids].
  - exfalso. apply Hne. rewrite list_to_set_nil. apply intersection_empty_l_L.
  - eexists. split; [done|].
    apply ratio_bounds; [apply common_principles_size | simpl; lia].
Qed.

Lemma match_each_returns ids domain_keywords items :
  exists recs, match_each ids domain_keywords items = Py.Ok recs /\
    Forall (fun r => in_unit (relevance_score r)) recs.
Proof.
  induction items as [|[effect_id eff] items (recs & IH & Hrecs)]; simpl.
  - by exists [].
  - case_decide as Hcommon; [by exists recs|].
    destruct (overlap_ratio ids (related_principles eff) Hcommon)
      as (s & -> & Hs). simpl.
    set (score := match given domain_keywords with
                  | Some kws => _ | None => s end).
    assert (Hscore : in_unit score).
    { unfold score. destruct (given domain_keywords); [|done].
      apply half_sum_bounds; [done | apply domain_match_bounds]. }
    destruct (Py.Qgtb score 0.2); [|by exists recs].
    rewrite IH. simpl. eexists. split; [done|]. by constructor.
Qed.

(** [find_effects_for_principles] never raises, and its scores lie in
    the unit interval. *)
Lemma find_effects_for_principles_returns self ids domain_keywords :
  exists recs,
    find_effects_for_principles self ids domain_keywords = Py.Ok recs /\
    Forall (fun r => in_unit (relevance_score r)) recs.
Proof.
  unfold find_effects_for_principles.
  destruct (match_each_returns ids domain_keywords (effects_database self))
    as (recs & -> & Hrecs). simpl.
  eexists. split; [done|]. by rewrite sort_desc_perm.
Qed.

(** C10: with an empty list of principle ids every effect is skipped
    before the division, so the call returns the empty list and cannot
    raise [ZeroDivisionError]. *)
Theorem find_effects_for_no_principles self domain_keywords :
  find_effects_for_principles self [] domain_keywords = Py.Ok [].
Proof.
  unfold find_effects_for_principles.
  assert (E : match_each [] domain_keywords (effects_database self) = Py.Ok []).
  { induction (effects_database self) as [|[effect_id eff] items IH]; [done|].
    simpl. rewrite decide_True; [done|]. apply intersection_empty_l_L. }
  by rewrite E.
Qed.

Lemma rate_each_scores self improving_param worsening_param ids :
  Forall (fun r => in_unit (relevance_score r))
         (rate_each self improving_param worsening_param ids).
Proof.
  induction ids as [|effect_id ids IH]; simpl; [done|].
  destruct (lookup_effect _ _) as [eff|]; [|done].
  destruct (Py.Qgtb _ _); [|done].
  constructor; [|done]. apply contradiction_relevance_bounds.
Qed.

Lemma find_effects_for_contradiction_scores self improving_param
    worsening_param domain_keywords :
  Forall (fun r => in_unit (relevance_score r))
         (find_effects_for_contradiction self improving_param worsening_param
            domain_keywords).
Proof.
  unfold find_effects_for_contradiction. rewrite sort_desc_perm.
  apply rate_each_scores.
Qed.



(** The effects selected for speed against energy, and their scores. *)
Lemma speed_energy_candidates :
  relevant_effect_ids samples.lookup 9 19 (Some []) =
    {[ "thermal_expansion"; "shape_memory"; "piezoelectric";
       "thermoelectric"; "capillary_action"; "aerogel" ]}%string.
Proof. by vm_compute. Qed.

Lemma capillary_action_relevance :
  exists eff,
    lookup_effect (effects_database samples.lookup) "capillary_action"
      = Some eff /\
    _calculate_contradiction_relevance eff 9 19 == 0.
Proof. eexists. split; [reflexivity|]. by vm_compute. Qed.

(** C3, as the claim has it, fails: "capillary_action" is a candidate of
    parameter 19, but its relevance 0 does not pass the threshold 0.1 and
    it is not recommended. *)
Lemma speed_energy_effects_lack_capillary_action :
  ~ (forall e, e ∈ ["thermoelectric"; "capillary_action"; "aerogel"]%string ->
       e ∈ map (fun r => id (effect r))
               (find_effects_for_contradiction samples.lookup 9 19 (Some []))).
Proof.
  intros H.
  assert (Hin : "capillary_action"%string ∈
    map (fun r => id (effect r))
        (find_effects_for_contradiction samples.lookup 9 19 (Some []))).
  { apply H. right. left. }
  revert Hin. apply (proj1 (bool_decide_eq_false _)). by vm_compute.
Qed.

(** C3, as the code has it: the call recommends exactly the effects
    thermoelectric, piezoelectric, thermal_expansion, shape_memory and
    aerogel; among the candidates of parameter 19 it keeps thermoelectric
    and aerogel and drops capillary_action. *)
Theorem speed_energy_effects :
  forall e,
    e ∈ map (fun r => id (effect r))
            (find_effects_for_contradiction samples.lookup 9 19 (Some []))
    <-> e ∈ ["thermoelectric"; "piezoelectric"; "thermal_expansion";
             "shape_memory"; "aerogel"]%string.
Proof.
  intros e.
  assert (P : map (fun r => id (effect r))
                  (find_effects_for_contradiction samples.lookup 9 19 (Some []))
              = ["thermoelectric"; "piezoelectric"; "shape_memory";
                 "thermal_expansion"; "aerogel"]%string) by (by vm_compute).
  rewrite P, !elem_of_cons, !elem_of_nil. tauto.
Qed.

End effects.

(** ** Contradiction identification *)

Section identification.
Import knowledge spec contradiction_identifier.
Open Scope list_scope.
Open Scope Q_scope.

(** *** The edit distance *)

Lemma prefix_distance_0_l s t j : prefix_distance s t 0 j = j.
Proof. reflexivity. Qed.

Lemma prefix_distance_0_r s t i : prefix_distance s t i 0 = i.
Proof. by destruct i. Qed.

Lemma prefix_distance_step s t i j :
  prefix_distance s t (S i) (S j) =
    Nat.min (Nat.min (prefix_distance s t i (S j) + 1)
                     (prefix_distance s t (S i) j + 1))
            (prefix_distance s t i j + substitution_cost s t i j).
Proof. reflexivity. Qed.

Lemma get_after_prefix (before : string) (c : ascii) (rest : string) :
  String.get (String.length before) (before ++ String c rest) = Some c.
Proof. induction before as [|b before IH]; [done | exact IH]. Qed.

Lemma append_step (before : string) (c : ascii) (rest : string) :
  (before ++ String c rest)%string
  = ((before ++ String c EmptyString) ++ rest)%string.
Proof.
  induction before as [|b before IH]; [done|].
  change (String b (before ++ String c rest)
          = String b ((before ++ String c EmptyString) ++ rest))%string.
  by f_equal.
Qed.

Lemma length_append_one (before : string) (c : ascii) :
  String.length (before ++ String c EmptyString) = S (String.length before).
Proof.
  induction before as [|b before IH]; [done|].
  change (S (String.length (before ++ String c EmptyString))
          = S (S (String.length before))).
  by f_equal.
Qed.

(** The inner loop fills the row [i + 1] from the row [i]. *)
Lemma fill_row_spec s1 s2 i c1 :
  String.get i s1 = Some c1 ->
  forall rest before,
    s2 = (before ++ rest)%string ->
    fill_row c1 rest
      (map (prefix_distance s1 s2 i)
           (seq (String.length before) (String.length rest + 1)))
      (prefix_distance s1 s2 (S i) (String.length before))
    = map (prefix_distance s1 s2 (S i))
          (seq (S (String.length before)) (String.length rest)).
Proof.
  intros Hc1. induction rest as [|c2 rest IH]; intros before Hs2; [done|].
  cbn [String.length Nat.add seq map fill_row].
  assert (Hcost : substitution_cost s1 s2 i (String.length before)
                  = (if Ascii.eqb c1 c2 then 0 else 1)%nat).
  { unfold substitution_cost. by rewrite Hc1, Hs2, get_after_prefix. }
  specialize (IH (before ++ String c2 EmptyString)%string).
  rewrite length_append_one in IH.
  specialize (IH ltac:(by rewrite <- append_step)).
  remember (map (prefix_distance s1 s2 i)
              (seq (S (String.length before)) (String.length rest + 1)))
    as row eqn:Hrow.
  assert (Hhead : exists others,
            row = prefix_distance s1 s2 i (S (String.length before)) :: others).
  { subst row. rewrite Nat.add_1_r. cbn [seq map]. by eexists. }
  destruct Hhead as [others Hothers]. rewrite Hothers in IH |- *.
  rewrite <- Hcost, <- prefix_distance_step. by f_equal.
Qed.

(** The outer loop reaches the last row. *)
Lemma fill_rows_spec s1 s2 :
  forall rest before,
    s1 = (before ++ rest)%string ->
    fill_rows (String.length before) rest s2
      (map (prefix_distance s1 s2 (String.length before))
           (seq 0 (String.length s2 + 1)))
    = map (prefix_distance s1 s2 (String.length before + String.length rest))
          (seq 0 (String.length s2 + 1)).
Proof.
  induction rest as [|c1 rest IH]; intros before Hs1.
  - simpl. by rewrite Nat.add_0_r.
  - cbn [fill_rows String.length].
    specialize (IH (before ++ String c1 EmptyString)%string).
    rewrite length_append_one in IH.
    specialize (IH ltac:(by rewrite <- append_step)).
    replace (String.length before + S (String.length rest))%nat
      with (S (String.length before) + String.length rest)%nat by lia.
    rewrite <- IH. f_equal.
    pose proof (fill_row_spec s1 s2 (String.length before) c1) as H.
    rewrite Hs1, get_after_prefix, <- Hs1 in H.
    specialize (H eq_refl s2 EmptyString eq_refl).
    cbn [String.length] in H. rewrite prefix_distance_0_r in H.
    rewrite (Nat.add_1_r (String.length before)), H.
    rewrite (Nat.add_1_r (String.length s2)). cbn [seq map].
    by rewrite prefix_distance_0_r.
Qed.

Lemma distance_ordered_spec s1 s2 :
  distance_ordered s1 s2 = levenshtein s1 s2.
Proof.
  unfold distance_ordered, levenshtein.
  destruct (Nat.eqb_spec (String.length s2) 0) as [E|E].
  - by rewrite E, prefix_distance_0_r.
  - pose proof (fill_rows_spec s1 s2 s1 EmptyString eq_refl) as H.
    cbn [String.length Nat.add] in H.
    assert (H0 : map (prefix_distance s1 s2 0) (seq 0 (String.length s2 + 1))
                 = seq 0 (String.length s2 + 1)).
    { rewrite <- (map_id (seq 0 _)) at 2. by apply map_ext. }
    rewrite H0 in H. rewrite H, Nat.add_1_r.
    rewrite seq_S, map_app. cbn [map]. by rewrite last_last.
Qed.

(** The recurrence does not depend on the order of the two texts. *)
Lemma substitution_cost_sym s t i j :
  substitution_cost s t i j = substitution_cost t s j i.
Proof.
  unfold substitution_cost.
  destruct (String.get i s) as [a|], (String.get j t) as [b|]; try done.
  by rewrite Ascii.eqb_sym.
Qed.

Lemma prefix_distance_sym s t i j :
  prefix_distance s t i j = prefix_distance t s j i.
Proof.
  revert j. induction i as [|i IHi]; intros j.
  - by rewrite prefix_distance_0_l, prefix_distance_0_r.
  - induction j as [|j IHj].
    + by rewrite prefix_distance_0_l, prefix_distance_0_r.
    + rewrite !prefix_distance_step, IHj, !IHi, substitution_cost_sym. lia.
Qed.

(** [_levenshtein_distance] computes the edit distance of its arguments,
    in either order of their lengths. *)
Lemma levenshtein_distance_spec s1 s2 :
  _levenshtein_distance s1 s2 = levenshtein s1 s2.
Proof.
  unfold _levenshtein_distance.
  destruct (String.length s1 <? String.length s2)%nat;
    rewrite distance_ordered_spec; [|done].
  unfold levenshtein. apply prefix_distance_sym.
Qed.

Example levenshtein_kitten_sitting :
  _levenshtein_distance "kitten" "sitting" = 3%nat /\
  _levenshtein_distance "sitting" "kitten" = 3%nat /\
  _levenshtein_distance "speed" "" = 5%nat /\
  _levenshtein_distance "" "speed" = 5%nat.
Proof. by vm_compute. Qed.

(** *** The tiers of the fuzzy match *)

(** The loop of [_match_keyword_to_parameters] over the keywords of one
    parameter, from each of the three scores it can hold. *)
Lemma tier_loop_from_substring keyword_lower keywords :
  fold_left (tier_step keyword_lower) keywords 0.7 = 0.7.
Proof.
  induction keywords as [|k keywords IH]; simpl; [done|].
  unfold tier_step at 2.
  destruct (_ || _)%bool; [exact IH|].
  destruct (_ <=? 2)%nat; exact IH.
Qed.

Lemma tier_loop_from_edit keyword_lower keywords :
  fold_left (tier_step keyword_lower) keywords 0.5 =
    if existsb (fun k => Py.contains keyword_lower k
                         || Py.contains k keyword_lower)%bool keywords
    then 0.7 else 0.5.
Proof.
  induction keywords as [|k keywords IH]; simpl; [done|].
  unfold tier_step at 2.
  destruct (_ || _)%bool; simpl.
  - apply tier_loop_from_substring.
  - destruct (_ <=? 2)%nat; exact IH.
Qed.

Lemma tier_loop_from_nothing keyword_lower keywords :
  fold_left (tier_step keyword_lower) keywords 0.0 =
    if existsb (fun k => Py.contains keyword_lower k
                         || Py.contains k keyword_lower)%bool keywords
    then 0.7
    else if existsb (fun k => (_levenshtein_distance keyword_lower k <=? 2)%nat)
                    keywords
    then 0.5 else 0.0.
Proof.
  induction keywords as [|k keywords IH]; simpl; [done|].
  unfold tier_step at 2.
  destruct (_ || _)%bool; simpl.
  - apply tier_loop_from_substring.
  - destruct (_ <=? 2)%nat; simpl.
    + apply tier_loop_from_edit.
    + exact IH.
Qed.

Lemma exact_match_reflect keyword keywords :
  in_list keyword (map Py.lower keywords) = true <-> exact_match keyword keywords.
Proof.
  unfold in_list, exact_match. rewrite existsb_exists. split.
  - intros (x & Hin & Heq). apply String.eqb_eq in Heq. subst x.
    apply in_map_iff in Hin as (k & Hk & Hin).
    exists k. by rewrite list_elem_of_In.
  - intros (k & Hin & Hk). exists keyword. split; [|apply String.eqb_refl].
    apply in_map_iff. exists k. by rewrite <- list_elem_of_In.
Qed.

Lemma substring_match_reflect keyword keywords :
  existsb (fun k => Py.contains keyword k || Py.contains k keyword)%bool keywords
    = true <-> substring_match keyword keywords.
Proof.
  unfold substring_match. rewrite existsb_exists.
  split; intros (k & Hin & Hk); exists k.
  - by rewrite list_elem_of_In, <- orb_true_iff.
  - by rewrite <- list_elem_of_In, orb_true_iff.
Qed.

Lemma edit_match_reflect keyword keywords :
  existsb (fun k => (_levenshtein_distance keyword k <=? 2)%nat) keywords
    = true <-> edit_match keyword keywords.
Proof.
  unfold edit_match. rewrite existsb_exists.
  split; intros (k & Hin & Hk); exists k.
  - by rewrite list_elem_of_In, <- levenshtein_distance_spec, <- Nat.leb_le.
  - by rewrite <- list_elem_of_In, Nat.leb_le, levenshtein_distance_spec.
Qed.

(** The score of a keyword against one keyword set, tier by tier. *)
Lemma keyword_score_exact keyword keywords :
  exact_match keyword keywords -> keyword_score keyword keywords = 1.0.
Proof.
  intros H%exact_match_reflect. unfold keyword_score. by rewrite H.
Qed.

Lemma keyword_score_substring keyword keywords :
  ~ exact_match keyword keywords -> substring_match keyword keywords ->
  keyword_score keyword keywords = 0.7.
Proof.
  intros Hne Hs%substring_match_reflect. unfold keyword_score.
  destruct (in_list _ _) eqn:E; [by apply exact_match_reflect in E|].
  by rewrite tier_loop_from_nothing, Hs.
Qed.

Lemma keyword_score_edit keyword keywords :
  ~ exact_match keyword keywords -> ~ substring_match keyword keywords ->
  edit_match keyword keywords ->
  keyword_score keyword keywords = 0.5.
Proof.
  intros Hne Hns He%edit_match_reflect. unfold keyword_score.
  destruct (in_list _ _) eqn:E; [by apply exact_match_reflect in E|].
  rewrite tier_loop_from_nothing, He.
  destruct (existsb (fun k => Py.contains keyword k || Py.contains k keyword)%bool
              keywords) eqn:Es; [by apply substring_match_reflect in Es|done].
Qed.

Lemma keyword_score_none keyword keywords :
  ~ exact_match keyword keywords -> ~ substring_match keyword keywords ->
  ~ edit_match keyword keywords ->
  keyword_score keyword keywords = 0.0.
Proof.
  intros Hne Hns Hnn. unfold keyword_score.
  destruct (in_list _ _) eqn:E; [by apply exact_match_reflect in E|].
  rewrite tier_loop_from_nothing.
  destruct (existsb (fun k => Py.contains keyword k || Py.contains k keyword)%bool
              keywords) eqn:Es; [by apply substring_match_reflect in Es|].
  destruct (existsb (fun k => (_levenshtein_distance keyword k <=? 2)%nat)
              keywords) eqn:En; [by apply edit_match_reflect in En|done].
Qed.

(** The score is always one of the four tier values. *)
Lemma keyword_score_values keyword keywords :
  keyword_score keyword keywords = 1.0 \/ keyword_score keyword keywords = 0.7 \/
  keyword_score keyword keywords = 0.5 \/ keyword_score keyword keywords = 0.0.
Proof.
  unfold keyword_score. destruct (in_list _ _); [by left|].
  rewrite tier_loop_from_nothing.
  destruct (existsb _ _); [by right; left|].
  destruct (existsb _ _); [by right; right; left | by right; right; right].
Qed.

Lemma keyword_score_bounds keyword keywords :
  in_unit (keyword_score keyword keywords).
Proof.
  unfold in_unit.
  destruct (keyword_score_values keyword keywords) as [-> | [-> | [-> | ->]]];
    lra.
Qed.

(** The score never falls below the tier of a match that is present. *)
Lemma keyword_score_at_least_substring keyword keywords :
  substring_match keyword keywords -> 0.7 <= keyword_score keyword keywords.
Proof.
  intros Hs%substring_match_reflect. unfold keyword_score.
  destruct (in_list _ _); [lra|].
  rewrite tier_loop_from_nothing, Hs. lra.
Qed.

Lemma keyword_score_at_least_edit keyword keywords :
  edit_match keyword keywords -> 0.5 <= keyword_score keyword keywords.
Proof.
  intros He%edit_match_reflect. unfold keyword_score.
  destruct (in_list _ _); [lra|].
  rewrite tier_loop_from_nothing, He.
  destruct (existsb (fun k => Py.contains keyword k || Py.contains k keyword)%bool
              keywords); lra.
Qed.

(** And never rises above the best tier that is present. *)
Lemma keyword_score_at_most_substring keyword keywords :
  ~ exact_match keyword keywords -> keyword_score keyword keywords <= 0.7.
Proof.
  intros Hne. unfold keyword_score.
  destruct (in_list _ _) eqn:E; [by apply exact_match_reflect in E|].
  rewrite tier_loop_from_nothing.
  destruct (existsb (fun k => Py.contains keyword k || Py.contains k keyword)%bool
              keywords);
    [|destruct (existsb (fun k => (_levenshtein_distance keyword k <=? 2)%nat) keywords)]; lra.
Qed.

Lemma keyword_score_at_most_edit keyword keywords :
  ~ exact_match keyword keywords -> ~ substring_match keyword keywords ->
  keyword_score keyword keywords <= 0.5.
Proof.
  intros Hne Hns. unfold keyword_score.
  destruct (in_list _ _) eqn:E; [by apply exact_match_reflect in E|].
  rewrite tier_loop_from_nothing.
  destruct (existsb (fun k => Py.contains keyword k || Py.contains k keyword)%bool
              keywords) eqn:Es; [by apply substring_match_reflect in Es|].
  destruct (existsb (fun k => (_levenshtein_distance keyword k <=? 2)%nat) keywords); lra.
Qed.

(** C7: against the keyword set of a parameter a lowercased keyword scores
    1.0 on an exact case-insensitive match, whatever else matches; 0.7 on a
    substring match in either direction when there is no exact match; 0.5
    on a Levenshtein distance of at most 2 when there is neither.  The score is
    monotone in the strength of the match: a set matched exactly scores at
    least as high as any set, a set matched by substring at least as high
    as any set without exact match, and a set matched by edit distance at
    least as high as any set without exact or substring match. *)
Theorem fuzzy_match_tiers keyword :
  (forall keywords, exact_match keyword keywords ->
     keyword_score keyword keywords = 1.0) /\
  (forall keywords, ~ exact_match keyword keywords ->
     substring_match keyword keywords ->
     keyword_score keyword keywords = 0.7) /\
  (forall keywords, ~ exact_match keyword keywords ->
     ~ substring_match keyword keywords -> edit_match keyword keywords ->
     keyword_score keyword keywords = 0.5) /\
  (forall stronger weaker, exact_match keyword stronger ->
     keyword_score keyword weaker <= keyword_score keyword stronger) /\
  (forall stronger weaker, substring_match keyword stronger ->
     ~ exact_match keyword weaker ->
     keyword_score keyword weaker <= keyword_score keyword stronger) /\
  (forall stronger weaker, edit_match keyword stronger ->
     ~ exact_match keyword weaker -> ~ substring_match keyword weaker ->
     keyword_score keyword weaker <= keyword_score keyword stronger).
Proof.
  split; [apply keyword_score_exact|].
  split; [apply keyword_score_substring|].
  split; [apply keyword_score_edit|].
  split; [|split].
  - intros stronger weaker He.
    rewrite (keyword_score_exact keyword stronger He).
    pose proof (keyword_score_bounds keyword weaker) as [_ H]. lra.
  - intros stronger weaker Hs Hne.
    pose proof (keyword_score_at_least_substring keyword stronger Hs).
    pose proof (keyword_score_at_most_substring keyword weaker Hne). lra.
  - intros stronger weaker He Hne Hns.
    pose proof (keyword_score_at_least_edit keyword stronger He).
    pose proof (keyword_score_at_most_edit keyword weaker Hne Hns). lra.
Qed.

Lemma fuzzy_match_tiers_witness :
  keyword_score "speed" ["velocity"; "Speed"] = 1.0 /\
  keyword_score "speed" ["speedometer"] = 0.7 /\
  keyword_score "speed" ["sped"] = 0.5 /\
  keyword_score "speed" ["sped"] <= keyword_score "speed" ["speedometer"] /\
  keyword_score "speed" ["speedometer"] <= keyword_score "speed" ["velocity"; "Speed"].
Proof.
  destruct (fuzzy_match_tiers "speed") as (H1 & H2 & H3 & H4 & H5 & H6).
  assert (E1 : exact_match "speed" ["velocity"; "Speed"]).
  { exists "Speed"%string. split; [right; left | reflexivity]. }
  assert (N2 : ~ exact_match "speed" ["speedometer"]).
  { intros H%exact_match_reflect. vm_compute in H. discriminate. }
  assert (S2 : substring_match "speed" ["speedometer"]).
  { exists "speedometer"%string. split; [left | left; reflexivity]. }
  assert (N3 : ~ exact_match "speed" ["sped"]).
  { intros H%exact_match_reflect. vm_compute in H. discriminate. }
  assert (N3' : ~ substring_match "speed" ["sped"]).
  { intros H%substring_match_reflect. vm_compute in H. discriminate. }
  assert (D3 : edit_match "speed" ["sped"]).
  { exists "sped"%string. split; [left | vm_compute; lia]. }
  split; [exact (H1 _ E1)|].
  split; [exact (H2 _ N2 S2)|].
  split; [exact (H3 _ N3 N3' D3)|].
  split; [exact (H5 _ _ S2 N3) | exact (H4 _ _ E1)].
Defined.

(** [_match_keyword_to_parameters] reports a parameter exactly when the
    score of its keyword set passes 0.3, with that score. *)
Lemma match_keyword_to_parameters_spec self keyword pid s :
  (pid, s) ∈ _match_keyword_to_parameters self keyword <->
  exists keywords, (pid, keywords) ∈ parameter_keywords self /\
    s = keyword_score (Py.lower keyword) keywords /\ 0.3 < s.
Proof.
  unfold _match_keyword_to_parameters.
  rewrite list_elem_of_In, in_flat_map. split.
  - intros ([pid' keywords] & Hin & Hout).
    destruct (Py.Qgtb _ 0.3) eqn:E; [|by inversion Hout].
    destruct Hout as [[= <- <-]|[]].
    exists keywords. split; [by apply list_elem_of_In|].
    split; [done | by apply Qgtb_lt].
  - intros (keywords & Hin & -> & Hs). exists (pid, keywords).
    split; [by apply list_elem_of_In|].
    apply Qgtb_lt in Hs. rewrite Hs. by left.
Qed.

(** Facts on the ordered dicts. *)
Lemma dict_get_elem_of {V : Type} (d : list (Z * V)) (k : Z) (v : V) :
  Py.dict_get d k = Some v -> (k, v) ∈ d.
Proof.
  induction d as [|[k' v'] d IH]; simpl; [done|].
  destruct (Z.eqb_spec k k') as [->|Hne].
  - intros [= ->]. left.
  - intros H. right. by apply IH.
Qed.

Lemma dict_set_elem_of {V : Type} (d : list (Z * V)) (k k' : Z) (v v' : V) :
  (k', v') ∈ Py.dict_set d k v -> (k', v') = (k, v) \/ (k', v') ∈ d.
Proof.
  induction d as [|[k0 v0] d IH]; simpl.
  - intros H. inversion H; subst; [by left | by inversion H2].
  - destruct (Z.eqb k k0).
    + intros H. inversion H; subst; [by left | right; by right].
    + intros H. inversion H; subst; [right; left|].
      destruct (IH H2) as [?|?]; [by left | right; by right].
Qed.

Lemma dict_set_keys {V : Type} (d : list (Z * V)) (k : Z) (v : V) :
  k ∈ map fst (Py.dict_set d k v).
Proof.
  induction d as [|[k0 v0] d IH]; simpl; [left|].
  destruct (Z.eqb k k0); simpl; [left | by right].
Qed.

Lemma match_keyword_to_parameters_sound self keyword :
  Forall (sound_candidate self) (_match_keyword_to_parameters self keyword).
Proof.
  apply Forall_forall. intros [pid s] Hin.
  apply match_keyword_to_parameters_spec in Hin as (keywords & Hin & -> & _).
  split; [apply keyword_score_bounds|].
  simpl. apply list_elem_of_fmap. by exists (pid, keywords).
Qed.

Lemma candidates_of_sound self patterns text :
  Forall (sound_candidate self) (candidates_of self patterns text).
Proof.
  unfold candidates_of. apply Forall_forall. intros c Hin.
  apply list_elem_of_In, in_flat_map in Hin as (pattern & _ & Hin).
  apply in_flat_map in Hin as (m & _ & Hin).
  eapply Forall_forall; [apply match_keyword_to_parameters_sound|].
  by apply list_elem_of_In.
Qed.

Lemma best_scores_sound self candidates :
  Forall (sound_candidate self) candidates ->
  Forall (sound_candidate self) (best_scores candidates).
Proof.
  unfold best_scores.
  assert (G : forall acc, Forall (sound_candidate self) acc ->
    Forall (sound_candidate self) candidates ->
    Forall (sound_candidate self)
      (fold_left (fun scored_candidates '(param_id, score) =>
         Py.dict_set scored_candidates param_id
           (Py.max (default 0 (Py.dict_get scored_candidates param_id)) score))
         candidates acc)).
  { induction candidates as [|[pid s] candidates IH]; intros acc Hacc Hc;
      simpl; [done|].
    inversion Hc as [|? ? [Hs Hpid] Hrest]; subst.
    apply IH; [|done].
    apply Forall_forall. intros [k v] Hin.
    apply dict_set_elem_of in Hin as [[= -> ->]|Hin].
    - split; [|done]. simpl in *.
      assert (Hold : in_unit (default 0 (Py.dict_get acc pid))).
      { destruct (Py.dict_get acc pid) as [v|] eqn:E; simpl.
        - apply dict_get_elem_of in E.
          by destruct (proj1 (Forall_forall _ _) Hacc _ E).
        - unfold in_unit. lra. }
      unfold in_unit in *.
      destruct (max_spec (default 0 (Py.dict_get acc pid)) s)
        as [[_ ->]|[_ ->]]; done.
    - by apply (proj1 (Forall_forall _ _) Hacc). }
  intros Hc. by apply G.
Qed.

Lemma find_improvement_parameters_sound self text c :
  c ∈ _find_improvement_parameters self text -> sound_candidate self c.
Proof.
  apply Forall_forall. apply best_scores_sound, candidates_of_sound.
Qed.

Lemma find_worsening_parameters_sound self text c :
  c ∈ _find_worsening_parameters self text -> sound_candidate self c.
Proof.
  apply Forall_forall. apply best_scores_sound, candidates_of_sound.
Qed.

(** Facts on the loop that collects the contradictions. *)
Lemma collect_Forall {A B : Type} (P : B -> Prop) (f : A -> Py.result (list B))
    (l : list A) (zs : list B) :
  (forall x ys, x ∈ l -> f x = Py.Ok ys -> Forall P ys) ->
  Py.collect f l = Py.Ok zs -> Forall P zs.
Proof.
  revert zs. induction l as [|x l IH]; intros zs Hf; simpl.
  - by intros [= <-].
  - destruct (f x) as [ys|e] eqn:Ex; [|done].
    destruct (Py.collect f l) as [zs'|e]; [|done].
    intros [= <-]. apply Forall_app. split.
    + apply (Hf x); [left | done].
    + apply IH; [|done]. intros x' ys' Hin. apply Hf. by right.
Qed.

Lemma collect_returns {A B : Type} (f : A -> Py.result (list B)) (l : list A) :
  (forall x, x ∈ l -> exists ys, f x = Py.Ok ys) ->
  exists zs, Py.collect f l = Py.Ok zs.
Proof.
  induction l as [|x l IH]; intros Hf; simpl; [by eexists|].
  destruct (Hf x) as [ys ->]; [left|].
  destruct IH as [zs ->]; [|by eexists].
  intros x' Hin. apply Hf. by right.
Qed.

Lemma pair_up_confidence self imp wors cs :
  in_unit (snd imp) -> in_unit (snd wors) ->
  pair_up self imp wors = Py.Ok cs ->
  Forall (fun c => in_unit (confidence_score c)) cs.
Proof.
  destruct imp as [imp_id imp_score], wors as [wors_id wors_score].
  simpl. intros Hi Hw. unfold pair_up.
  destruct (negb _); [|by intros [= <-]].
  destruct (Py.next _ _) as [imp_param|e]; simpl; [|done].
  destruct (Py.next _ _) as [wors_param|e]; simpl; [|done].
  intros [= <-]. constructor; [|done]. simpl.
  by apply half_sum_bounds.
Qed.

(** The confidence of every contradiction that [identify_contradiction]
    returns lies in the unit interval. *)
Lemma identify_contradiction_confidence self problem_text r :
  identify_contradiction self problem_text = Py.Ok r ->
  Forall (fun c => in_unit (confidence_score c)) (contradictions r) /\
  (forall c, primary_contradiction r = Some c -> in_unit (confidence_score c)) /\
  Forall (fun c => in_unit (confidence_score c)) (alternative_contradictions r).
Proof.
  unfold identify_contradiction.
  destruct (Py.collect _ _) as [found|e] eqn:E; simpl; [|done].
  intros [= <-]. simpl.
  assert (Hfound : Forall (fun c => in_unit (confidence_score c)) found).
  { eapply collect_Forall; [|exact E].
    intros imp cs Himp Hcs.
    eapply collect_Forall; [|exact Hcs].
    intros wors cs' Hwors Hcs'.
    apply find_improvement_parameters_sound in Himp as [Hi _].
    apply find_worsening_parameters_sound in Hwors as [Hw _].
    exact (pair_up_confidence self imp wors cs' Hi Hw Hcs'). }
  assert (Hsorted : Forall (fun c => in_unit (confidence_score c))
                           (Py.sort_desc confidence_score found)).
  { by rewrite sort_desc_perm. }
  split; [done|]. split.
  - intros c Hc. destruct (Py.sort_desc confidence_score found) as [|c' l];
      [done|]. injection Hc as ->. by inversion Hsorted.
  - apply Forall_forall. intros c Hc.
    apply list_elem_of_In, filter_In in Hc as [Hc _].
    apply list_elem_of_In in Hc.
    apply (proj1 (Forall_forall (fun c => in_unit (confidence_score c)) _)
             Hsorted).
    destruct (Py.sort_desc confidence_score found); [done | by right].
Qed.

(** On an identifier built by [__init__] the keyword table only names
    parameters of the parameter table, so neither [next] can fail and
    [identify_contradiction] always returns. *)
Lemma build_parameter_keywords_keys params k :
  k ∈ map fst (_build_parameter_keywords params) ->
  exists p, p ∈ params /\ param_id p = k.
Proof.
  unfold _build_parameter_keywords.
  assert (G : forall acc,
    k ∈ map fst (fold_left (fun keywords param =>
           Py.dict_set keywords (param_id param) (param_key_terms param))
           params acc) ->
    k ∈ map fst acc \/ exists p, p ∈ params /\ param_id p = k).
  { induction params as [|p params IH]; intros acc; simpl; [by left|].
    intros H. apply IH in H as [H|(q & Hq & Hk)].
    - apply list_elem_of_fmap in H as ([k' v'] & -> & Hin).
      apply dict_set_elem_of in Hin as [[= -> ->]|Hin].
      + right. exists p. split; [left|done].
      + left. apply list_elem_of_fmap. by exists (k', v').
    - right. exists q. split; [by right|done]. }
  intros H. apply G in H as [H|H]; [by inversion H|done].
Qed.

Lemma next_parameter_defined (params : list TrizParameter) k :
  (exists p, p ∈ params /\ param_id p = k) ->
  exists q, Py.next (fun p => Z.eqb (param_id p) k) params = Py.Ok q.
Proof.
  intros (p & Hp & Hk). unfold Py.next.
  destruct (List.find _ params) as [q|] eqn:E; [by eexists|].
  apply list_elem_of_In in Hp.
  pose proof (find_none _ _ E p Hp) as H. simpl in H.
  apply Z.eqb_neq in H. done.
Qed.

Lemma identify_contradiction_returns parameters_yaml problem_text :
  exists r, identify_contradiction (__init__ parameters_yaml) problem_text
            = Py.Ok r.
Proof.
  unfold identify_contradiction.
  set (self := __init__ parameters_yaml).
  assert (Hnext : forall c, sound_candidate self c ->
    exists q, Py.next (fun p => Z.eqb (param_id p) (fst c)) (parameters self)
              = Py.Ok q).
  { intros c [_ Hc]. apply next_parameter_defined.
    by apply build_parameter_keywords_keys. }
  destruct (collect_returns
    (fun imp => Py.collect (fun wors => pair_up self imp wors)
                  (_find_worsening_parameters self (Py.lower problem_text)))
    (_find_improvement_parameters self (Py.lower problem_text))) as [found ->].
  - intros imp Himp. apply collect_returns. intros wors Hwors.
    apply find_improvement_parameters_sound in Himp as Hi.
    apply find_worsening_parameters_sound in Hwors as Hw.
    destruct (Hnext _ Hi) as [qi Ei]. destruct (Hnext _ Hw) as [qw Ew].
    destruct imp as [imp_id imp_score], wors as [wors_id wors_score].
    unfold pair_up. simpl in *. rewrite Ei, Ew. simpl.
    destruct (negb _); by eexists.
  - simpl. by eexists.
Qed.

(** The sample text yields speed against energy first. *)
Example identify_speed_against_energy :
  exists r,
    identify_contradiction samples.identifier samples.speed_text = Py.Ok r /\
    (exists c, primary_contradiction r = Some c /\
       improving_parameter c = 9%Z /\ worsening_parameter c = 19%Z /\
       confidence_score c == 1).
Proof.
  eexists. split; [by vm_compute|].
  eexists. split; [by vm_compute|]. by vm_compute.
Qed.

End identification.

(** ** Problem parsing *)

Section parsing.
Import problem_parser.

(** C8: parsing the empty text returns a result without technical system,
    desired improvement or undesired consequence, with no constraint, and
    with the context [{"domain": "general"}]. *)
Theorem parse_empty_text :
  parse __init__ "" =
    {| original_text := "";
       normalized_description := "";
       technical_system := None;
       desired_improvement := None;
       undesired_consequence := None;
       constraints := [];
       context := {[ "domain" := "general" ]} |}.
Proof. by vm_compute. Qed.

(** A text of white space normalizes to the empty text and parses alike. *)
Example parse_blank_text :
  let parsed := parse __init__ "  	 " in
  normalized_description parsed = "" /\
  technical_system parsed = None /\
  desired_improvement parsed = None /\
  undesired_consequence parsed = None /\
  constraints parsed = [] /\
  context parsed = {[ "domain" := "general" ]}.
Proof. by vm_compute. Qed.

(** The example of the module: a car, "faster", the automotive domain. *)
Example parse_car_text :
  let parsed :=
    parse __init__
      "We need to make a car faster, but increasing engine power makes it consume more fuel." in
  technical_system parsed = Some "car" /\
  desired_improvement parsed = Some "faster" /\
  undesired_consequence parsed
    = Some "increasing engine power makes it consume more fuel" /\
  constraints parsed = [] /\
  context parsed = {[ "domain" := "automotive" ]}.
Proof. by vm_compute. Qed.

Example parse_constraints :
  constraints (parse __init__
    "Improve quality without increasing time; it cannot fail and must not break")
  = ["increasing"; "break"; "fail"].
Proof. by vm_compute. Qed.

End parsing.

(** ** Score bounds *)

Section score_bounds.
Import spec.
Open Scope list_scope.
Open Scope Q_scope.

(** C5: wherever the pipeline produces one, a contradiction confidence, a
    principle relevance or an effect relevance lies in [0, 1], and an
    adaptation confidence lies in [0.1, 1.0]. *)
Theorem scores_within_bounds :
  (forall self problem_text r,
     contradiction_identifier.identify_contradiction self problem_text = Py.Ok r ->
     Forall (fun c => in_unit (contradiction_identifier.confidence_score c))
            (contradiction_identifier.contradictions r) /\
     (forall c, contradiction_identifier.primary_contradiction r = Some c ->
        in_unit (contradiction_identifier.confidence_score c)) /\
     Forall (fun c => in_unit (contradiction_identifier.confidence_score c))
            (contradiction_identifier.alternative_contradictions r)) /\
  (forall self principle_id improving_param worsening_param s,
     principle_selector._calculate_relevance_score self principle_id
       improving_param worsening_param = Py.Ok s ->
     in_unit s) /\
  (forall self improving_param worsening_param r,
     principle_selector.select_principles self improving_param worsening_param
       = Py.Ok r ->
     Forall (fun x => in_unit (principle_selector.relevance_score x))
            (principle_selector.recommendations r)) /\
  (forall self principle_ids domain_keywords recs,
     effects_lookup.find_effects_for_principles self principle_ids
       domain_keywords = Py.Ok recs ->
     Forall (fun x => in_unit (effects_lookup.relevance_score x)) recs) /\
  (forall self improving_param worsening_param domain_keywords,
     Forall (fun x => in_unit (effects_lookup.relevance_score x))
            (effects_lookup.find_effects_for_contradiction self improving_param
               worsening_param domain_keywords)) /\
  (forall concept context,
     0.1 <= adaptation_planner._calculate_adaptation_confidence concept context
         <= 1.0).
Proof.
  split; [apply identify_contradiction_confidence|].
  split.
  { intros self principle_id improving_param worsening_param s Hs.
    apply relevance_score_bounds in Hs. unfold in_unit. lra. }
  split.
  { intros self improving_param worsening_param r Hr.
    apply select_principles_returns in Hr as (ids & recs & Hrecs & -> & _).
    rewrite sort_desc_perm.
    eapply Forall_impl; [by eapply recommend_each_scores|].
    simpl. intros x Hx. unfold in_unit. lra. }
  split.
  { intros self principle_ids domain_keywords recs Hrecs.
    destruct (find_effects_for_principles_returns self principle_ids
                domain_keywords) as (recs' & E & H).
    rewrite E in Hrecs. by injection Hrecs as <-. }
  split; [apply find_effects_for_contradiction_scores|].
  apply adaptation_confidence_bounds.
Qed.

Lemma scores_within_bounds_witness :
  (exists r c,
     contradiction_identifier.identify_contradiction samples.identifier
       samples.speed_text = Py.Ok r /\
     contradiction_identifier.primary_contradiction r = Some c /\
     in_unit (contradiction_identifier.confidence_score c)) /\
  (exists s,
     principle_selector._calculate_relevance_score samples.selector 15 9 19
       = Py.Ok s /\ in_unit s) /\
  (exists r,
     principle_selector.select_principles samples.patched_selector 9 19
       = Py.Ok r /\
     length (principle_selector.recommendations r) = 4%nat /\
     Forall (fun x => in_unit (principle_selector.relevance_score x))
            (principle_selector.recommendations r)) /\
  (exists recs,
     effects_lookup.find_effects_for_principles samples.lookup
       [15%Z; 2%Z; 35%Z; 18%Z] (Some ["energy"%string]) = Py.Ok recs /\
     (0 < length recs)%nat /\
     Forall (fun x => in_unit (effects_lookup.relevance_score x)) recs).
Proof.
  destruct scores_within_bounds as (H1 & H2 & H3 & H4 & _ & _).
  split; [|split; [|split]].
  - destruct (contradiction_identifier.identify_contradiction samples.identifier
                samples.speed_text) as [r|e] eqn:E; [|by vm_compute in E].
    destruct (contradiction_identifier.primary_contradiction r) as [c|] eqn:Ec.
    + exists r, c. split; [done|]. split; [done|].
      by apply (H1 samples.identifier samples.speed_text r E).
    + exfalso. vm_compute in E. injection E as <-. by vm_compute in Ec.
  - destruct (principle_selector._calculate_relevance_score samples.selector
                15 9 19) as [s|e] eqn:E; [|by vm_compute in E].
    exists s. split; [done|]. by apply (H2 samples.selector 15%Z 9%Z 19%Z).
  - destruct (principle_selector.select_principles samples.patched_selector
                9 19) as [r|e] eqn:E; [|by vm_compute in E].
    exists r. split; [done|]. split.
    + vm_compute in E. by injection E as <-.
    + by apply (H3 samples.patched_selector 9%Z 19%Z).
  - destruct (effects_lookup.find_effects_for_principles samples.lookup
                [15%Z; 2%Z; 35%Z; 18%Z] (Some ["energy"%string]))
      as [recs|e] eqn:E; [|by vm_compute in E].
    exists recs. split; [done|]. split.
    + vm_compute in E. injection E as <-. simpl. lia.
    + by apply (H4 samples.lookup [15%Z; 2%Z; 35%Z; 18%Z]
                  (Some ["energy"%string])).
Defined.

End score_bounds.

(** * Further properties of the pipeline *)

(** ** The edit distance of [_levenshtein_distance] *)

Section edit_distance.
Import spec contradiction_identifier.
Open Scope nat_scope.

Lemma substitution_cost_le_1 s t i j : substitution_cost s t i j <= 1.
Proof.
  unfold substitution_cost.
  destruct (String.get i s), (String.get j t); try lia.
  destruct (Ascii.eqb _ _); lia.
Qed.

Lemma prefix_distance_lower s t i j :
  i - j <= prefix_distance s t i j /\ j - i <= prefix_distance s t i j.
Proof.
  revert j. induction i as [|i IHi]; intros j.
  - rewrite prefix_distance_0_l. lia.
  - induction j as [|j IHj].
    + rewrite prefix_distance_0_r. lia.
    + rewrite prefix_distance_step.
      pose proof (IHi (S j)). pose proof (IHi j). lia.
Qed.

Lemma prefix_distance_upper s t i j :
  prefix_distance s t i j <= Nat.max i j.
Proof.
  revert j. induction i as [|i IHi]; intros j.
  - rewrite prefix_distance_0_l. lia.
  - induction j as [|j IHj].
    + rewrite prefix_distance_0_r. lia.
    + rewrite prefix_distance_step.
      pose proof (IHi j). pose proof (substitution_cost_le_1 s t i j). lia.
Qed.

Lemma get_defined (s : string) (i : nat) :
  i < String.length s -> exists c, String.get i s = Some c.
Proof.
  revert i. induction s as [|c s IH]; intros i Hi; simpl in Hi; [lia|].
  destruct i as [|i]; [by exists c|]. apply IH. lia.
Qed.

Lemma substitution_cost_same s i :
  i < String.length s -> substitution_cost s s i i = 0.
Proof.
  intros Hi. unfold substitution_cost.
  destruct (get_defined s i Hi) as [c ->]. by rewrite Ascii.eqb_refl.
Qed.

Lemma prefix_distance_same s i :
  i <= String.length s -> prefix_distance s s i i = 0.
Proof.
  induction i as [|i IH]; intros Hi; [done|].
  rewrite prefix_distance_step, IH, substitution_cost_same by lia. lia.
Qed.

Lemma substitution_cost_0 s t i j :
  substitution_cost s t i j = 0 ->
  exists c, String.get i s = Some c /\ String.get j t = Some c.
Proof.
  unfold substitution_cost.
  destruct (String.get i s) as [a|], (String.get j t) as [b|]; try done.
  destruct (Ascii.eqb_spec a b) as [->|]; [|done]. by exists b.
Qed.

Lemma prefix_distance_0 s t i :
  prefix_distance s t i i = 0 ->
  forall k, k < i -> String.get k s = String.get k t.
Proof.
  induction i as [|i IH]; intros H0 k Hk; [lia|].
  rewrite prefix_distance_step in H0.
  pose proof (prefix_distance_lower s t i (S i)).
  pose proof (prefix_distance_lower s t (S i) i).
  assert (Hd : prefix_distance s t i i = 0) by lia.
  assert (Hc : substitution_cost s t i i = 0) by lia.
  destruct (Nat.eq_dec k i) as [->|Hne].
  - apply substitution_cost_0 in Hc as (c & -> & ->). done.
  - apply IH; [done | lia].
Qed.

Lemma string_ext (s t : string) :
  String.length s = String.length t ->
  (forall k, k < String.length s -> String.get k s = String.get k t) ->
  s = t.
Proof.
  revert t. induction s as [|a s IH]; intros [|b t] Hlen Hget; try done.
  simpl in Hlen. f_equal.
  - specialize (Hget 0). simpl in Hget.
    assert (Some a = Some b) as [= ->] by (apply Hget; lia). done.
  - apply IH; [lia|]. intros k Hk.
    apply (Hget (S k)). simpl. lia.
Qed.

Lemma levenshtein_0 s t : levenshtein s t = 0 <-> s = t.
Proof.
  unfold levenshtein. split.
  - intros H0.
    pose proof (prefix_distance_lower s t (String.length s) (String.length t)).
    assert (Hlen : String.length s = String.length t) by lia.
    apply string_ext; [done|].
    apply prefix_distance_0. by rewrite Hlen in H0 |- *.
  - intros <-. by apply prefix_distance_same.
Qed.

(** X1: [_levenshtein_distance] computes the edit distance of its two
    arguments as the recurrence of Wagner and Fischer defines it, with
    unit costs for insertion, deletion and substitution; the exchange of
    the arguments when the first is shorter does not change the value. *)
Theorem levenshtein_distance_is_edit_distance s1 s2 :
  _levenshtein_distance s1 s2 = levenshtein s1 s2.
Proof. apply levenshtein_distance_spec. Qed.

(** X2: [_levenshtein_distance] is symmetric, is 0 exactly on equal texts,
    is at least the difference of the two lengths and at most the greater
    length. *)
Theorem levenshtein_distance_metric s1 s2 :
  _levenshtein_distance s1 s2 = _levenshtein_distance s2 s1 /\
  (_levenshtein_distance s1 s2 = 0 <-> s1 = s2) /\
  String.length s1 - String.length s2 <= _levenshtein_distance s1 s2 /\
  String.length s2 - String.length s1 <= _levenshtein_distance s1 s2 /\
  _levenshtein_distance s1 s2
    <= Nat.max (String.length s1) (String.length s2).
Proof.
  rewrite !levenshtein_distance_spec. unfold levenshtein at 1 2.
  split; [apply prefix_distance_sym|].
  split; [apply levenshtein_0|].
  unfold levenshtein.
  pose proof (prefix_distance_lower s1 s2 (String.length s1) (String.length s2)).
  pose proof (prefix_distance_upper s1 s2 (String.length s1) (String.length s2)).
  lia.
Qed.

End edit_distance.

(** ** The contradictions of [identify_contradiction] *)

Section contradictions.
Import knowledge spec contradiction_identifier.
Open Scope list_scope.
Open Scope Q_scope.

Lemma collect_elem_of {A B : Type} (f : A -> Py.result (list B))
    (l : list A) (zs : list B) (z : B) :
  Py.collect f l = Py.Ok zs ->
  z ∈ zs <-> exists x ys, x ∈ l /\ f x = Py.Ok ys /\ z ∈ ys.
Proof.
  revert zs. induction l as [|x l IH]; intros zs; simpl.
  - intros [= <-]. split; [by intros H; inversion H|].
    intros (x & ys & Hx & _). by inversion Hx.
  - destruct (f x) as [ys|e] eqn:Ex; [|done].
    destruct (Py.collect f l) as [zs'|e]; [|done].
    intros [= <-]. rewrite elem_of_app, (IH zs' eq_refl). split.
    + intros [Hz|(x' & ys' & Hx' & Hf & Hz)].
      * exists x, ys. split; [left | done].
      * exists x', ys'. split; [by right | done].
    + intros (x' & ys' & Hx' & Hf & Hz). inversion Hx'; subst.
      * left. rewrite Ex in Hf. by injection Hf as ->.
      * right. by exists x', ys'.
Qed.

(** A score that [_match_keyword_to_parameters] reports is at least 0.5,
    and so is every best score of a pool. *)
Lemma match_keyword_to_parameters_strong self keyword pid s :
  (pid, s) ∈ _match_keyword_to_parameters self keyword -> 0.5 <= s.
Proof.
  intros (keywords & _ & -> & Hs)%match_keyword_to_parameters_spec.
  destruct (keyword_score_values (Py.lower keyword) keywords)
    as [E | [E | [E | E]]]; rewrite E in Hs |- *; lra.
Qed.

Lemma candidates_of_strong self patterns text pid s :
  (pid, s) ∈ candidates_of self patterns text -> 0.5 <= s.
Proof.
  unfold candidates_of. intros Hin.
  apply list_elem_of_In, in_flat_map in Hin as (pattern & _ & Hin).
  apply in_flat_map in Hin as (m & _ & Hin).
  apply list_elem_of_In in Hin.
  by eapply match_keyword_to_parameters_strong.
Qed.

Lemma best_scores_strong candidates :
  (forall pid s, (pid, s) ∈ candidates -> 0.5 <= s) ->
  forall pid s, (pid, s) ∈ best_scores candidates -> 0.5 <= s.
Proof.
  unfold best_scores.
  assert (G : forall acc : list (Z * Q),
    (forall pid s, (pid, s) ∈ acc -> 0.5 <= s) ->
    (forall pid s, (pid, s) ∈ candidates -> 0.5 <= s) ->
    forall pid s,
      (pid, s) ∈ fold_left (fun scored_candidates '(param_id, score) =>
         Py.dict_set scored_candidates param_id
           (Py.max (default 0 (Py.dict_get scored_candidates param_id)) score))
         candidates acc -> 0.5 <= s).
  { induction candidates as [|[pid0 s0] candidates IH]; intros acc Hacc Hc;
      simpl; [done|].
    apply IH.
    - intros pid s Hin.
      apply dict_set_elem_of in Hin as [[= -> ->]|Hin]; [|by eapply Hacc].
      assert (0.5 <= s0) by (eapply Hc; left).
      destruct (max_spec (default 0 (Py.dict_get acc pid0)) s0)
        as [[_ ->]|[? ->]]; lra.
    - intros pid s Hin. eapply Hc. by right. }
  intros Hc. apply G; [|done]. intros pid s H. by inversion H.
Qed.

Lemma find_improvement_parameters_strong self text pid s :
  (pid, s) ∈ _find_improvement_parameters self text -> 0.5 <= s <= 1.
Proof.
  intros Hin. split.
  - eapply best_scores_strong; [|exact Hin].
    intros pid' s'. apply candidates_of_strong.
  - by destruct (find_improvement_parameters_sound self text _ Hin) as [[_ ?] _].
Qed.

Lemma find_worsening_parameters_strong self text pid s :
  (pid, s) ∈ _find_worsening_parameters self text -> 0.5 <= s <= 1.
Proof.
  intros Hin. split.
  - eapply best_scores_strong; [|exact Hin].
    intros pid' s'. apply candidates_of_strong.
  - by destruct (find_worsening_parameters_sound self text _ Hin) as [[_ ?] _].
Qed.

(** Where a contradiction of the result comes from. *)
Lemma pair_up_elem_of self imp wors cs c :
  pair_up self imp wors = Py.Ok cs -> c ∈ cs ->
  fst imp <> fst wors /\
  improving_parameter c = fst imp /\
  worsening_parameter c = fst wors /\
  confidence_score c = (snd imp + snd wors) / 2 /\
  (exists p, p ∈ parameters self /\ param_id p = fst imp /\
             param_name p = improving_parameter_name c) /\
  (exists p, p ∈ parameters self /\ param_id p = fst wors /\
             param_name p = worsening_parameter_name c).
Proof.
  destruct imp as [imp_id imp_score], wors as [wors_id wors_score].
  unfold pair_up.
  destruct (Z.eqb_spec imp_id wors_id) as [E|E]; simpl.
  { intros [= <-] H. by inversion H. }
  unfold Py.next.
  destruct (List.find (fun p => Z.eqb (param_id p) imp_id) (parameters self))
    as [pi|] eqn:Ei; simpl; [|done].
  destruct (List.find (fun p => Z.eqb (param_id p) wors_id) (parameters self))
    as [pw|] eqn:Ew; simpl; [|done].
  intros [= <-] H. inversion H as [|? ? ? H']; subst; [|by inversion H'].
  simpl. apply find_some in Ei as [Hi1 Hi2], Ew as [Hw1 Hw2].
  apply Z.eqb_eq in Hi2, Hw2.
  do 4 (split; [done|]). split.
  - exists pi. by rewrite list_elem_of_In.
  - exists pw. by rewrite list_elem_of_In.
Qed.

Lemma identify_contradiction_elem_of self problem_text r c :
  identify_contradiction self problem_text = Py.Ok r ->
  c ∈ contradictions r ->
  exists imp wors,
    imp ∈ _find_improvement_parameters self (Py.lower problem_text) /\
    wors ∈ _find_worsening_parameters self (Py.lower problem_text) /\
    fst imp <> fst wors /\
    improving_parameter c = fst imp /\
    worsening_parameter c = fst wors /\
    confidence_score c = (snd imp + snd wors) / 2 /\
    (exists p, p ∈ parameters self /\ param_id p = fst imp /\
               param_name p = improving_parameter_name c) /\
    (exists p, p ∈ parameters self /\ param_id p = fst wors /\
               param_name p = worsening_parameter_name c).
Proof.
  unfold identify_contradiction.
  destruct (Py.collect _ _) as [found|e] eqn:E; simpl; [|done].
  intros [= <-]. simpl. rewrite sort_desc_elem_of.
  rewrite (collect_elem_of _ _ _ c E).
  intros (imp & cs & Himp & Hcs & Hc).
  rewrite (collect_elem_of _ _ _ c Hcs) in Hc.
  destruct Hc as (wors & cs' & Hwors & Hcs' & Hc).
  exists imp, wors. split; [done|]. split; [done|].
  by eapply pair_up_elem_of.
Qed.

(** X3: every contradiction that [identify_contradiction] returns relates
    two different parameters, both present in the parameter table under the
    reported names, and its confidence is the mean of an improvement score
    and a worsening score, hence at least 0.5. *)
Theorem contradictions_are_proper self problem_text r c :
  identify_contradiction self problem_text = Py.Ok r ->
  c ∈ contradictions r ->
  improving_parameter c <> worsening_parameter c /\
  (exists p, p ∈ parameters self /\ param_id p = improving_parameter c /\
             param_name p = improving_parameter_name c) /\
  (exists p, p ∈ parameters self /\ param_id p = worsening_parameter c /\
             param_name p = worsening_parameter_name c) /\
  0.5 <= confidence_score c <= 1.
Proof.
  intros Hr Hc.
  destruct (identify_contradiction_elem_of self problem_text r c Hr Hc)
    as ([ii si] & [wi sw] & Hi & Hw & Hne & -> & -> & -> & Hpi & Hpw).
  simpl in *. do 3 (split; [done|]).
  apply find_improvement_parameters_strong in Hi.
  apply find_worsening_parameters_strong in Hw.
  unfold Qdiv. change (/ 2) with (1 # 2). lra.
Qed.

Lemma contradictions_are_proper_witness :
  exists r c,
    identify_contradiction samples.identifier samples.speed_text = Py.Ok r /\
    primary_contradiction r = Some c /\
    improving_parameter c <> worsening_parameter c /\
    0.5 <= confidence_score c <= 1.
Proof.
  destruct (identify_contradiction samples.identifier samples.speed_text)
    as [r|e] eqn:E; [|by vm_compute in E].
  destruct (primary_contradiction r) as [c|] eqn:Ec.
  - exists r, c. split; [done|]. split; [done|].
    assert (Hc : c ∈ contradictions r).
    { vm_compute in E. injection E as <-. vm_compute in Ec.
      injection Ec as <-. left. }
    destruct (contradictions_are_proper samples.identifier samples.speed_text
                r c E Hc) as (H1 & _ & _ & H2).
    by split.
  - exfalso. vm_compute in E. injection E as <-. by vm_compute in Ec.
Defined.

(** X4: the contradictions come sorted by descending confidence, the
    primary contradiction is the first of them, and the alternatives are
    all the others: the filter [confidence_score > 0.3] never removes one. *)
Theorem contradictions_ranking self problem_text r :
  identify_contradiction self problem_text = Py.Ok r ->
  descending confidence_score (contradictions r) /\
  primary_contradiction r = head (contradictions r) /\
  alternative_contradictions r = tail (contradictions r) /\
  (forall p c, primary_contradiction r = Some p -> c ∈ contradictions r ->
     confidence_score c <= confidence_score p).
Proof.
  intros Hr.
  assert (Hall : forall c, c ∈ contradictions r -> 0.3 < confidence_score c).
  { intros c Hc.
    destruct (identify_contradiction_elem_of self problem_text r c Hr Hc)
      as ([ii si] & [wi sw] & Hi & Hw & _ & _ & _ & -> & _).
    apply find_improvement_parameters_strong in Hi.
    apply find_worsening_parameters_strong in Hw. simpl.
    unfold Qdiv. change (/ 2) with (1 # 2). lra. }
  revert Hr Hall. unfold identify_contradiction.
  destruct (Py.collect _ _) as [found|e]; simpl; [|done].
  intros [= <-]. simpl. intros Hall.
  pose proof (sort_desc_descending confidence_score found) as Hsorted.
  split; [done|]. split; [done|]. split.
  - destruct (Py.sort_desc confidence_score found) as [|c0 l]; [done|].
    simpl in *. apply forallb_filter_id, forallb_forall.
    intros c Hc. apply Qgtb_lt, Hall. right. by apply list_elem_of_In.
  - intros p c Hp Hc.
    destruct (Py.sort_desc confidence_score found) as [|c0 l]; [done|].
    simpl in Hp. injection Hp as ->. inversion Hsorted as [|? ? Hle _]; subst.
    inversion Hc; subst; [lra|].
    by apply (proj1 (Forall_forall _ _) Hle).
Qed.

Lemma contradictions_ranking_witness :
  exists r,
    identify_contradiction samples.identifier samples.speed_text = Py.Ok r /\
    (1 < length (contradictions r))%nat /\
    alternative_contradictions r = tail (contradictions r).
Proof.
  destruct (identify_contradiction samples.identifier samples.speed_text)
    as [r|e] eqn:E; [|by vm_compute in E].
  exists r. split; [done|]. split.
  - vm_compute in E. injection E as <-. simpl. lia.
  - by destruct (contradictions_ranking samples.identifier samples.speed_text
                   r E) as (_ & _ & H & _).
Defined.

(** X5: on an identifier built by [__init__], [identify_contradiction]
    returns for every text: the lookups of the two parameter records by
    [next] cannot raise [StopIteration], because every candidate id comes
    from the parameter table. *)
Theorem identify_contradiction_never_raises parameters_yaml problem_text :
  exists r, identify_contradiction (__init__ parameters_yaml) problem_text
            = Py.Ok r.
Proof. apply identify_contradiction_returns. Qed.

End contradictions.

(** ** Candidate pools and the keyword table *)

Section pools.
Import knowledge spec contradiction_identifier.
Open Scope list_scope.
Open Scope Q_scope.

Lemma dict_set_keys_iff {V : Type} (d : list (Z * V)) (k k' : Z) (v : V) :
  k' ∈ map fst (Py.dict_set d k v) <-> k' = k \/ k' ∈ map fst d.
Proof.
  induction d as [|[k0 v0] d IH]; simpl.
  - rewrite elem_of_cons, elem_of_nil. tauto.
  - destruct (Z.eqb_spec k k0) as [->|Hne]; simpl.
    + rewrite !elem_of_cons. tauto.
    + rewrite !elem_of_cons, IH. tauto.
Qed.

Lemma dict_set_NoDup {V : Type} (d : list (Z * V)) (k : Z) (v : V) :
  NoDup (map fst d) -> NoDup (map fst (Py.dict_set d k v)).
Proof.
  induction d as [|[k0 v0] d IH]; simpl; intros Hd.
  - apply NoDup_singleton.
  - inversion Hd as [|? ? Hnot Hrest]; subst.
    destruct (Z.eqb_spec k k0) as [->|Hne]; simpl.
    + by constructor.
    + constructor; [|by apply IH].
      rewrite dict_set_keys_iff. intros [?|?]; [congruence | done].
Qed.

Lemma dict_set_self {V : Type} (d : list (Z * V)) (k : Z) (v : V) :
  (k, v) ∈ Py.dict_set d k v.
Proof.
  induction d as [|[k0 v0] d IH]; simpl; [left|].
  destruct (Z.eqb k k0); [left | by right].
Qed.

Lemma dict_set_other {V : Type} (d : list (Z * V)) (k k' : Z) (v v' : V) :
  k' <> k -> (k', v') ∈ d -> (k', v') ∈ Py.dict_set d k v.
Proof.
  intros Hne. induction d as [|[k0 v0] d IH]; simpl;
    [by intros H; inversion H|].
  intros Hin. destruct (Z.eqb_spec k k0) as [->|Hne0].
  - inversion Hin; subst; [congruence | by right].
  - inversion Hin; subst; [left | right; by apply IH].
Qed.

Lemma dict_get_unique {V : Type} (d : list (Z * V)) (k : Z) (v : V) :
  NoDup (map fst d) -> (k, v) ∈ d -> Py.dict_get d k = Some v.
Proof.
  induction d as [|[k0 v0] d IH]; simpl; intros Hd Hin; [by inversion Hin|].
  inversion Hd as [|? ? Hnot Hrest]; subst.
  destruct (Z.eqb_spec k k0) as [->|Hne].
  - inversion Hin; subst; [done|]. exfalso. apply Hnot.
    apply list_elem_of_fmap. by exists (k0, v).
  - inversion Hin; subst; [congruence | by apply IH].
Qed.

(** The loop that keeps the best score of each parameter. *)
Lemma best_scores_loop (candidates acc : list (Z * Q)) :
  NoDup (map fst acc) ->
  let scored :=
    fold_left (fun scored_candidates '(param_id, score) =>
       Py.dict_set scored_candidates param_id
         (Py.max (default 0 (Py.dict_get scored_candidates param_id)) score))
       candidates acc in
  NoDup (map fst scored) /\
  (forall pid s, (pid, s) ∈ candidates \/ (pid, s) ∈ acc ->
     exists s', (pid, s') ∈ scored /\ s <= s') /\
  (forall pid s', (pid, s') ∈ scored ->
     s' = 0 \/ (pid, s') ∈ candidates \/ (pid, s') ∈ acc).
Proof.
  revert acc. induction candidates as [|[pid0 s0] candidates IH];
    intros acc Hacc; simpl.
  - split; [done|]. split.
    + intros pid s [H|H]; [by inversion H|]. exists s. split; [done | lra].
    + intros pid s' H. by right; right.
  - set (best := Py.max (default 0 (Py.dict_get acc pid0)) s0).
    destruct (IH (Py.dict_set acc pid0 best) (dict_set_NoDup _ _ _ Hacc))
      as (Hnodup & Hmax & Hfrom).
    split; [done|]. split.
    + intros pid s Hin.
      assert (Hstep : exists s1, (pid, s1) ∈ Py.dict_set acc pid0 best /\ s <= s1
                      \/ (pid, s) ∈ candidates).
      { destruct Hin as [Hin|Hin].
        - inversion Hin; subst; [|by exists s; right].
          exists best. left. split; [apply dict_set_self|].
          unfold best.
          match goal with
          | |- _ <= Py.max ?a ?b =>
              destruct (max_spec a b) as [[_ ->]|[? ->]]; lra
          end.
        - destruct (Z.eq_dec pid pid0) as [->|Hne].
          + exists best. left. split; [apply dict_set_self|].
            unfold best. rewrite (dict_get_unique acc pid0 s Hacc Hin). simpl.
            destruct (max_spec s s0) as [[? ->]|[_ ->]]; lra.
          + exists s. left. split; [by apply dict_set_other | lra]. }
      destruct Hstep as (s1 & [[Hin1 Hle]|Hin1]).
      * destruct (Hmax pid s1 (or_intror Hin1)) as (s' & Hs' & Hle').
        exists s'. split; [done | lra].
      * by apply Hmax; left.
    + intros pid s' Hin.
      destruct (Hfrom pid s' Hin) as [?|[?|Hset]]; [by left | |].
      * right; left. by right.
      * apply dict_set_elem_of in Hset as [[= -> ->]|?]; [|by right; right].
        unfold best. unfold Py.max.
        destruct (Py.Qgtb s0 _); [right; left; left|].
        destruct (Py.dict_get acc pid0) as [v|] eqn:E; simpl; [|by left].
        right; right. by apply dict_get_elem_of.
Qed.

(** X6: the pool that [_find_improvement_parameters] and
    [_find_worsening_parameters] build from the candidates lists every
    parameter id once, with a score at least as high as every candidate
    score of that parameter, and that score is the score of one of its
    candidates (or 0 when no candidate score is positive). *)
Theorem best_scores_dedup candidates :
  NoDup (map fst (best_scores candidates)) /\
  (forall pid s, (pid, s) ∈ candidates ->
     exists s', (pid, s') ∈ best_scores candidates /\ s <= s') /\
  (forall pid s', (pid, s') ∈ best_scores candidates ->
     s' = 0 \/ (pid, s') ∈ candidates).
Proof.
  destruct (best_scores_loop candidates []) as (H1 & H2 & H3);
    [constructor|].
  split; [exact H1|]. split.
  - intros pid s Hin. apply H2. by left.
  - intros pid s' Hin. destruct (H3 pid s' Hin) as [?|[?|Hnil]];
      [by left | by right | by inversion Hnil].
Qed.

Lemma best_scores_dedup_witness :
  best_scores [(9%Z, 0.5); (19%Z, 0.7); (9%Z, 1.0); (19%Z, 0.5)]
    = [(9%Z, 1.0); (19%Z, 0.7)] /\
  exists s', (9%Z, s') ∈ best_scores [(9%Z, 0.5); (19%Z, 0.7); (9%Z, 1.0);
                                      (19%Z, 0.5)] /\ 0.5 <= s'.
Proof.
  split; [reflexivity|].
  destruct (best_scores_dedup [(9%Z, 0.5); (19%Z, 0.7); (9%Z, 1.0);
                               (19%Z, 0.5)]) as (_ & H & _).
  apply H. left.
Defined.












End pools.

(** ** Recommendations of effects *)

Section effect_recommendations.
Import spec effects_lookup.
Open Scope list_scope.
Open Scope Q_scope.

Lemma match_each_elem_of ids domain_keywords items recs rec :
  match_each ids domain_keywords items = Py.Ok recs -> rec ∈ recs ->
  (exists k, (k, effect rec) ∈ items) /\
  0.2 < relevance_score rec /\
  combination_principles rec =
    elements (list_to_set ids ∩ list_to_set (related_principles (effect rec))
              : gset Z) /\
  (list_to_set ids ∩ list_to_set (related_principles (effect rec)) : gset Z)
    <> ∅.
Proof.
  revert recs. induction items as [|[k eff] items IH]; intros recs; simpl.
  - intros [= <-] H. by inversion H.
  - assert (Hrest : forall recs',
      match_each ids domain_keywords items = Py.Ok recs' -> rec ∈ recs' ->
      (exists k0, (k0, effect rec) ∈ (k, eff) :: items) /\
      0.2 < relevance_score rec /\
      combination_principles rec =
        elements (list_to_set ids
                  ∩ list_to_set (related_principles (effect rec)) : gset Z) /\
      (list_to_set ids ∩ list_to_set (related_principles (effect rec)) : gset Z)
        <> ∅).
    { intros recs' E Hin.
      destruct (IH recs' E Hin) as ((k0 & Hk0) & H).
      split; [|done]. exists k0. by right. }
    case_decide as Hcommon; [apply Hrest|].
    destruct (Py.truediv _ _) as [s|e]; simpl; [|done].
    destruct (Py.Qgtb _ 0.2) eqn:Es; [|apply Hrest].
    destruct (match_each ids domain_keywords items) as [others|e] eqn:E;
      simpl; [|done].
    intros [= <-] Hin. inversion Hin; subst; [|by apply (Hrest others)].
    simpl. split; [exists k; left|]. split; [by apply Qgtb_lt | done].
Qed.

(** X8: [find_effects_for_principles] returns for every input, also for an
    empty id list or an empty database.  Its recommendations come sorted by
    descending relevance; each one names an effect of the database, has a
    relevance above 0.2 and at most 1, and lists as combination principles,
    without repetition, exactly the ids that the request and the effect
    share, of which there is at least one. *)
Theorem find_effects_for_principles_sound self principle_ids domain_keywords :
  exists recs,
    find_effects_for_principles self principle_ids domain_keywords = Py.Ok recs /\
    descending relevance_score recs /\
    forall rec, rec ∈ recs ->
      (exists k, (k, effect rec) ∈ effects_database self) /\
      0.2 < relevance_score rec <= 1 /\
      combination_principles rec <> [] /\
      NoDup (combination_principles rec) /\
      forall p, p ∈ combination_principles rec <->
                p ∈ principle_ids /\ p ∈ related_principles (effect rec).
Proof.
  unfold find_effects_for_principles.
  destruct (match_each_returns principle_ids domain_keywords
              (effects_database self)) as (recs & E & Hunit).
  rewrite E. simpl. eexists. split; [done|].
  split; [apply sort_desc_descending|].
  intros rec Hrec. apply sort_desc_elem_of in Hrec.
  destruct (match_each_elem_of _ _ _ _ _ E Hrec) as (Hk & Hs & Hc & Hne).
  split; [done|]. split.
  - split; [done|].
    by destruct (proj1 (Forall_forall _ _) Hunit rec Hrec).
  - rewrite Hc. split.
    + intros Hnil. apply Hne. by apply elements_empty_inv in Hnil as ->%leibniz_equiv.
    + split; [apply NoDup_elements|].
      intros p. rewrite elem_of_elements, elem_of_intersection,
        !elem_of_list_to_set. done.
Qed.

Lemma param_to_effects_unknown (param : Z) :
  param ∉ [9%Z; 14%Z; 17%Z; 19%Z; 21%Z] -> param_to_effects !! param = None.
Proof.
  intros H. unfold param_to_effects. by apply not_elem_of_list_to_map_1.
Qed.


(** X10: for two parameters outside the table of five (9, 14, 17, 19, 21)
    and without domain keywords, [find_effects_for_contradiction] has no
    candidate and returns the empty list, whatever the database. *)
Theorem find_effects_for_unlisted_parameters self improving_param
    worsening_param domain_keywords :
  improving_param ∉ [9%Z; 14%Z; 17%Z; 19%Z; 21%Z] ->
  worsening_param ∉ [9%Z; 14%Z; 17%Z; 19%Z; 21%Z] ->
  domain_keywords = None \/ domain_keywords = Some [] ->
  find_effects_for_contradiction self improving_param worsening_param
    domain_keywords = [].
Proof.
  intros Hi Hw Hk. unfold find_effects_for_contradiction, relevant_effect_ids.
  simpl. rewrite (param_to_effects_unknown _ Hi), (param_to_effects_unknown _ Hw).
  assert (given domain_keywords = None) as -> by (by destruct Hk as [->| ->]).
  by rewrite elements_empty.
Qed.

Lemma find_effects_for_unlisted_parameters_witness :
  find_effects_for_contradiction samples.lookup 36 27 None = [].
Proof.
  apply find_effects_for_unlisted_parameters.
  - apply (proj1 (bool_decide_eq_true _)). by vm_compute.
  - apply (proj1 (bool_decide_eq_true _)). by vm_compute.
  - by left.
Defined.

(** The two loops over the domain keywords. *)
Lemma hits_fold (hit : string -> bool) (delta : Q) (kws : list string) (init : Q) :
  0 < delta ->
  init <= fold_left (fun score kw => if hit kw then score + delta else score)
            kws init /\
  (init < fold_left (fun score kw => if hit kw then score + delta else score)
            kws init <-> existsb hit kws = true).
Proof.
  intros Hd. revert init. induction kws as [|kw kws IH]; intros init; simpl.
  - split; [lra|]. split; [lra | done].
  - destruct (hit kw); simpl.
    + destruct (IH (init + delta)) as [H1 _]. split; [lra|].
      split; [done | intros _; lra].
    + apply IH.
Qed.

Lemma hits_fold2 (hit : string -> string -> bool) (delta : Q)
    (xs kws : list string) (init : Q) :
  0 < delta ->
  init <= fold_left (fun score x =>
            fold_left (fun score kw => if hit kw x then score + delta else score)
              kws score) xs init /\
  (init < fold_left (fun score x =>
            fold_left (fun score kw => if hit kw x then score + delta else score)
              kws score) xs init
   <-> existsb (fun x => existsb (fun kw => hit kw x) kws) xs = true).
Proof.
  intros Hd. revert init. induction xs as [|x xs IH]; intros init; simpl.
  - split; [lra|]. split; [lra | done].
  - destruct (hits_fold (fun kw => hit kw x) delta kws init Hd) as [H1 H2].
    set (mid := fold_left _ kws init) in *.
    destruct (IH mid) as [H3 H4]. split; [lra|].
    rewrite orb_true_iff, <- H2, <- H4. split; [|lra].
    intros H. destruct (Qlt_le_dec init mid); [by left | right; lra].
Qed.

(** X11: the two domain tests agree: [_matches_domain_keywords] accepts an
    effect exactly when [_calculate_domain_match] gives it a positive
    score. *)
Theorem domain_match_positive_iff_matches eff domain_keywords :
  0 < _calculate_domain_match eff domain_keywords <->
  _matches_domain_keywords eff domain_keywords = true.
Proof.
  unfold _calculate_domain_match, _matches_domain_keywords.
  set (kws := map Py.lower domain_keywords).
  destruct (hits_fold2 (fun kw app => Py.contains kw (Py.lower app)) 0.3
              (applications eff) kws 0.0 ltac:(lra)) as [A1 A2].
  set (apps := fold_left _ (applications eff) 0.0) in *.
  destruct (hits_fold2 (fun kw d => Py.contains kw (Py.lower d)) 0.2
              (technical_domains eff) kws apps ltac:(lra)) as [D1 D2].
  set (total := fold_left _ (technical_domains eff) apps) in *.
  assert (Hmin : 0 < Py.min total 1.0 <-> 0 < total).
  { destruct (min_spec total 1.0) as [[? ->]|[? ->]]; split; lra. }
  assert (Hb : forall a d : bool,
    (if a then true else if d then true else false) = true
    <-> a = true \/ d = true).
  { clear. intros [] []; split; auto. by intros [|]. }
  rewrite Hmin, Hb, <- A2, <- D2. split; [|lra].
  intros Ht. destruct (Qlt_le_dec 0.0 apps); [by left | right; lra].
Qed.

Lemma lower_char_idempotent c :
  Py.lower_char (Py.lower_char c) = Py.lower_char c.
Proof. by destruct c as [[] [] [] [] [] [] [] []]. Qed.

Lemma lower_idempotent s : Py.lower (Py.lower s) = Py.lower s.
Proof.
  induction s as [|c s IH]; [done|].
  simpl. by rewrite lower_char_idempotent, IH.
Qed.

Lemma contains_empty s : Py.contains "" s = true.
Proof. by destruct s. Qed.

(** X12: [search_effects] ignores the case of the query, returns the
    whole catalog for the empty query, and returns its hits in the order
    of the database, each of them an effect of the database. *)
Theorem search_effects_query self query :
  search_effects self (Py.lower query) = search_effects self query /\
  search_effects self "" = list_all_effects self /\
  sublist (search_effects self query) (list_all_effects self).
Proof.
  unfold search_effects, list_all_effects. split; [|split].
  - by rewrite lower_idempotent.
  - simpl. apply forallb_filter_id, forallb_forall. intros eff _.
    by rewrite contains_empty.
  - generalize (map snd (effects_database self)). intros l.
    induction l as [|eff l IH]; simpl; [constructor|].
    destruct (_ || _ || _)%bool; by constructor.
Qed.

Example search_effects_thermal :
  map id (search_effects samples.lookup "THERMAL")
    = ["thermal_expansion"; "aerogel"].
Proof. by vm_compute. Qed.

End effect_recommendations.

(** ** Selection of principles *)

Section selector_behaviour.
Import knowledge principle_selector.
Open Scope list_scope.
Open Scope Q_scope.

Lemma filter_all {A : Type} (f : A -> bool) (l : list A) :
  Forall (fun x => f x = true) l -> List.filter f l = l.
Proof.
  induction 1 as [|x l Hx _ IH]; simpl; [done|]. by rewrite Hx, IH.
Qed.

Lemma filter_none {A : Type} (f : A -> bool) (l : list A) :
  Forall (fun x => f x = false) l -> List.filter f l = [].
Proof.
  induction 1 as [|x l Hx _ IH]; simpl; [done|]. by rewrite Hx, IH.
Qed.

(** The base score separates the two sources: 0.8 and more for a pair of
    the matrix, 0.65 and less for a heuristic selection. *)
Lemma relevance_score_by_source self principle_id improving_param
    worsening_param s :
  _calculate_relevance_score self principle_id improving_param worsening_param
    = Py.Ok s ->
  if in_matrix self (improving_param, worsening_param)
  then 0.8 <= s else s <= 0.65.
Proof.
  unfold _calculate_relevance_score, Py.getitem.
  destruct (principles self !! principle_id); simpl; [|done].
  intros [= <-].
  destruct (in_matrix self _), (bool_decide (principle_id ∈ universal_principles)),
    (Z.eqb improving_param 9 && bool_decide (principle_id ∈ speed_principles))%bool;
    match goal with
    | |- context [Py.min ?x ?y] =>
        destruct (min_spec x y) as [[H ->] | [H ->]]; lra
    end.
Qed.

Lemma recommend_each_by_source self improving_param worsening_param ids recs :
  recommend_each self improving_param worsening_param ids = Py.Ok recs ->
  Forall (fun r => if in_matrix self (improving_param, worsening_param)
                   then 0.8 <= relevance_score r
                   else relevance_score r <= 0.65) recs.
Proof.
  revert recs. induction ids as [|principle_id ids IH]; intros recs; simpl.
  - by intros [= <-].
  - destruct (principles self !! principle_id) as [d|]; [|by apply IH].
    destruct (_calculate_relevance_score self principle_id improving_param
                worsening_param) as [s|e] eqn:Es; simpl; [|done].
    destruct (_generate_reasoning self principle_id improving_param
                worsening_param) as [why|e]; simpl; [|done].
    destruct (recommend_each self improving_param worsening_param ids)
      as [others|e]; simpl; [|done].
    intros [= <-]. constructor; [|by apply IH].
    simpl. by eapply relevance_score_by_source.
Qed.

(** X13: the threshold of 0.7 splits a result by its source and by nothing
    else.  For a pair of the contradiction matrix every recommendation is
    primary and none is supporting; for a heuristic selection every
    recommendation is supporting and none is primary. *)
Theorem primary_iff_matrix_source self improving_param worsening_param r :
  select_principles self improving_param worsening_param = Py.Ok r ->
  match contradiction_matrix self !! (improving_param, worsening_param) with
  | Some _ =>
      matrix_source r = "contradiction_matrix"%string /\
      primary_principles r = recommendations r /\
      supporting_principles r = []
  | None =>
      matrix_source r = "heuristic"%string /\
      primary_principles r = [] /\
      supporting_principles r = recommendations r
  end.
Proof.
  unfold select_principles.
  set (ids := match contradiction_matrix self !! _ with
              | Some ids => ids
              | None => _ end).
  destruct (recommend_each self improving_param worsening_param ids)
    as [recs|e] eqn:E; simpl; [|done].
  intros [= <-]. simpl.
  apply recommend_each_by_source in E.
  assert (Hsorted : Forall (fun x =>
            if in_matrix self (improving_param, worsening_param)
            then 0.8 <= relevance_score x else relevance_score x <= 0.65)
            (Py.sort_desc relevance_score recs)).
  { apply Forall_forall. intros x Hx. apply sort_desc_elem_of in Hx.
    by apply (proj1 (Forall_forall _ _) E). }
  clear E. unfold in_matrix, Py.has_key in *. clearbody ids.
  destruct (contradiction_matrix self !! (improving_param, worsening_param)).
  - split; [done|]. split.
    + apply filter_all. eapply Forall_impl; [exact Hsorted|].
      intros x Hx. simpl in Hx. apply Qgeb_le. unfold primary_threshold. lra.
    + apply filter_none. eapply Forall_impl; [exact Hsorted|].
      intros x Hx. simpl in Hx.
      destruct (Py.Qltb _ _) eqn:El; [|done].
      apply Qltb_lt in El. unfold primary_threshold in El. lra.
  - split; [done|]. split.
    + apply filter_none. eapply Forall_impl; [exact Hsorted|].
      intros x Hx. simpl in Hx.
      destruct (Py.Qgeb _ _) eqn:El; [|done].
      apply Qgeb_le in El. unfold primary_threshold in El. lra.
    + apply filter_all. eapply Forall_impl; [exact Hsorted|].
      intros x Hx. simpl in Hx. apply Qltb_lt. unfold primary_threshold. lra.
Qed.

Lemma primary_iff_matrix_source_witness :
  exists r,
    select_principles samples.patched_selector 9 19 = Py.Ok r /\
    matrix_source r = "contradiction_matrix"%string /\
    primary_principles r = recommendations r /\
    supporting_principles r = [].
Proof.
  destruct (select_principles samples.patched_selector 9 19) as [r|e] eqn:E;
    [|by vm_compute in E].
  exists r. split; [done|].
  exact (primary_iff_matrix_source samples.patched_selector 9 19 r E).
Defined.

Lemma recommend_each_none_defined self improving_param worsening_param
    (ids : list Z) :
  (forall p, p ∈ ids -> principles self !! p = None) ->
  recommend_each self improving_param worsening_param ids = Py.Ok [].
Proof.
  induction ids as [|principle_id ids IH]; intros H; simpl; [done|].
  rewrite (H principle_id) by left.
  apply IH. intros p Hp. apply H. by right.
Qed.

(** X14: on a selector built by [__init__], [select_principles] raises
    [AttributeError] as soon as the principles file defines one of the ids
    selected for the pair, by the matrix or by the heuristic; when the file
    defines none of them, it returns a result without recommendations. *)
Theorem select_principles_after_init principles_yaml matrix_file
    improving_param worsening_param :
  let self := __init__ principles_yaml matrix_file in
  let ids :=
    default (_heuristic_principle_selection improving_param worsening_param)
      (contradiction_matrix self !! (improving_param, worsening_param)) in
  ((exists d, d ∈ principles_yaml /\ princ_id d ∈ ids) ->
   select_principles self improving_param worsening_param
     = Py.Raise Py.AttributeError) /\
  ((forall d, d ∈ principles_yaml -> princ_id d ∉ ids) ->
   exists r,
     select_principles self improving_param worsening_param = Py.Ok r /\
     recommendations r = [] /\
     primary_principles r = [] /\
     supporting_principles r = []).
Proof.
  intros self ids.
  assert (Hids : ids = match contradiction_matrix self
                               !! (improving_param, worsening_param) with
                       | Some l => l
                       | None => _heuristic_principle_selection improving_param
                                   worsening_param
                       end).
  { unfold ids. by destruct (contradiction_matrix self !! _). }
  unfold select_principles. rewrite <- Hids. clearbody ids. split.
  - intros (d & Hd & Hid).
    rewrite recommend_each_without_parameters_data; [done|done|].
    exists (princ_id d). split; [done|].
    simpl. apply index_by_lookup. by exists d.
  - intros Hnone.
    rewrite recommend_each_none_defined.
    + simpl. by eexists.
    + intros p Hp. apply eq_None_not_Some. simpl. rewrite index_by_lookup.
      intros (d & Hd & <-). by apply (Hnone d).
Qed.

Lemma select_principles_after_init_witness :
  select_principles (__init__ samples.forty_principles "matrix.csv") 20 30
    = Py.Raise Py.AttributeError /\
  exists r,
    select_principles (__init__ (take 10 samples.forty_principles) "matrix.csv")
      20 30 = Py.Ok r /\
    recommendations r = [] /\ primary_principles r = [] /\
    supporting_principles r = [].
Proof.
  split.
  - apply (select_principles_after_init samples.forty_principles "matrix.csv"
             20 30).
    exists (default (Build_TrizPrinciple 0 "" "" None)
                    (samples.forty_principles !! 14%nat)).
    split; [|by left].
    apply list_elem_of_lookup. by exists 14%nat.
  - apply (select_principles_after_init (take 10 samples.forty_principles)
             "matrix.csv" 20 30).
    intros d Hd.
    apply (proj1 (Forall_forall (fun d => princ_id d ∉ [15; 35; 36; 16]%Z)
                    (take 10 samples.forty_principles))); [|done].
    apply (proj1 (bool_decide_eq_true _)). by vm_compute.
Defined.

Lemma selected_ids_contain_1_or_35 principles_yaml matrix_file
    improving_param worsening_param :
  let ids :=
    default (_heuristic_principle_selection improving_param worsening_param)
      (contradiction_matrix (__init__ principles_yaml matrix_file)
         !! (improving_param, worsening_param)) in
  (1 ∈ ids \/ 35 ∈ ids)%Z.
Proof.
  simpl.
  assert (Hall : map_Forall (fun _ ids => 1 ∈ ids \/ 35 ∈ ids)%Z
                   (_load_contradiction_matrix matrix_file)).
  { apply (proj1 (bool_decide_eq_true _)). by vm_compute. }
  destruct (_load_contradiction_matrix matrix_file
              !! (improving_param, worsening_param)) as [ids|] eqn:E; simpl.
  - exact (Hall _ _ E).
  - unfold _heuristic_principle_selection, _is_technical_contradiction.
    destruct (_is_physical_contradiction _ _); simpl.
    + left. by left.
    + right. right. by left.
Qed.

(** X15: when the principles file defines the principles 1 and 35, no call
    of [select_principles] on a selector built by [__init__] returns: for
    every pair of parameters it raises [AttributeError], since each entry
    of the matrix and each heuristic list holds one of the two ids. *)
Theorem select_principles_always_raises principles_yaml matrix_file
    improving_param worsening_param :
  (exists d, d ∈ principles_yaml /\ princ_id d = 1%Z) ->
  (exists d, d ∈ principles_yaml /\ princ_id d = 35%Z) ->
  select_principles (__init__ principles_yaml matrix_file) improving_param
    worsening_param = Py.Raise Py.AttributeError.
Proof.
  intros (d1 & Hd1 & H1) (d35 & Hd35 & H35).
  pose proof (selected_ids_contain_1_or_35 principles_yaml matrix_file
                improving_param worsening_param) as Hhit.
  simpl in Hhit. unfold select_principles. simpl.
  set (ids := match _load_contradiction_matrix matrix_file !! _ with
              | Some ids => ids
              | None => _ end).
  assert (Hids : ids =
    default (_heuristic_principle_selection improving_param worsening_param)
      (_load_contradiction_matrix matrix_file
         !! (improving_param, worsening_param))).
  { unfold ids. by destruct (_load_contradiction_matrix matrix_file !! _). }
  rewrite <- Hids in Hhit. clearbody ids.
  rewrite recommend_each_without_parameters_data; [done|done|].
  destruct Hhit as [Hin|Hin].
  - exists 1%Z. split; [done|]. simpl. apply index_by_lookup. by exists d1.
  - exists 35%Z. split; [done|]. simpl. apply index_by_lookup. by exists d35.
Qed.

Lemma select_principles_always_raises_witness :
  select_principles samples.selector 33 12 = Py.Raise Py.AttributeError.
Proof.
  apply (select_principles_always_raises samples.forty_principles).
  - exists (default (Build_TrizPrinciple 0 "" "" None)
                    (samples.forty_principles !! 0%nat)).
    split; [|done]. apply list_elem_of_lookup. by exists 0%nat.
  - exists (default (Build_TrizPrinciple 0 "" "" None)
                    (samples.forty_principles !! 34%nat)).
    split; [|done]. apply list_elem_of_lookup. by exists 34%nat.
Defined.

(** X16: the last branch of [_heuristic_principle_selection] is never
    taken: the method answers [1, 2, 3, 7] when both parameters are among
    the ten physical ones and [15, 35, 36, 16] otherwise, and never the
    fallback [13, 1, 8, 15]. *)
Theorem heuristic_fallback_unreachable improving_param worsening_param :
  _heuristic_principle_selection improving_param worsening_param
    = (if bool_decide (improving_param ∈ physical_params /\
                       worsening_param ∈ physical_params)
       then [1; 2; 3; 7] else [15; 35; 36; 16])%Z /\
  _heuristic_principle_selection improving_param worsening_param
    <> [13; 1; 8; 15]%Z.
Proof.
  unfold _heuristic_principle_selection, _is_technical_contradiction,
    _is_physical_contradiction.
  destruct (bool_decide_reflect (improving_param ∈ physical_params)) as [Hi|Hi],
    (bool_decide_reflect (worsening_param ∈ physical_params)) as [Hw|Hw];
    simpl; (split; [|done]).
  - by rewrite bool_decide_eq_true_2.
  - rewrite bool_decide_eq_false_2; [done | tauto].
  - rewrite bool_decide_eq_false_2; [done | tauto].
  - rewrite bool_decide_eq_false_2; [done | tauto].
Qed.

End selector_behaviour.

(** ** The caches of the knowledge loader *)

Section loader_caches.
Import knowledge knowledge_loader.
Open Scope list_scope.

Lemma index_by_sound {A : Type} (key : A -> Z) (data : list A) (k : Z) (d : A) :
  index_by key data !! k = Some d -> d ∈ data /\ key d = k.
Proof.
  unfold index_by.
  assert (G : forall acc : gmap Z A,
    fold_left (fun m p => <[key p := p]> m) data acc !! k = Some d ->
    acc !! k = Some d \/ (d ∈ data /\ key d = k)).
  { induction data as [|x data IH]; intros acc; simpl; [by left|].
    intros H. destruct (IH _ H) as [Hacc|[Hin Hk]].
    - destruct (decide (key x = k)) as [<-|Hne].
      + rewrite lookup_insert_eq in Hacc. injection Hacc as <-.
        right. split; [left | done].
      + rewrite lookup_insert_ne in Hacc by done. by left.
    - right. split; [by right | done]. }
  intros H. destruct (G ∅ H) as [Hempty|Hin]; [|done].
  by rewrite lookup_empty in Hempty.
Qed.

(** X17: each file of the knowledge base is read at most once per loader.
    After a successful load, a later call returns the same table and leaves
    the loader as it is, whatever the files have become; a load that raises
    stores nothing, so the loader is unchanged and the exception is the one
    of the file. *)
Theorem loads_are_cached files files' self self' :
  (forall matrix,
     load_contradiction_matrix files self = (Py.Ok matrix, self') ->
     load_contradiction_matrix files' self' = (Py.Ok matrix, self')) /\
  (forall params,
     load_39_parameters files self = (Py.Ok params, self') ->
     load_39_parameters files' self' = (Py.Ok params, self')) /\
  (forall princ,
     load_40_principles files self = (Py.Ok princ, self') ->
     load_40_principles files' self' = (Py.Ok princ, self')) /\
  (forall e,
     load_contradiction_matrix files self = (Py.Raise e, self') ->
     self' = self /\ matrix_csv files = Py.Raise e) /\
  (forall e,
     load_39_parameters files self = (Py.Raise e, self') ->
     self' = self /\ parameters_yaml files = Py.Raise e) /\
  (forall e,
     load_40_principles files self = (Py.Raise e, self') ->
     self' = self /\ principles_yaml files = Py.Raise e).
Proof.
  unfold load_contradiction_matrix, load_39_parameters, load_40_principles.
  split; [|split; [|split; [|split; [|split]]]].
  - intros matrix. destruct (contradiction_matrix self) as [cached|] eqn:Ec.
    + intros [= <- <-]. by rewrite Ec.
    + destruct (matrix_csv files); [|done]. by intros [= <- <-].
  - intros params. destruct (parameters self) as [cached|] eqn:Ec.
    + intros [= <- <-]. by rewrite Ec.
    + destruct (parameters_yaml files); [|done]. by intros [= <- <-].
  - intros princ. destruct (principles self) as [cached|] eqn:Ec.
    + intros [= <- <-]. by rewrite Ec.
    + destruct (principles_yaml files); [|done]. by intros [= <- <-].
  - intros e. destruct (contradiction_matrix self); [done|].
    destruct (matrix_csv files); [done|]. by intros [= <- <-].
  - intros e. destruct (parameters self); [done|].
    destruct (parameters_yaml files); [done|]. by intros [= <- <-].
  - intros e. destruct (principles self); [done|].
    destruct (principles_yaml files); [done|]. by intros [= <- <-].
Qed.

Lemma loads_are_cached_witness :
  exists matrix self',
    load_contradiction_matrix samples.files __init__ = (Py.Ok matrix, self') /\
    load_contradiction_matrix samples.short_files self' = (Py.Ok matrix, self').
Proof.
  eexists _, _. split; [reflexivity|].
  by apply (loads_are_cached samples.files samples.short_files __init__).
Defined.

(** X18: once the three files have loaded, the verdict of
    [validate_contradiction_matrix] is fixed: a second validation on the
    same loader gives the same answer and the same loader, whatever the
    files have become in between. *)
Theorem validation_is_stable files files' rows params princ :
  matrix_csv files = Py.Ok rows ->
  parameters_yaml files = Py.Ok params ->
  principles_yaml files = Py.Ok princ ->
  validate_contradiction_matrix files'
    (snd (validate_contradiction_matrix files __init__))
  = validate_contradiction_matrix files __init__.
Proof.
  intros Hm Hp Hq.
  unfold validate_contradiction_matrix, validate_body, mbind, ret,
    load_contradiction_matrix, load_39_parameters, load_40_principles.
  simpl. by rewrite Hm, Hp, Hq.
Qed.

Lemma validation_is_stable_witness :
  validate_contradiction_matrix samples.short_files
    (snd (validate_contradiction_matrix samples.files __init__))
  = validate_contradiction_matrix samples.files __init__.
Proof.
  by apply (validation_is_stable samples.files samples.short_files
              samples.matrix_rows samples.thirty_nine_parameters
              samples.forty_principles).
Defined.

(** X19: on a fresh loader whose file loads, [get_principle_info] and
    [get_parameter_info] answer with an entry of the file that carries the
    requested id, and with [None] only when no entry of the file has that
    id. *)
Theorem get_info_sound files :
  (forall data principle_id,
     principles_yaml files = Py.Ok data ->
     exists r,
       fst (get_principle_info files principle_id __init__) = Py.Ok r /\
       match r with
       | Some d => d ∈ data /\ princ_id d = principle_id
       | None => forall d, d ∈ data -> princ_id d <> principle_id
       end) /\
  (forall data parameter_id,
     parameters_yaml files = Py.Ok data ->
     exists r,
       fst (get_parameter_info files parameter_id __init__) = Py.Ok r /\
       match r with
       | Some d => d ∈ data /\ param_id d = parameter_id
       | None => forall d, d ∈ data -> param_id d <> parameter_id
       end).
Proof.
  split.
  - intros data principle_id Hdata.
    unfold get_principle_info, mbind, ret, load_40_principles. simpl.
    rewrite Hdata. simpl. eexists. split; [done|].
    destruct (index_by princ_id data !! principle_id) as [d|] eqn:E.
    + by apply index_by_sound.
    + intros d Hd Hid.
      assert (is_Some (index_by princ_id data !! principle_id)) as [x Hx]
        by (apply index_by_lookup; by exists d).
      congruence.
  - intros data parameter_id Hdata.
    unfold get_parameter_info, mbind, ret, load_39_parameters. simpl.
    rewrite Hdata. simpl. eexists. split; [done|].
    destruct (index_by param_id data !! parameter_id) as [d|] eqn:E.
    + by apply index_by_sound.
    + intros d Hd Hid.
      assert (is_Some (index_by param_id data !! parameter_id)) as [x Hx]
        by (apply index_by_lookup; by exists d).
      congruence.
Qed.

Lemma get_info_sound_witness :
  exists r,
    fst (get_principle_info samples.files 15 __init__) = Py.Ok r /\
    match r with
    | Some d => d ∈ samples.forty_principles /\ princ_id d = 15%Z
    | None => forall d, d ∈ samples.forty_principles -> princ_id d <> 15%Z
    end.
Proof.
  by apply (proj1 (get_info_sound samples.files) samples.forty_principles 15%Z).
Defined.

End loader_caches.

(** ** The problem parser *)

Section parser_normal_form.
Import spec problem_parser.
















Example normalize_text_spaced :
  _normalize_text "  The   Car
   is	SLOW  " = "the car is slow".
Proof. by vm_compute. Qed.

End parser_normal_form.

Section parser_extraction.
Import spec problem_parser.
Open Scope list_scope.

(** Texts and their parts. *)
Lemma app_empty (t : string) : (EmptyString ++ t)%string = t.
Proof. done. Qed.

Lemma app_cons c (s t : string) :
  (String c s ++ t)%string = String c (s ++ t)%string.
Proof. done. Qed.

Lemma take_drop n s : (Py.str_take n s ++ Py.str_drop n s)%string = s.
Proof.
  revert s. induction n as [|n IH]; intros [|c s]; try done.
  cbn [Py.str_take Py.str_drop]. by rewrite app_cons, IH.
Qed.

Lemma length_app s t :
  String.length (s ++ t)%string = (String.length s + String.length t)%nat.
Proof.
  induction s as [|c s IH]; [done|].
  rewrite app_cons. simpl. by rewrite IH.
Qed.

Lemma str_take_app s t : Py.str_take (String.length s) (s ++ t)%string = s.
Proof.
  induction s as [|c s IH]; [by destruct t|].
  rewrite app_cons. simpl. by rewrite IH.
Qed.

Lemma str_drop_app s t : Py.str_drop (String.length s) (s ++ t)%string = t.
Proof.
  induction s as [|c s IH]; [by destruct t|].
  rewrite app_cons. simpl. by rewrite IH.
Qed.


Lemma app_assoc_string (s t u : string) :
  ((s ++ t) ++ u = s ++ (t ++ u))%string.
Proof.
  induction s as [|c s IH]; [done|]. by rewrite !app_cons, IH.
Qed.

Lemma starts_with_prefix t s : re.starts_with false t s = String.prefix t s.
Proof.
  revert s. induction t as [|a t IH]; intros [|b s]; simpl; try done.
  destruct (ascii_dec a b) as [->|Hne].
  - by rewrite Ascii.eqb_refl, IH.
  - by apply Ascii.eqb_neq in Hne as ->.
Qed.

Lemma prefix_app t s :
  String.prefix t s = true <-> exists rest, s = (t ++ rest)%string.
Proof.
  revert s. induction t as [|a t IH]; intros [|b s]; simpl.
  - split; [by exists EmptyString | done].
  - split; [by eexists | done].
  - split; [done | by intros [rest H]].
  - destruct (ascii_dec a b) as [->|Hne].
    + rewrite IH. split; intros [rest H]; exists rest.
      * by rewrite app_cons, H.
      * rewrite app_cons in H. congruence.
    + split; [done|]. intros [rest H]. rewrite app_cons in H. congruence.
Qed.

Lemma contains_iff t s :
  Py.contains t s = true <->
  exists pre rest, s = (pre ++ t ++ rest)%string.
Proof.
  induction s as [|c s IH].
  - cbn [Py.contains]. rewrite orb_false_r, prefix_app. split.
    + intros [rest H]. by exists EmptyString, rest.
    + intros (pre & rest & H). destruct pre; [by exists rest|done].
  - cbn [Py.contains]. rewrite orb_true_iff, IH, prefix_app. split.
    + intros [[rest H]|(pre & rest & H)].
      * by exists EmptyString, rest.
      * exists (String c pre), rest. by rewrite app_cons, H.
    + intros (pre & rest & H). destruct pre as [|c' pre].
      * left. by exists rest.
      * right. exists pre, rest. rewrite app_cons in H. congruence.
Qed.

(** The continuation of [run] only sees ends of the text. *)
Lemma backoff_suffix {R : Type} n least s (k : string -> option R) x :
  re.backoff n least s k = Some x ->
  exists pre rest, s = (pre ++ rest)%string /\ k rest = Some x.
Proof.
  induction n as [|n IH]; cbn [re.backoff].
  - destruct (0 <? least)%nat; [done|]. simpl.
    destruct (k s) eqn:E; [|done]. intros [= <-]. by exists EmptyString, s.
  - destruct (S n <? least)%nat; [done|].
    destruct (k (Py.str_drop (S n) s)) eqn:E.
    + intros [= <-]. exists (Py.str_take (S n) s), (Py.str_drop (S n) s).
      by rewrite take_drop.
    + apply IH.
Qed.

Lemma run_suffix {R : Type} ignorecase r s cap
    (k : string -> option string -> option R) x :
  re.run ignorecase r s cap k = Some x ->
  exists pre rest cap', s = (pre ++ rest)%string /\ k rest cap' = Some x.
Proof.
  revert s cap k x.
  induction r as [t|cls least|r1 IH1 r2 IH2|r1 IH1 r2 IH2|r1 IH1|r1 IH1];
    intros s cap k x; cbn [re.run].
  - destruct (re.starts_with ignorecase t s); [|done]. intros H.
    exists (Py.str_take (String.length t) s), (Py.str_drop (String.length t) s),
      cap. by rewrite take_drop.
  - intros H. apply backoff_suffix in H as (pre & rest & -> & H).
    by exists pre, rest, cap.
  - intros H. apply IH1 in H as (pre1 & rest1 & cap1 & -> & H).
    apply IH2 in H as (pre2 & rest2 & cap2 & -> & H).
    exists (pre1 ++ pre2)%string, rest2, cap2.
    by rewrite app_assoc_string.
  - destruct (re.run ignorecase r1 s cap k) eqn:E.
    + intros [= <-]. by apply IH1 in E.
    + apply IH2.
  - destruct (re.run ignorecase r1 s cap k) eqn:E.
    + intros [= <-]. by apply IH1 in E.
    + intros H. by exists EmptyString, s, cap.
  - intros H. apply IH1 in H as (pre & rest & cap' & -> & H).
    by eexists pre, rest, _.
Qed.

Lemma match_here_suffix ignorecase r s m rest :
  re.match_here ignorecase r s = Some (m, rest) ->
  exists pre, s = (pre ++ rest)%string.
Proof.
  unfold re.match_here. intros H.
  apply run_suffix in H as (pre & rest' & cap' & -> & [= _ <-]).
  by exists pre.
Qed.

(** Every match of [finditer] starts somewhere in the text. *)
Lemma scan_elem_of fuel ignorecase r s m :
  m ∈ re.scan fuel ignorecase r s ->
  exists pre s' rest,
    s = (pre ++ s')%string /\ re.match_here ignorecase r s' = Some (m, rest).
Proof.
  revert s. induction fuel as [|fuel IH]; intros s; cbn [re.scan].
  - intros H. by inversion H.
  - assert (Htail : forall c s1, s = String c s1 ->
      m ∈ re.scan fuel ignorecase r s1 ->
      exists pre s' rest, s = (pre ++ s')%string /\
        re.match_here ignorecase r s' = Some (m, rest)).
    { intros c s1 -> H. apply IH in H as (pre & s' & rest & -> & H).
      by exists (String c pre), s', rest. }
    destruct (re.match_here ignorecase r s) as [[m0 rest0]|] eqn:E.
    + assert (Hhead : m = m0 ->
        exists pre s' rest, s = (pre ++ s')%string /\
          re.match_here ignorecase r s' = Some (m, rest)).
      { intros ->. by exists EmptyString, s, rest0. }
      destruct (String.length rest0 <? String.length s)%nat.
      * intros H. inversion H; subst; [by apply Hhead|].
        apply match_here_suffix in E as [pre0 ->].
        match goal with
        | H : m ∈ re.scan _ _ _ _ |- _ =>
            apply IH in H as (pre & s' & rest & -> & H)
        end.
        exists (pre0 ++ pre)%string, s', rest.
        by rewrite app_assoc_string.
      * destruct s as [|c s1].
        -- intros H. inversion H; subst; [by apply Hhead|].
           match goal with H : m ∈ [] |- _ => inversion H end.
        -- intros H. inversion H; subst; [by apply Hhead|].
           by apply (Htail c s1).
    + destruct s as [|c s1].
      * intros H. by inversion H.
      * by apply (Htail c s1).
Qed.

(** [finditer] finds nothing exactly when no match starts anywhere. *)
Lemma scan_nil fuel ignorecase r s :
  (String.length s < fuel)%nat ->
  re.scan fuel ignorecase r s = [] <->
  forall pre s', s = (pre ++ s')%string ->
                 re.match_here ignorecase r s' = None.
Proof.
  revert s. induction fuel as [|fuel IH]; intros s Hfuel; [lia|].
  cbn [re.scan].
  destruct (re.match_here ignorecase r s) as [[m0 rest0]|] eqn:E.
  - split.
    + intros H. destruct (String.length rest0 <? String.length s)%nat;
        [done|]. by destruct s.
    + intros H. by rewrite (H EmptyString s) in E.
  - destruct s as [|c s1].
    + split; [|done]. intros _ pre s' H.
      destruct pre; [|by rewrite app_cons in H].
      rewrite app_empty in H. by subst.
    + simpl in Hfuel. rewrite IH by lia. split.
      * intros H pre s' Hs. destruct pre as [|c' pre].
        -- rewrite app_empty in Hs. by subst.
        -- rewrite app_cons in Hs. injection Hs as _ Hs. by apply (H pre).
      * intros H pre s' Hs. apply (H (String c pre)).
        by rewrite app_cons, Hs.
Qed.

(** An alternation of literal texts takes the first text of the list that
    starts the input. *)
Lemma run_one_of {R : Type} ts s cap
    (k : string -> option string -> option R) (f : string -> R) :
  ts <> [] ->
  (forall rest, k rest cap = Some (f rest)) ->
  re.run false (re.one_of ts) s cap k =
    match List.find (fun t => String.prefix t s) ts with
    | Some t => Some (f (Py.str_drop (String.length t) s))
    | None => None
    end.
Proof.
  intros Hne Hk. induction ts as [|t ts IH]; [done|].
  destruct ts as [|t2 ts].
  - cbn [re.one_of re.run List.find]. rewrite starts_with_prefix.
    destruct (String.prefix t s); [apply Hk | done].
  - change (re.one_of (t :: t2 :: ts))
      with (re.Alt (re.Lit t) (re.one_of (t2 :: ts))).
    cbn [re.run]. rewrite starts_with_prefix.
    change (List.find (fun t => String.prefix t s) (t :: t2 :: ts))
      with (if String.prefix t s then Some t
            else List.find (fun t => String.prefix t s) (t2 :: ts)).
    destruct (String.prefix t s).
    + by rewrite Hk.
    + by apply IH.
Qed.

Lemma match_here_one_of ts s :
  ts <> [] ->
  re.match_here false (re.Group (re.one_of ts)) s =
    match List.find (fun t => String.prefix t s) ts with
    | Some t => Some ({| re.group0 := t; re.group1 := Some t |},
                      Py.str_drop (String.length t) s)
    | None => None
    end.
Proof.
  intros Hne. unfold re.match_here. cbn [re.run].
  rewrite (run_one_of ts s None _
    (fun rest =>
       ({| re.group0 :=
             Py.str_take (String.length s - String.length rest) s;
           re.group1 :=
             Some (Py.str_take (String.length s - String.length rest) s) |},
        rest))); [|done|done].
  destruct (List.find _ ts) as [t|] eqn:E; [|done].
  apply find_some in E as [_ E]. apply prefix_app in E as [rest ->].
  rewrite str_drop_app, length_app.
  replace (String.length t + String.length rest - String.length rest)%nat
    with (String.length t) by lia.
  by rewrite str_take_app.
Qed.

(** [re.search] for an alternation of literal texts. *)
Lemma search_one_of ts text :
  ts <> [] ->
  (forall m, re.search (re.Group (re.one_of ts)) text = Some m ->
     re.group1_or_0 m ∈ ts /\ Py.contains (re.group1_or_0 m) text = true) /\
  (re.search (re.Group (re.one_of ts)) text = None <->
   forall t, t ∈ ts -> Py.contains t text = false).
Proof.
  intros Hne. unfold re.search, re.finditer. split.
  - intros m Hm. apply head_Some_elem_of, scan_elem_of in Hm
      as (pre & s' & rest & -> & Hm).
    rewrite match_here_one_of in Hm by done.
    destruct (List.find _ ts) as [t|] eqn:E; [|done].
    injection Hm as <- <-. simpl.
    apply find_some in E as [Hin E]. split.
    + by apply list_elem_of_In.
    + apply prefix_app in E as [rest' ->]. apply contains_iff.
      by exists pre, rest'.
  - rewrite head_None, scan_nil by lia. split.
    + intros H t Ht. apply not_true_is_false. intros Hc.
      apply contains_iff in Hc as (pre & rest & ->).
      specialize (H pre (t ++ rest)%string eq_refl).
      rewrite match_here_one_of in H by done.
      destruct (List.find _ ts) as [t'|] eqn:E; [done|].
      apply list_elem_of_In in Ht.
      pose proof (find_none _ _ E t Ht) as Hp. simpl in Hp.
      assert (String.prefix t (t ++ rest) = true)
        by (apply prefix_app; by exists rest).
      congruence.
    + intros H pre s' ->. rewrite match_here_one_of by done.
      destruct (List.find _ ts) as [t|] eqn:E; [|done].
      apply find_some in E as [Hin E]. apply list_elem_of_In in Hin.
      apply prefix_app in E as [rest ->].
      assert (Py.contains t (pre ++ t ++ rest) = true)
        by (apply contains_iff; by exists pre, rest).
      rewrite (H t Hin) in *. done.
Qed.

Lemma extract_technical_system_spec text :
  (forall w, _extract_technical_system text = Some w ->
     w ∈ ["car"; "vehicle"; "automobile"; "engine"; "motor"; "machine";
          "device"; "system"]%string /\
     Py.contains w text = true) /\
  (_extract_technical_system text = None <->
   forall w, w ∈ ["car"; "vehicle"; "automobile"; "engine"; "motor"; "machine";
                  "device"; "system"]%string ->
             Py.contains w text = false) /\
  (forall w, w ∈ ["car"; "vehicle"; "automobile"]%string ->
     Py.contains w text = true ->
     exists w', _extract_technical_system text = Some w' /\
                w' ∈ ["car"; "vehicle"; "automobile"]%string).
Proof.
  unfold _extract_technical_system, system_patterns. cbn [first_system].
  change ["car"; "vehicle"; "automobile"; "engine"; "motor"; "machine";
          "device"; "system"]%string
    with (["car"; "vehicle"; "automobile"]
          ++ ["engine"; "motor"] ++ ["machine"; "device"; "system"])%list.
  destruct (search_one_of ["car"; "vehicle"; "automobile"]%string text
              ltac:(done)) as [S1 N1].
  destruct (search_one_of ["engine"; "motor"]%string text ltac:(done))
    as [S2 N2].
  destruct (search_one_of ["machine"; "device"; "system"]%string text
              ltac:(done)) as [S3 N3].
  destruct (re.search (re.Group (re.one_of ["car"; "vehicle"; "automobile"]))
              text) as [m1|].
  { destruct (S1 m1 eq_refl) as [Hin Hc]. split; [|split].
    - intros w [= <-]. split; [|done]. rewrite !elem_of_app. by left.
    - split; [done|]. intros H. rewrite (H (re.group1_or_0 m1)) in Hc; [done|].
      rewrite !elem_of_app. by left.
    - intros w _ _. by eexists. }
  pose proof (proj1 N1 eq_refl) as H1.
  destruct (re.search (re.Group (re.one_of ["engine"; "motor"])) text) as [m2|].
  { destruct (S2 m2 eq_refl) as [Hin Hc]. split; [|split].
    - intros w [= <-]. split; [|done]. rewrite !elem_of_app. right. by left.
    - split; [done|]. intros H. rewrite (H (re.group1_or_0 m2)) in Hc; [done|].
      rewrite !elem_of_app. right. by left.
    - intros w Hw Hcw. by rewrite (H1 w Hw) in Hcw. }
  pose proof (proj1 N2 eq_refl) as H2.
  destruct (re.search (re.Group (re.one_of ["machine"; "device"; "system"]))
              text) as [m3|].
  { destruct (S3 m3 eq_refl) as [Hin Hc]. split; [|split].
    - intros w [= <-]. split; [|done]. rewrite !elem_of_app. right. by right.
    - split; [done|]. intros H. rewrite (H (re.group1_or_0 m3)) in Hc; [done|].
      rewrite !elem_of_app. right. by right.
    - intros w Hw Hcw. by rewrite (H1 w Hw) in Hcw. }
  pose proof (proj1 N3 eq_refl) as H3.
  split; [done|]. split.
  - split; [|done]. intros _ w Hw. rewrite !elem_of_app in Hw.
    destruct Hw as [Hw|[Hw|Hw]]; [by apply H1 | by apply H2 | by apply H3].
  - intros w Hw Hcw. by rewrite (H1 w Hw) in Hcw.
Qed.

(** X21: [_extract_technical_system] answers with one of its eight
    vocabulary words, and only with a word that occurs in the text; it
    answers [None] exactly when none of the eight occurs; and when the text
    holds "car", "vehicle" or "automobile" the answer is one of these
    three, whatever else the text holds. *)
Theorem extract_technical_system_sound text :
  (forall w, _extract_technical_system text = Some w ->
     w ∈ ["car"; "vehicle"; "automobile"; "engine"; "motor"; "machine";
          "device"; "system"]%string /\
     Py.contains w text = true) /\
  (_extract_technical_system text = None <->
   forall w, w ∈ ["car"; "vehicle"; "automobile"; "engine"; "motor"; "machine";
                  "device"; "system"]%string ->
             Py.contains w text = false) /\
  (forall w, w ∈ ["car"; "vehicle"; "automobile"]%string ->
     Py.contains w text = true ->
     exists w', _extract_technical_system text = Some w' /\
                w' ∈ ["car"; "vehicle"; "automobile"]%string).
Proof. exact (extract_technical_system_spec text). Qed.

Lemma extract_technical_system_sound_witness :
  "engine"%string ∈ ["car"; "vehicle"; "automobile"; "engine"; "motor";
                      "machine"; "device"; "system"]%string /\
  Py.contains "engine" "the engine of the machine overheats" = true.
Proof.
  apply (proj1 (extract_technical_system_sound
                  "the engine of the machine overheats") "engine"%string).
  by vm_compute.
Defined.

End parser_extraction.

Section parser_fields.
Import spec problem_parser.
Open Scope list_scope.













(** X24: the context of a parsed problem holds the single key "domain",
    with one of three values, and agrees with the technical system: a
    problem whose system is "car", "vehicle" or "engine" is automotive, and
    a problem whose system is "machine" is never general. *)
Theorem parse_domain_consistent problem_text :
  let parsed := parse __init__ problem_text in
  (exists d, d ∈ ["automotive"; "manufacturing"; "general"]%string /\
             context parsed = {[ "domain"%string := d ]}) /\
  (forall w, technical_system parsed = Some w ->
     w ∈ ["car"; "vehicle"; "engine"]%string ->
     context parsed !! "domain"%string = Some "automotive"%string) /\
  (technical_system parsed = Some "machine"%string ->
   context parsed !! "domain"%string <> Some "general"%string).
Proof.
  cbn [parse context technical_system]. cbv zeta.
  set (text := _normalize_text problem_text).
  destruct (extract_technical_system_spec text) as (Hsome & _ & _).
  unfold _extract_context.
  destruct (existsb (fun word => Py.contains word text)
              ["car"; "vehicle"; "engine"]%string) eqn:E1;
    [|destruct (existsb (fun word => Py.contains word text)
                  ["machine"; "manufacturing"]%string) eqn:E2].
  - split; [|split].
    + exists "automotive"%string. split; [left | by rewrite insert_empty].
    + intros w _ _. by rewrite lookup_insert_eq.
    + intros _. by rewrite lookup_insert_eq.
  - split; [|split].
    + exists "manufacturing"%string.
      split; [right; left | by rewrite insert_empty].
    + intros w Hw Hin. destruct (Hsome w Hw) as [_ Hc].
      assert (existsb (fun word => Py.contains word text)
                ["car"; "vehicle"; "engine"]%string = true); [|congruence].
      apply existsb_exists. exists w. split; [by apply list_elem_of_In | done].
    + intros _. by rewrite lookup_insert_eq.
  - split; [|split].
    + exists "general"%string.
      split; [right; right; left | by rewrite insert_empty].
    + intros w Hw Hin. destruct (Hsome w Hw) as [_ Hc].
      assert (existsb (fun word => Py.contains word text)
                ["car"; "vehicle"; "engine"]%string = true); [|congruence].
      apply existsb_exists. exists w. split; [by apply list_elem_of_In | done].
    + intros Hw. destruct (Hsome _ Hw) as [_ Hc].
      assert (existsb (fun word => Py.contains word text)
                ["machine"; "manufacturing"]%string = true); [|congruence].
      apply existsb_exists. exists "machine"%string. split; [by left | done].
Qed.

Lemma parse_domain_consistent_witness :
  context (parse __init__ "The ENGINE runs hot") !! "domain"%string
    = Some "automotive"%string.
Proof.
  destruct (parse_domain_consistent "The ENGINE runs hot") as (_ & H & _).
  apply (H "engine"%string); [by vm_compute|]. right. right. left.
Defined.

(** The two vocabularies differ: an "automobile" or a "motor" alone does not
    make a problem automotive. *)
Example parse_automobile_is_general :
  let parsed := parse __init__ "The automobile is too heavy" in
  technical_system parsed = Some "automobile"%string /\
  context parsed = {[ "domain"%string := "general"%string ]}.
Proof. by vm_compute. Qed.

End parser_fields.

(** ** Adaptation of concepts *)

Section adaptation.
Import spec adaptation_planner.
Open Scope list_scope.
Open Scope Q_scope.

(** X25: the roadmap depends on the timeline alone.  The rewriting of the
    steps for a low budget looks for "comprehensive" and "extensive" in
    lower case, which no step contains, so two contexts with the same
    timeline get the same roadmap, of four steps for a short timeline and
    of six steps otherwise. *)
Theorem roadmap_depends_on_timeline_only concept concept' context context' :
  timeline context = timeline context' ->
  _generate_implementation_roadmap concept context
    = _generate_implementation_roadmap concept' context' /\
  length (_generate_implementation_roadmap concept context)
    = (if String.eqb (timeline context) "short" then 4 else 6)%nat.
Proof.
  intros Ht. unfold _generate_implementation_roadmap. rewrite <- Ht.
  destruct (String.eqb (timeline context) "short");
    [|destruct (String.eqb (timeline context) "long")];
    destruct (String.eqb (budget_level context) "low");
    destruct (String.eqb (budget_level context') "low");
    by vm_compute.
Qed.

Lemma roadmap_depends_on_timeline_only_witness :
  _generate_implementation_roadmap samples.breakthrough_concept samples.patient_context
    = _generate_implementation_roadmap samples.breakthrough_concept
        samples.funded_context /\
  length (_generate_implementation_roadmap samples.breakthrough_concept
            samples.patient_context) = 6%nat.
Proof.
  by apply (roadmap_depends_on_timeline_only samples.breakthrough_concept
              samples.breakthrough_concept samples.patient_context samples.funded_context).
Defined.

(** X26: at most five modifications are returned, and they are cut from
    the front: when the budget is low or high and the timeline is short or
    long, the three modifications for the budget and the first two for the
    timeline fill the list, so that the technical expertise has no effect. *)
Theorem modifications_ignore_expertise concept concept' context context' :
  budget_level context = budget_level context' ->
  timeline context = timeline context' ->
  budget_level context = "low"%string \/ budget_level context = "high"%string ->
  timeline context = "short"%string \/ timeline context = "long"%string ->
  _generate_contextual_modifications concept context
    = _generate_contextual_modifications concept' context' /\
  length (_generate_contextual_modifications concept context) = 5%nat.
Proof.
  intros Hb Ht Hbudget Htimeline.
  unfold _generate_contextual_modifications. rewrite <- Hb, <- Ht.
  destruct Hbudget as [-> | ->], Htimeline as [-> | ->];
    destruct (String.eqb (technical_expertise context) "low"),
      (String.eqb (technical_expertise context) "high"),
      (String.eqb (technical_expertise context') "low"),
      (String.eqb (technical_expertise context') "high");
    by vm_compute.
Qed.

Lemma modifications_ignore_expertise_witness :
  _generate_contextual_modifications samples.breakthrough_concept
    samples.strained_context
  = _generate_contextual_modifications samples.breakthrough_concept
      (Build_AdaptationContext "automotive" "startup" "low" "short" "high"
         "conservative" [] [] []) /\
  length (_generate_contextual_modifications samples.breakthrough_concept
            samples.strained_context) = 5%nat.
Proof.
  apply (modifications_ignore_expertise samples.breakthrough_concept
           samples.breakthrough_concept samples.strained_context
           (Build_AdaptationContext "automotive" "startup" "low" "short" "high"
              "conservative" [] [] [])).
  - reflexivity.
  - reflexivity.
  - by left.
  - by left.
Defined.





(** X28: the bonus for an enterprise is never given to a concept whose
    risks come from [_assess_risks]: the technical risk reads "Low - ..." or
    "Medium - ...", never "Low" alone, so that for an enterprise the fit
    score of such a concept is its adaptation confidence. *)
Theorem enterprise_bonus_never_applies concept risk_context context adapted_concept :
  risk_assessment adapted_concept = _assess_risks concept risk_context ->
  company_size context = "enterprise"%string ->
  fit_score context adapted_concept = adaptation_confidence adapted_concept.
Proof.
  intros Hrisk Hsize. unfold fit_score. rewrite Hsize, Hrisk.
  change (String.eqb "enterprise" "startup") with false.
  change (String.eqb "enterprise" "enterprise") with true.
  cbn [andb].
  assert (Htech : _assess_risks concept risk_context !! "technical"%string
            = Some (if String.eqb (technical_expertise risk_context) "low"
                    then "Medium - Limited internal expertise may require external support"
                    else "Low - Sufficient expertise to manage implementation")%string).
  { unfold _assess_risks.
    destruct (regulatory_constraints risk_context);
      (rewrite lookup_insert_ne by done);
      destruct (String.eqb (timeline risk_context) "short"),
        (String.eqb (timeline risk_context) "long");
      (rewrite lookup_insert_ne by done);
      destruct (String.eqb (budget_level risk_context) "low"),
        (String.eqb (budget_level risk_context) "high");
      (rewrite lookup_insert_ne by done);
      destruct (String.eqb (technical_expertise risk_context) "low");
      by rewrite lookup_insert_eq. }
  rewrite Htech.
  by destruct (String.eqb (technical_expertise risk_context) "low").
Qed.

Lemma enterprise_bonus_never_applies_witness :
  fit_score samples.patient_context
    (samples.adapted "concept_1" "Dynamic thermal drive" "A drive that adapts."
       samples.breakthrough_concept samples.patient_context)
  = adaptation_confidence
      (samples.adapted "concept_1" "Dynamic thermal drive" "A drive that adapts."
         samples.breakthrough_concept samples.patient_context).
Proof.
  by apply (enterprise_bonus_never_applies samples.breakthrough_concept
              samples.patient_context samples.patient_context).
Defined.

End adaptation.

(** ** The domain keywords of the command line *)

Section domain_keywords.
Import heinrich_cli.
Open Scope list_scope.

Lemma flat_map_nil {A B : Type} (f : A -> list B) (l : list A) :
  flat_map f l = [] <-> forall x, x ∈ l -> f x = [].
Proof.
  induction l as [|a l IH]; simpl.
  - split; [|done]. intros _ x Hx. by inversion Hx.
  - split.
    + intros H. apply app_eq_nil in H as [Ha Hl]. intros x Hx.
      apply elem_of_cons in Hx as [->|Hx]; [done|]. by apply IH.
    + intros H. rewrite (H a) by left. simpl. apply IH.
      intros x Hx. apply H. by right.
Qed.

(** X29: [_extract_domain_keywords] returns no keyword, three or five.  It
    returns none exactly when no pattern of any domain occurs in the
    lower-cased text, it does not depend on the case of the text, and its
    first keyword, when there is one, is the name of a domain. *)
Theorem extract_domain_keywords_shape problem_text :
  length (_extract_domain_keywords problem_text) ∈ [0; 3; 5]%nat /\
  (_extract_domain_keywords problem_text = [] <->
   forall domain patterns pattern,
     (domain, patterns) ∈ domain_patterns -> pattern ∈ patterns ->
     Py.contains pattern (Py.lower problem_text) = false) /\
  _extract_domain_keywords (Py.lower problem_text)
    = _extract_domain_keywords problem_text /\
  (forall keyword, head (_extract_domain_keywords problem_text) = Some keyword ->
     keyword ∈ map fst domain_patterns).
Proof.
  split; [|split; [|split]].
  - unfold _extract_domain_keywords, domain_patterns. cbn [flat_map].
    repeat match goal with
           | |- context [existsb ?f ?l] => destruct (existsb f l)
           end;
      apply (proj1 (bool_decide_eq_true _)); by vm_compute.
  - unfold _extract_domain_keywords.
    set (f := fun '(domain, patterns) => _).
    assert (Htake : forall l : list string, take 5 l = [] <-> l = []).
    { intros [|x l]; [done|]. split; [|done]. by simpl. }
    rewrite Htake, flat_map_nil. split.
    + intros H domain patterns pattern Hd Hp.
      specialize (H _ Hd). unfold f in H.
      destruct (existsb _ patterns) eqn:E; [done|].
      apply not_true_is_false. intros Hc.
      assert (existsb (fun pattern => Py.contains pattern (Py.lower problem_text))
                patterns = true); [|congruence].
      apply existsb_exists. exists pattern.
      split; [by apply list_elem_of_In | done].
    + intros H [domain patterns] Hd. unfold f.
      destruct (existsb _ patterns) eqn:E; [|done].
      apply existsb_exists in E as (pattern & Hp & Hc).
      apply list_elem_of_In in Hp. by rewrite (H _ _ _ Hd Hp) in Hc.
  - unfold _extract_domain_keywords. by rewrite lower_idempotent.
  - unfold _extract_domain_keywords, domain_patterns. cbn [flat_map].
    intros keyword.
    repeat match goal with
           | |- context [existsb ?f ?l] => destruct (existsb f l)
           end;
      intros [= <-]; apply (proj1 (bool_decide_eq_true _)); by vm_compute.
Qed.

(** The two patterns that follow the name of a domain are the first two of
    its list, whether they occur in the text or not. *)
Example extract_domain_keywords_brake :
  _extract_domain_keywords "The BRAKE drains the battery of the implant"
    = ["automotive"; "car"; "vehicle"; "medical"; "patient"].
Proof. by vm_compute. Qed.

End domain_keywords.
